(** * dcapy: the water-oil-ratio forecast of [dcapy/dca/wor.py]

    A shallow embedding of the transforms [bsw_to_wor] and [wor_to_bsw], of the
    recurrence engine [wor_forecast] and of the numeric-time path of
    [Wor.forecast], followed by the properties of the specification.

    Numbers.  The program computes on numpy doubles, and it is read here
    twice.  In the first reading, on which the general properties are
    proved, doubles are idealised as real numbers: every finite double is a
    real, arithmetic is exact, and [exp] never overflows.  The one place
    where this reading leaves the finite numbers is a division by zero; a
    quotient whose divisor can be zero is therefore an [npfloat], which adds
    the IEEE results [+inf], [-inf] and [nan] to the reals.  Zero has no
    sign here: a zero divisor stands for [+0.0], which is what [1 - bsw] and
    the differences of equal times are.

    The second reading, the module [F64], is the same program on binary64.
    It is run on concrete inputs and shows where the doubles leave the
    reals: [exp] overflows to [+inf], [inf / inf] and [inf * 0] are [nan],
    [wor + 1] rounds to [wor] from [2^53] on, and integers above [2^53] are
    not exact.  A property that holds of the program only while its doubles
    stay clear of these carries that as a hypothesis: the entries of the run
    are finite ([finite_table]), the WOR is bounded ([wor_below]), the
    argument of [exp] is at most [700], the times are integers that float64
    holds exactly ([int_time]).

    Exceptions.  A Python exception ends the call; functions that can raise
    return a [result]. *)

From Stdlib Require Import Floats.
From Stdlib Require Import Reals Lra Lia.
From stdpp Require Import base list.

Local Open Scope R_scope.

(** ** Python exceptions and the error monad *)

Inductive exn : Type :=
| AssertionError      (* a failed [assert] *)
| ValueError          (* numpy/pandas shape errors *)
| IndexError          (* a subscript out of range *)
| UnboundLocalError   (* a local variable read before any assignment *)
| NonFiniteWor        (* not a Python exception: the initial WOR is not a
                         finite number, which the real-valued embedding of
                         [wor_forecast] does not cover *)
| UnknownExp.         (* not a Python exception: [np.exp] at an argument
                         where its double is not fixed by the standards,
                         which the binary64 embedding does not cover *)

Inductive result (A : Type) : Type :=
| Ok (a : A)
| Raise (e : exn).
Arguments Ok {A} a.
Arguments Raise {A} e.

(** [x ← c; k] runs [c] and, unless it raised, continues with [k]. *)
#[global] Instance result_bind : MBind result := fun A B k c =>
  match c with
  | Ok a => k a
  | Raise e => Raise e
  end.

Definition assert (b : bool) : result unit :=
  if b then Ok tt else Raise AssertionError.

(** ** Doubles: comparisons and division *)

Inductive npfloat : Type :=
| Fin (r : R)
| PInf
| NInf
| NaN.

Definition Rleb (a b : R) : bool := if Rle_dec a b then true else false.
Definition Rgeb (a b : R) : bool := Rleb b a.
Definition Rnonzero (a : R) : bool := if Req_dec_T a 0 then false else true.

(** [a / b] on doubles: the quotient when [b] is not zero, and otherwise
    [inf] with the sign of [a], or [nan] for [0 / 0]. *)
Definition np_div (a b : R) : npfloat :=
  if Req_dec_T b 0 then
    if Rlt_dec 0 a then PInf else if Rlt_dec a 0 then NInf else NaN
  else Fin (a / b).

(** A double divided by a finite double. *)
Definition np_div_float (x : npfloat) (b : R) : npfloat :=
  match x with
  | Fin a => np_div a b
  | PInf => if Rlt_dec b 0 then NInf else PInf
  | NInf => if Rlt_dec b 0 then PInf else NInf
  | NaN => NaN
  end.

(** ** numpy arrays as lists *)

Definition np_zeros (n : nat) : list R := replicate n 0.

(** [a[i]] *)
Definition getitem (a : list R) (i : nat) : result R :=
  match a !! i with
  | Some x => Ok x
  | None => Raise IndexError
  end.

(** A one-element array stored into one slot of another array. *)
Definition item (a : list R) : result R :=
  match a with
  | [x] => Ok x
  | _ => Raise ValueError
  end.

(** [np.gradient(f)] with unit spacing: one-sided differences at the two
    ends, centred differences inside; fewer than two elements is an error. *)
Definition np_gradient (f : list R) : result (list R) :=
  let n := length f in
  if (n <? 2)%nat then Raise ValueError
  else Ok (map (fun i : nat =>
                  if (i =? 0)%nat then nth 1 f 0 - nth 0 f 0
                  else if (i =? n - 1)%nat then nth (n - 1) f 0 - nth (n - 2) f 0
                  else (nth (i + 1) f 0 - nth (i - 1) f 0) / 2)
               (seq 0 n)).

(** [np.diff(a, prepend=0)] *)
Definition np_diff_prepend0 (a : list R) : list R :=
  zip_with Rminus a (0 :: a).

(** [np.arange(start, stop, 1)] on integers: [start, start+1, ..., stop-1]. *)
Definition np_arange (start stop : Z) : list R :=
  (fun k : nat => IZR (start + Z.of_nat k)) <$> seq 0 (Z.to_nat (stop - start)).

(** ** Transforms

    The argument is the array [np.atleast_1d] makes of the input; the
    [isinstance] assertion holds for every number and array. *)

Definition bsw_to_wor (bsw : list R) : result (list npfloat) :=
  _ ← assert (forallb (fun b => Rleb 0 b && Rleb b 1) bsw);
  Ok (map (fun b => np_div b (1 - b)) bsw).

(** After the assertion every [wor + 1] is at least [1], so the quotient is
    finite (lemma [wor_to_bsw_divisor]). *)
Definition wor_to_bsw (wor : list R) : result (list R) :=
  _ ← assert (forallb (fun w => Rleb 0 w) wor);
  Ok (map (fun w => w / (w + 1)) wor).

(** ** The recurrence engine *)

(** The arrays that [wor_forecast] allocates and fills. *)
Record arrays : Type := {
  wor : list R;
  wor_1 : list R;
  bsw : list R;
  oil_rate : list R;
  water_rate : list R;
  oil_cum : list R;
  water_cum : list R;
  fluid_cum : list R
}.

(** The table that [wor_forecast] returns: the index and the columns. *)
Record DataFrame : Type := {
  index : list R;
  c_oil_rate : list R;
  c_water_rate : list R;
  c_oil_cum : list R;
  c_water_cum : list R;
  c_bsw : list R;
  c_wor : list R;
  c_wor_1 : list R;
  c_delta_time : list R;
  c_fluid_rate : list R;
  c_fluid_cum : list R
}.

(** The table with the given index and columns. *)
Definition table (time_array delta_time fluid_rate : list R) (a : arrays)
    : DataFrame :=
  {| index := time_array;
     c_oil_rate := oil_rate a; c_water_rate := water_rate a;
     c_oil_cum := oil_cum a; c_water_cum := water_cum a;
     c_bsw := bsw a; c_wor := wor a; c_wor_1 := wor_1 a;
     c_delta_time := delta_time; c_fluid_rate := fluid_rate;
     c_fluid_cum := fluid_cum a |}.

(** pandas repeats a column of one element along an index of another
    length. *)
Definition maybe_repeat (n : nat) (c : list R) : list R :=
  match c with
  | [x] => if (n =? 1)%nat then c else replicate n x
  | _ => c
  end.

(** [pd.DataFrame({...}, index=time_array)]: after the repetition of the
    one-element columns, every column must be as long as the index. *)
Definition DataFrame_new (time_array delta_time fluid_rate : list R)
    (a : arrays) : result DataFrame :=
  let n := length time_array in
  let col := maybe_repeat n in
  let a :=
    {| wor := col (wor a); wor_1 := col (wor_1 a); bsw := col (bsw a);
       oil_rate := col (oil_rate a); water_rate := col (water_rate a);
       oil_cum := col (oil_cum a); water_cum := col (water_cum a);
       fluid_cum := col (fluid_cum a) |} in
  let delta_time := col delta_time in
  let fluid_rate := col fluid_rate in
  if forallb (fun c : list R => (length c =? n)%nat)
       [oil_rate a; water_rate a; oil_cum a; water_cum a; bsw a; wor a;
        wor_1 a; delta_time; fluid_rate; fluid_cum a]
  then Ok (table time_array delta_time fluid_rate a)
  else Raise ValueError.

(** [df[:n]] *)
Definition head (n : nat) (df : DataFrame) : DataFrame :=
  {| index := take n (index df);
     c_oil_rate := take n (c_oil_rate df);
     c_water_rate := take n (c_water_rate df);
     c_oil_cum := take n (c_oil_cum df);
     c_water_cum := take n (c_water_cum df);
     c_bsw := take n (c_bsw df);
     c_wor := take n (c_wor df);
     c_wor_1 := take n (c_wor_1 df);
     c_delta_time := take n (c_delta_time df);
     c_fluid_rate := take n (c_fluid_rate df);
     c_fluid_cum := take n (c_fluid_cum df) |}.

Definition nrows (df : DataFrame) : nat := length (index df).

(** [df.index = idx] *)
Definition set_index (idx : list R) (df : DataFrame) : DataFrame :=
  {| index := idx;
     c_oil_rate := c_oil_rate df; c_water_rate := c_water_rate df;
     c_oil_cum := c_oil_cum df; c_water_cum := c_water_cum df;
     c_bsw := c_bsw df; c_wor := c_wor df; c_wor_1 := c_wor_1 df;
     c_delta_time := c_delta_time df; c_fluid_rate := c_fluid_rate df;
     c_fluid_cum := c_fluid_cum df |}.

(** [if limit: if test(limit): break].  [if limit:] takes the truth value of
    an optional double: [None] and [0.0] are false. *)
Definition limit_test (limit : option R) (test : R -> bool) : bool :=
  match limit with
  | None => false
  | Some l => Rnonzero l && test l
  end.

Inductive stop : Type := RateLimit | CumLimit | WorLimit.

(** The three [break] tests at the end of the loop body, in program order. *)
Definition stopping (rate_limit cum_limit wor_limit : option R)
    (oil_rate_i oil_cum_i wor_i : R) : option stop :=
  if limit_test rate_limit (fun l => Rleb oil_rate_i l) then Some RateLimit
  else if limit_test cum_limit (fun l => Rgeb oil_cum_i l) then Some CumLimit
  else if limit_test wor_limit (fun l => Rgeb wor_i l) then Some WorLimit
  else None.

Section Engine.
Variables (delta_time fluid_rate : list R) (slope wor_i : R).
Variables (rate_limit cum_limit wor_limit : option R).

(** One pass through the loop body for index [i]: the updated arrays and
    whether a [break] was taken. *)
Definition body (i : nat) (a : arrays) : result (arrays * option stop) :=
  oc_prev ← getitem (oil_cum a) (i - 1);
  let w := exp (slope * oc_prev) * wor_i in
  b ← (bs ← wor_to_bsw [w]; item bs);
  fr ← getitem fluid_rate i;
  let o := fr * (1 - b) in
  fr' ← getitem fluid_rate i;
  let wa := fr' * b in
  oc_prev' ← getitem (oil_cum a) (i - 1);
  dt ← getitem delta_time i;
  let oc := oc_prev' + o * dt in
  wc_prev ← getitem (water_cum a) (i - 1);
  dt' ← getitem delta_time i;
  let wc := wc_prev + wa * dt' in
  Ok ({| wor := <[i:=w]> (wor a);
         wor_1 := <[i:=w + 1]> (wor_1 a);
         bsw := <[i:=b]> (bsw a);
         oil_rate := <[i:=o]> (oil_rate a);
         water_rate := <[i:=wa]> (water_rate a);
         oil_cum := <[i:=oc]> (oil_cum a);
         water_cum := <[i:=wc]> (water_cum a);
         fluid_cum := <[i:=wc + oc]> (fluid_cum a) |},
      stopping rate_limit cum_limit wor_limit o oc w).

(** [for i in range: body]; the first component is the loop variable [i]
    after the loop, [None] while it has never been bound. *)
Fixpoint for_loop (range : list nat) (i : option nat) (a : arrays)
    : result (option nat * arrays) :=
  match range with
  | [] => Ok (i, a)
  | j :: rest =>
      r ← body j a;
      match snd r with
      | Some _ => Ok (Some j, fst r)
      | None => for_loop rest (Some j) (fst r)
      end
  end.
End Engine.

Definition wor_forecast (time_array fluid_rate : list R) (slope wor_i : R)
    (rate_limit cum_limit wor_limit : option R) : result DataFrame :=
  delta_time ← np_gradient time_array;
  let T := length time_array in
  let wor := <[0%nat:=wor_i]> (np_zeros T) in
  let wor_1 := <[0%nat:=wor_i + 1]> (np_zeros T) in
  w0 ← getitem wor 0;
  b0 ← (bs ← wor_to_bsw [w0]; item bs);
  let bsw := <[0%nat:=b0]> (np_zeros T) in
  f0 ← getitem fluid_rate 0;
  let o0 := f0 * (1 - b0) in
  let oil_rate := <[0%nat:=o0]> (np_zeros T) in
  let wa0 := f0 * b0 in
  let water_rate := <[0%nat:=wa0]> (np_zeros T) in
  d0 ← getitem delta_time 0;
  let oil_cum := <[0%nat:=o0 * d0]> (np_zeros T) in
  let water_cum := <[0%nat:=wa0 * d0]> (np_zeros T) in
  let fluid_cum := <[0%nat:=f0 * d0]> (np_zeros T) in
  r ← for_loop delta_time fluid_rate slope wor_i rate_limit cum_limit wor_limit
         (seq 1 (length delta_time - 1 - 1)) None
         {| wor := wor; wor_1 := wor_1; bsw := bsw; oil_rate := oil_rate;
            water_rate := water_rate; oil_cum := oil_cum;
            water_cum := water_cum; fluid_cum := fluid_cum |};
  _forecast ← DataFrame_new time_array delta_time fluid_rate (snd r);
  match fst r with
  | None => Raise UnboundLocalError
  | Some i => Ok (head (i + 1) _forecast)
  end.

(** ** The ensemble: [Wor.forecast]

    The embedding covers the numeric-time path with an explicit [time_list]
    (so [time_array] and [time_range] are both that list), with [bsw] and
    [slope] given as numbers or lists of numbers, from the broadcast of the
    inputs down to [pd.concat].  The ensemble is kept as the list of the
    per-iteration tables, in iteration order. *)

(** [Union[float, List[float]]] *)
Inductive ratio : Type :=
| Scalar (r : R)
| PerRow (l : list R).

(** [Union[float, List[float], List[List[float]]]]; a nested list is taken to
    be rectangular. *)
Inductive fluid : Type :=
| Fluid0D (r : R)
| Fluid1D (l : list R)
| Fluid2D (rows : list (list R)).

(** The columns [gas_cum], [gas_volume], [gas_rate]. *)
Record GasColumns : Type := {
  gas_cum : list R;
  gas_volume : list npfloat;
  gas_rate : list npfloat
}.

(** One iteration's table [_f] after [Wor.forecast] has added its columns.
    The gas columns are absent when the program adds none. *)
Record Forecast : Type := {
  frame : DataFrame;
  iteration : nat;
  oil_volume : list R;
  water_volume : list R;
  gas : option GasColumns
}.

(** Shapes [(a,)] and [(b,)] broadcast together. *)
Definition broadcast_dim (a b : nat) : result nat :=
  if (a =? b)%nat then Ok a
  else if (a =? 1)%nat then Ok b
  else if (b =? 1)%nat then Ok a
  else Raise ValueError.

(** A one-dimensional array of a shape that broadcasts to [(n,)], times
    [np.ones(n)]. *)
Definition broadcast_to (n : nat) (v : list R) : list R :=
  if (length v =? n)%nat then v else replicate n (hd 0 v).

(** [series.multiply(x)] *)
Definition multiply (series : list R) (x : ratio) : result (list R) :=
  match x with
  | Scalar r => Ok (map (fun v => v * r) series)
  | PerRow l =>
      if (length l =? length series)%nat then Ok (zip_with Rmult series l)
      else Raise ValueError
  end.

(** The truth value of an optional ratio: [None], [0.0] and [[]] are false. *)
Definition ratio_truthy (x : option ratio) : bool :=
  match x with
  | None => false
  | Some (Scalar r) => Rnonzero r
  | Some (PerRow l) => negb (bool_decide (l = []))
  end.

(** [x if x else None]: the ratio when its truth value is true. *)
Definition when_truthy (x : option ratio) : option ratio :=
  if ratio_truthy x then x else None.

Module Wor.

Record t : Type := {
  bsw : list R;
  slope : list R;
  fluid_rate : fluid;
  gor : option ratio;
  glr : option ratio
}.

(** The gas columns of one iteration (the [if any(...)] statement). *)
Definition gas_columns (self : t) (_f : DataFrame) : result (option GasColumns) :=
  if bool_decide (gor self <> None) || bool_decide (glr self <> None) then
    match when_truthy (gor self), when_truthy (glr self) with
    | Some gor, _ =>
        gas_cum ← multiply (c_oil_cum _f) gor;
        let gas_volume := Fin <$> np_diff_prepend0 gas_cum in
        Ok (Some {| gas_cum := gas_cum;
                    gas_volume := gas_volume;
                    gas_rate := zip_with np_div_float gas_volume (c_delta_time _f) |})
    | None, Some glr =>
        gas_cum ← multiply (zip_with Rplus (c_oil_cum _f) (c_water_cum _f)) glr;
        let gas_volume :=
          zip_with np_div (np_diff_prepend0 gas_cum) (c_delta_time _f) in
        Ok (Some {| gas_cum := gas_cum;
                    gas_volume := gas_volume;
                    gas_rate := zip_with np_div_float gas_volume (c_delta_time _f) |})
    | None, None => Ok None
    end
  else
    Ok (Some {| gas_cum := replicate (nrows _f) 0;
                gas_volume := replicate (nrows _f) (Fin 0);
                gas_rate := replicate (nrows _f) (Fin 0) |}).

(** The body of [for i in range(br.shape[0])]. *)
Definition forecast_iteration (self : t) (time_array time_range : list R)
    (_bsw _slope : list R) (_fluid : list (list R))
    (rate_limit cum_limit wor_limit : option R) (i : nat) : result Forecast :=
  b ← getitem _bsw i;
  _wor ← bsw_to_wor [b];
  fl ← match _fluid !! i with Some row => Ok row | None => Raise IndexError end;
  sl ← getitem _slope i;
  wor_i ← match _wor with [Fin w] => Ok w | _ => Raise NonFiniteWor end;
  _f ← wor_forecast time_array fl sl wor_i rate_limit cum_limit wor_limit;
  let _f := {| index := take (nrows _f) time_range;
               c_oil_rate := c_oil_rate _f; c_water_rate := c_water_rate _f;
               c_oil_cum := c_oil_cum _f; c_water_cum := c_water_cum _f;
               c_bsw := c_bsw _f; c_wor := c_wor _f; c_wor_1 := c_wor_1 _f;
               c_delta_time := c_delta_time _f; c_fluid_rate := c_fluid_rate _f;
               c_fluid_cum := c_fluid_cum _f |} in
  oil_volume ← np_gradient (c_oil_cum _f);
  water_volume ← np_gradient (c_water_cum _f);
  g ← gas_columns self _f;
  Ok {| frame := _f; iteration := i; oil_volume := oil_volume;
        water_volume := water_volume; gas := g |}.

(** [list_forecast] after the loop over [range]. *)
Fixpoint iterate (run : nat -> result Forecast) (range : list nat)
    : result (list Forecast) :=
  match range with
  | [] => Ok []
  | i :: rest =>
      _f ← run i;
      fs ← iterate run rest;
      Ok (_f :: fs)
  end.

Definition forecast (self : t) (time_list : list R)
    (rate_limit cum_limit wor_limit : option R) : result (list Forecast) :=
  let time_array := time_list in
  let time_range := time_list in
  let T := length time_array in
  let shape0 := match fluid_rate self with
                | Fluid0D _ => 1%nat
                | Fluid1D l => length l
                | Fluid2D rows => length rows
                end in
  n ← broadcast_dim (length (bsw self)) (length (slope self));
  n ← broadcast_dim n shape0;
  let _bsw := broadcast_to n (bsw self) in
  let _slope := broadcast_to n (slope self) in
  _fluid ← match fluid_rate self with
           | Fluid0D r => Ok (replicate n (replicate T r))
           | Fluid1D l => Ok ((fun r => replicate T r) <$> broadcast_to n l)
           | Fluid2D rows =>
               m ← broadcast_dim (length (hd [] rows)) T;
               Ok (broadcast_to m <$> rows)
           end;
  list_forecast ← iterate (forecast_iteration self time_array time_range
                             _bsw _slope _fluid rate_limit cum_limit wor_limit)
                    (seq 0 n);
  match list_forecast with
  | [] => Raise ValueError
  | _ => Ok list_forecast
  end.

(** [fluid_rate.shape[0]] after [np.atleast_1d]. *)
Definition shape0 (f : fluid) : nat :=
  match f with
  | Fluid0D _ => 1%nat
  | Fluid1D l => length l
  | Fluid2D rows => length rows
  end.

(** The numeric-time call as the caller writes it: with a [time_list], or
    with [start] and [end] (integers here), for which the time axis is
    [np.arange(start, end, 1)].  [fq] is what [converter_factor(freq_input,
    freq_output)] returns; the function is not part of this file. *)
Definition forecast_number (self : t) (time_list : option (list R))
    (start end_ : option Z) (fq : R)
    (rate_limit cum_limit wor_limit : option R) : result (list Forecast) :=
  time_list ← match time_list with
              | Some time_list => Ok time_list
              | None =>
                  _ ← assert (bool_decide (start <> None)
                              && bool_decide (end_ <> None));
                  _ ← assert (Rgeb fq 1);
                  Ok (np_arange (default 0%Z start) (default 0%Z end_))
              end;
  forecast self time_list rate_limit cum_limit wor_limit.

End Wor.

(** ** The recurrence, row by row

    The equations of the loop, read on the columns of a table.  [c !!! i] is
    the entry [c[i]] of a column. *)

#[global] Instance R_inhabited : Inhabited R := populate 0.

(** The assignments before the loop (row 0). *)
Definition initial_row (wor_i : R) (df : DataFrame) : Prop :=
  c_wor df !!! 0%nat = wor_i /\
  c_wor_1 df !!! 0%nat = wor_i + 1 /\
  c_bsw df !!! 0%nat = c_wor df !!! 0%nat / (c_wor df !!! 0%nat + 1) /\
  c_oil_rate df !!! 0%nat = c_fluid_rate df !!! 0%nat * (1 - c_bsw df !!! 0%nat) /\
  c_water_rate df !!! 0%nat = c_fluid_rate df !!! 0%nat * c_bsw df !!! 0%nat /\
  c_oil_cum df !!! 0%nat = c_oil_rate df !!! 0%nat * c_delta_time df !!! 0%nat /\
  c_water_cum df !!! 0%nat = c_water_rate df !!! 0%nat * c_delta_time df !!! 0%nat /\
  c_fluid_cum df !!! 0%nat = c_fluid_rate df !!! 0%nat * c_delta_time df !!! 0%nat.

(** The assignments of the loop body for index [i]. *)
Definition recurrence_row (slope wor_i : R) (df : DataFrame) (i : nat) : Prop :=
  c_wor df !!! i = exp (slope * c_oil_cum df !!! (i - 1)%nat) * wor_i /\
  c_wor_1 df !!! i = c_wor df !!! i + 1 /\
  c_bsw df !!! i = c_wor df !!! i / (c_wor df !!! i + 1) /\
  c_oil_rate df !!! i = c_fluid_rate df !!! i * (1 - c_bsw df !!! i) /\
  c_water_rate df !!! i = c_fluid_rate df !!! i * c_bsw df !!! i /\
  c_oil_cum df !!! i =
    c_oil_cum df !!! (i - 1)%nat + c_oil_rate df !!! i * c_delta_time df !!! i /\
  c_water_cum df !!! i =
    c_water_cum df !!! (i - 1)%nat + c_water_rate df !!! i * c_delta_time df !!! i /\
  c_fluid_cum df !!! i = c_water_cum df !!! i + c_oil_cum df !!! i.

(** The [break] decision taken on row [i]. *)
Definition stop_at (rate_limit cum_limit wor_limit : option R) (df : DataFrame)
    (i : nat) : option stop :=
  stopping rate_limit cum_limit wor_limit
    (c_oil_rate df !!! i) (c_oil_cum df !!! i) (c_wor df !!! i).

(** A limit is in force when it is given and is not zero. *)
Definition limit_set (limit : option R) (l : R) : Prop :=
  limit = Some l /\ l <> 0.

(** The three stopping conditions on row [i]. *)
Definition rate_hit (rate_limit : option R) (df : DataFrame) (i : nat) : Prop :=
  exists l, limit_set rate_limit l /\ c_oil_rate df !!! i <= l.

Definition cum_hit (cum_limit : option R) (df : DataFrame) (i : nat) : Prop :=
  exists l, limit_set cum_limit l /\ l <= c_oil_cum df !!! i.

Definition wor_hit (wor_limit : option R) (df : DataFrame) (i : nat) : Prop :=
  exists l, limit_set wor_limit l /\ l <= c_wor df !!! i.

(** Every column has [n] entries. *)
Definition columns_length (n : nat) (df : DataFrame) : Prop :=
  length (index df) = n /\ length (c_oil_rate df) = n /\
  length (c_water_rate df) = n /\ length (c_oil_cum df) = n /\
  length (c_water_cum df) = n /\ length (c_bsw df) = n /\
  length (c_wor df) = n /\ length (c_wor_1 df) = n /\
  length (c_delta_time df) = n /\ length (c_fluid_rate df) = n /\
  length (c_fluid_cum df) = n.

(** The data columns of a table. *)
Definition columns (df : DataFrame) : list (list R) :=
  [c_oil_rate df; c_water_rate df; c_oil_cum df; c_water_cum df; c_bsw df;
   c_wor df; c_wor_1 df; c_delta_time df; c_fluid_rate df; c_fluid_cum df].

(** Every entry of the table is a finite double, at most [10^308] in
    absolute value: in the doubles of the program, no entry is [inf] or
    [nan]. *)
Definition finite_table (df : DataFrame) : Prop :=
  Forall (Forall (fun x => Rabs x <= 10 ^ 308)) (columns df).

(** Every WOR of a table is at most [bound]; below [10^15], [wor + 1] is not
    rounded to [wor]. *)
Definition wor_below (bound : R) (df : DataFrame) : Prop :=
  forall i, (i < nrows df)%nat -> c_wor df !!! i <= bound.

(** An integer time that float64 holds exactly, as do the differences of two
    of them. *)
Definition int_time (t : R) : Prop :=
  exists z : Z, t = IZR z /\ (Z.abs z <= 2 ^ 52)%Z.

(** Two tables with the same entries in row [j]. *)
Definition same_row (df df' : DataFrame) (j : nat) : Prop :=
  c_oil_rate df' !!! j = c_oil_rate df !!! j /\
  c_water_rate df' !!! j = c_water_rate df !!! j /\
  c_oil_cum df' !!! j = c_oil_cum df !!! j /\
  c_water_cum df' !!! j = c_water_cum df !!! j /\
  c_bsw df' !!! j = c_bsw df !!! j /\
  c_wor df' !!! j = c_wor df !!! j /\
  c_wor_1 df' !!! j = c_wor_1 df !!! j /\
  c_delta_time df' !!! j = c_delta_time df !!! j /\
  c_fluid_rate df' !!! j = c_fluid_rate df !!! j /\
  c_fluid_cum df' !!! j = c_fluid_cum df !!! j.

(** ** Worked inputs

    Small inputs on which the program is run by hand below: four time steps,
    a water cut of one half (a WOR of [1]) and a slope of zero, so that every
    value is a rational number; and the scenario of the specification. *)

(** A schedule of fluid rates, as [Wor.forecast] receives it. *)
Definition schedule_well : Wor.t :=
  {| Wor.bsw := [1 / 2]; Wor.slope := [0];
     Wor.fluid_rate := Fluid2D [[100; 200; 300; 100]];
     Wor.gor := None; Wor.glr := None |}.

(** Its run, without limits. *)
Definition schedule_run : DataFrame :=
  {| index := [0; 1; 2];
     c_oil_rate := [50; 100; 150]; c_water_rate := [50; 100; 150];
     c_oil_cum := [50; 150; 300]; c_water_cum := [50; 150; 300];
     c_bsw := [1 / 2; 1 / 2; 1 / 2]; c_wor := [1; 1; 1]; c_wor_1 := [2; 2; 2];
     c_delta_time := [1; 1; 1]; c_fluid_rate := [100; 200; 300];
     c_fluid_cum := [100; 300; 600] |}.

(** The well shut in after the first step, with [rate_limit = 0]. *)
Definition shut_in_run : DataFrame :=
  {| index := [0; 1; 2];
     c_oil_rate := [50; 0; 0]; c_water_rate := [50; 0; 0];
     c_oil_cum := [50; 50; 50]; c_water_cum := [50; 50; 50];
     c_bsw := [1 / 2; 1 / 2; 1 / 2]; c_wor := [1; 1; 1]; c_wor_1 := [2; 2; 2];
     c_delta_time := [1; 1; 1]; c_fluid_rate := [100; 0; 0];
     c_fluid_cum := [100; 100; 100] |}.

(** The schedule with a rate limit of [200] and a cumulative limit of [120],
    both met on row 1. *)
Definition limited_run : DataFrame :=
  {| index := [0; 1];
     c_oil_rate := [50; 100]; c_water_rate := [50; 100];
     c_oil_cum := [50; 150]; c_water_cum := [50; 150];
     c_bsw := [1 / 2; 1 / 2]; c_wor := [1; 1]; c_wor_1 := [2; 2];
     c_delta_time := [1; 1]; c_fluid_rate := [100; 200];
     c_fluid_cum := [100; 300] |}.

(** A constant fluid rate on a time axis with steps of two, and a gas-liquid
    ratio of two. *)
Definition glr_well : Wor.t :=
  {| Wor.bsw := [1 / 2]; Wor.slope := [0];
     Wor.fluid_rate := Fluid0D 100;
     Wor.gor := None; Wor.glr := Some (Scalar 2) |}.

(** Its run. *)
Definition glr_run : DataFrame :=
  {| index := [0; 2; 4];
     c_oil_rate := [50; 50; 50]; c_water_rate := [50; 50; 50];
     c_oil_cum := [100; 200; 300]; c_water_cum := [100; 200; 300];
     c_bsw := [1 / 2; 1 / 2; 1 / 2]; c_wor := [1; 1; 1]; c_wor_1 := [2; 2; 2];
     c_delta_time := [2; 2; 2]; c_fluid_rate := [100; 100; 100];
     c_fluid_cum := [200; 400; 600] |}.

(** A constant fluid rate and no gas ratio. *)
Definition schedule_well_scalar : Wor.t :=
  {| Wor.bsw := [1 / 2]; Wor.slope := [0];
     Wor.fluid_rate := Fluid0D 100;
     Wor.gor := None; Wor.glr := None |}.

(** Ten unit time steps, [bsw = 1/11] (a WOR of [0.1]), a slope of [0.00001]
    and a fluid rate of [1000]. *)
Definition scenario_time : list R := [0; 1; 2; 3; 4; 5; 6; 7; 8; 9].

Definition scenario_well : Wor.t :=
  {| Wor.bsw := [1 / 11]; Wor.slope := [1 / 100000];
     Wor.fluid_rate := Fluid0D 1000;
     Wor.gor := None; Wor.glr := None |}.

(** ** The program on binary64

    The transforms and [wor_forecast] once more, line by line as above, on
    the doubles of the machine (the primitive floats of Rocq, which are IEEE
    754 binary64 with rounding to nearest): here sums round, [exp] overflows
    to [+inf], [inf / inf] is [nan] and a comparison with [nan] is false.
    The time axis is the array after the conversion to float64 that
    [np.gradient] makes of an integer array.  This reading of the program is
    run on concrete inputs, to show where the doubles leave the real
    numbers. *)

Module F64.
Local Open Scope float_scope.

#[global] Instance float_inhabited : Inhabited float := populate 0.

Definition np_zeros (n : nat) : list float := replicate n 0.

Definition getitem (a : list float) (i : nat) : result float :=
  match a !! i with
  | Some x => Ok x
  | None => Raise IndexError
  end.

Definition item (a : list float) : result float :=
  match a with
  | [x] => Ok x
  | _ => Raise ValueError
  end.

(** [np.exp], where its double is fixed by IEEE 754 and the C standard:
    [exp(nan) = nan], [exp(+-0) = 1], overflow to [+inf] (from [710] on,
    [e^710 > 1.79e308]) and underflow to [0] (below [-750]).  Between these
    the double depends on the C library and the run is left undetermined. *)
Definition np_exp (x : float) : result float :=
  if is_nan x then Ok nan
  else if x =? 0 then Ok 1
  else if 710 <=? x then Ok infinity
  else if x <=? -750 then Ok 0
  else Raise UnknownExp.

(** [np.gradient(f)]: numpy divides by the spacing [1.0] at the two ends
    and by [2. * 1.0] inside. *)
Definition np_gradient (f : list float) : result (list float) :=
  let n := length f in
  if (n <? 2)%nat then Raise ValueError
  else Ok (map (fun i : nat =>
                  if (i =? 0)%nat then (nth 1 f 0 - nth 0 f 0) / 1
                  else if (i =? n - 1)%nat
                       then (nth (n - 1) f 0 - nth (n - 2) f 0) / 1
                  else (nth (i + 1) f 0 - nth (i - 1) f 0) / (2 * 1))
               (seq 0 n)).

Definition bsw_to_wor (bsw : list float) : result (list float) :=
  _ ← assert (forallb (fun b => (0 <=? b) && (b <=? 1)) bsw);
  Ok (map (fun b => b / (1 - b)) bsw).

Definition wor_to_bsw (wor : list float) : result (list float) :=
  _ ← assert (forallb (fun w => 0 <=? w) wor);
  Ok (map (fun w => w / (w + 1)) wor).

Record arrays : Type := {
  wor : list float;
  wor_1 : list float;
  bsw : list float;
  oil_rate : list float;
  water_rate : list float;
  oil_cum : list float;
  water_cum : list float;
  fluid_cum : list float
}.

Record DataFrame : Type := {
  index : list float;
  c_oil_rate : list float;
  c_water_rate : list float;
  c_oil_cum : list float;
  c_water_cum : list float;
  c_bsw : list float;
  c_wor : list float;
  c_wor_1 : list float;
  c_delta_time : list float;
  c_fluid_rate : list float;
  c_fluid_cum : list float
}.

Definition maybe_repeat (n : nat) (c : list float) : list float :=
  match c with
  | [x] => if (n =? 1)%nat then c else replicate n x
  | _ => c
  end.

Definition DataFrame_new (time_array delta_time fluid_rate : list float)
    (a : arrays) : result DataFrame :=
  let n := length time_array in
  let col := maybe_repeat n in
  let cols :=
    [col (oil_rate a); col (water_rate a); col (oil_cum a); col (water_cum a);
     col (bsw a); col (wor a); col (wor_1 a); col delta_time; col fluid_rate;
     col (fluid_cum a)] in
  if forallb (fun c : list float => (length c =? n)%nat) cols
  then Ok {| index := time_array;
             c_oil_rate := col (oil_rate a);
             c_water_rate := col (water_rate a);
             c_oil_cum := col (oil_cum a); c_water_cum := col (water_cum a);
             c_bsw := col (bsw a); c_wor := col (wor a);
             c_wor_1 := col (wor_1 a);
             c_delta_time := col delta_time; c_fluid_rate := col fluid_rate;
             c_fluid_cum := col (fluid_cum a) |}
  else Raise ValueError.

Definition head (n : nat) (df : DataFrame) : DataFrame :=
  {| index := take n (index df);
     c_oil_rate := take n (c_oil_rate df);
     c_water_rate := take n (c_water_rate df);
     c_oil_cum := take n (c_oil_cum df);
     c_water_cum := take n (c_water_cum df);
     c_bsw := take n (c_bsw df);
     c_wor := take n (c_wor df);
     c_wor_1 := take n (c_wor_1 df);
     c_delta_time := take n (c_delta_time df);
     c_fluid_rate := take n (c_fluid_rate df);
     c_fluid_cum := take n (c_fluid_cum df) |}.

(** [if limit:] is false for [None] and for a zero; [nan] is true. *)
Definition limit_test (limit : option float) (test : float -> bool) : bool :=
  match limit with
  | None => false
  | Some l => negb (l =? 0) && test l
  end.

Definition stopping (rate_limit cum_limit wor_limit : option float)
    (oil_rate_i oil_cum_i wor_i : float) : option stop :=
  if limit_test rate_limit (fun l => oil_rate_i <=? l) then Some RateLimit
  else if limit_test cum_limit (fun l => l <=? oil_cum_i) then Some CumLimit
  else if limit_test wor_limit (fun l => l <=? wor_i) then Some WorLimit
  else None.

Section Engine.
Variables (delta_time fluid_rate : list float) (slope wor_i : float).
Variables (rate_limit cum_limit wor_limit : option float).

Definition body (i : nat) (a : arrays) : result (arrays * option stop) :=
  oc_prev ← getitem (oil_cum a) (i - 1);
  e ← np_exp (slope * oc_prev);
  let w := e * wor_i in
  b ← (bs ← wor_to_bsw [w]; item bs);
  fr ← getitem fluid_rate i;
  let o := fr * (1 - b) in
  fr' ← getitem fluid_rate i;
  let wa := fr' * b in
  oc_prev' ← getitem (oil_cum a) (i - 1);
  dt ← getitem delta_time i;
  let oc := oc_prev' + o * dt in
  wc_prev ← getitem (water_cum a) (i - 1);
  dt' ← getitem delta_time i;
  let wc := wc_prev + wa * dt' in
  Ok ({| wor := <[i:=w]> (wor a);
         wor_1 := <[i:=w + 1]> (wor_1 a);
         bsw := <[i:=b]> (bsw a);
         oil_rate := <[i:=o]> (oil_rate a);
         water_rate := <[i:=wa]> (water_rate a);
         oil_cum := <[i:=oc]> (oil_cum a);
         water_cum := <[i:=wc]> (water_cum a);
         fluid_cum := <[i:=wc + oc]> (fluid_cum a) |},
      stopping rate_limit cum_limit wor_limit o oc w).

Fixpoint for_loop (range : list nat) (i : option nat) (a : arrays)
    : result (option nat * arrays) :=
  match range with
  | [] => Ok (i, a)
  | j :: rest =>
      r ← body j a;
      match snd r with
      | Some _ => Ok (Some j, fst r)
      | None => for_loop rest (Some j) (fst r)
      end
  end.
End Engine.

Definition wor_forecast (time_array fluid_rate : list float) (slope wor_i : float)
    (rate_limit cum_limit wor_limit : option float) : result DataFrame :=
  delta_time ← np_gradient time_array;
  let T := length time_array in
  let wor := <[0%nat:=wor_i]> (np_zeros T) in
  let wor_1 := <[0%nat:=wor_i + 1]> (np_zeros T) in
  w0 ← getitem wor 0;
  b0 ← (bs ← wor_to_bsw [w0]; item bs);
  let bsw := <[0%nat:=b0]> (np_zeros T) in
  f0 ← getitem fluid_rate 0;
  let o0 := f0 * (1 - b0) in
  let oil_rate := <[0%nat:=o0]> (np_zeros T) in
  let wa0 := f0 * b0 in
  let water_rate := <[0%nat:=wa0]> (np_zeros T) in
  d0 ← getitem delta_time 0;
  let oil_cum := <[0%nat:=o0 * d0]> (np_zeros T) in
  let water_cum := <[0%nat:=wa0 * d0]> (np_zeros T) in
  let fluid_cum := <[0%nat:=f0 * d0]> (np_zeros T) in
  r ← for_loop delta_time fluid_rate slope wor_i rate_limit cum_limit wor_limit
         (seq 1 (length delta_time - 1 - 1)) None
         {| wor := wor; wor_1 := wor_1; bsw := bsw; oil_rate := oil_rate;
            water_rate := water_rate; oil_cum := oil_cum;
            water_cum := water_cum; fluid_cum := fluid_cum |};
  _forecast ← DataFrame_new time_array delta_time fluid_rate (snd r);
  match fst r with
  | None => Raise UnboundLocalError
  | Some i => Ok (head (i + 1) _forecast)
  end.

End F64.

(** * Properties *)

(** ** Comparisons *)

Lemma Rleb_true (a b : R) : a <= b -> Rleb a b = true.
Proof. intros H. unfold Rleb. destruct (Rle_dec a b); [reflexivity | contradiction]. Qed.

Lemma Rleb_false (a b : R) : b < a -> Rleb a b = false.
Proof. intros H. unfold Rleb. destruct (Rle_dec a b); [lra | reflexivity]. Qed.

Lemma Rleb_spec (a b : R) : Rleb a b = true <-> a <= b.
Proof.
  unfold Rleb. destruct (Rle_dec a b); split; intros; try reflexivity;
    try assumption; try discriminate; contradiction.
Qed.

Lemma Rnonzero_0 : Rnonzero 0 = false.
Proof. unfold Rnonzero. destruct (Req_dec_T 0 0); [reflexivity | contradiction]. Qed.

Lemma Rnonzero_true (a : R) : a <> 0 -> Rnonzero a = true.
Proof. intros H. unfold Rnonzero. destruct (Req_dec_T a 0); [contradiction | reflexivity]. Qed.

Lemma np_div_finite (a b : R) : b <> 0 -> np_div a b = Fin (a / b).
Proof. intros H. unfold np_div. destruct (Req_dec_T b 0); [contradiction | reflexivity]. Qed.

(** ** Arrays *)

Lemma getitem_Ok (a : list R) (i : nat) :
  (i < length a)%nat -> getitem a i = Ok (a !!! i).
Proof.
  intros H. unfold getitem.
  destruct (lookup_lt_is_Some_2 a i H) as [x Hx].
  rewrite Hx. f_equal. symmetry. by apply list_lookup_total_correct.
Qed.

Lemma getitem_Raise (a : list R) (i : nat) :
  (length a <= i)%nat -> getitem a i = Raise IndexError.
Proof. intros H. unfold getitem. by rewrite (lookup_ge_None_2 a i H). Qed.

Lemma length_np_zeros (n : nat) : length (np_zeros n) = n.
Proof. apply length_replicate. Qed.

Lemma np_gradient_Ok (f : list R) :
  (2 <= length f)%nat ->
  exists g, np_gradient f = Ok g /\ length g = length f /\
    g !!! 0%nat = f !!! 1%nat - f !!! 0%nat /\
    g !!! (length f - 1)%nat = f !!! (length f - 1)%nat - f !!! (length f - 2)%nat /\
    forall i, (1 <= i < length f - 1)%nat ->
      g !!! i = (f !!! (i + 1)%nat - f !!! (i - 1)%nat) / 2.
Proof.
  intros H. unfold np_gradient.
  destruct (Nat.ltb_spec (length f) 2) as [Hlt|_]; [lia|].
  eexists. split; [reflexivity|].
  assert (Hnth : forall i, nth i f 0 = f !!! i).
  { intros i. by rewrite nth_lookup, list_lookup_total_alt. }
  assert (Hget : forall i, (i < length f)%nat ->
    map (fun i : nat =>
           if (i =? 0)%nat then nth 1 f 0 - nth 0 f 0
           else if (i =? length f - 1)%nat
                then nth (length f - 1) f 0 - nth (length f - 2) f 0
                else (nth (i + 1) f 0 - nth (i - 1) f 0) / 2)
        (seq 0 (length f)) !!! i =
    if (i =? 0)%nat then f !!! 1%nat - f !!! 0%nat
    else if (i =? length f - 1)%nat
         then f !!! (length f - 1)%nat - f !!! (length f - 2)%nat
         else (f !!! (i + 1)%nat - f !!! (i - 1)%nat) / 2).
  { intros i Hi. apply list_lookup_total_correct.
    rewrite list_lookup_fmap, lookup_seq_lt by lia. simpl.
    by rewrite !Hnth. }
  split; [by rewrite length_map, length_seq|].
  split; [rewrite Hget by lia; reflexivity|].
  split.
  - rewrite Hget by lia.
    destruct (Nat.eqb_spec (length f - 1) 0); [lia|].
    by rewrite Nat.eqb_refl.
  - intros i Hi. rewrite Hget by lia.
    destruct (Nat.eqb_spec i 0); [lia|].
    destruct (Nat.eqb_spec i (length f - 1)); [lia|]. reflexivity.
Qed.

Lemma np_gradient_Raise (f : list R) :
  (length f < 2)%nat -> np_gradient f = Raise ValueError.
Proof.
  intros H. unfold np_gradient.
  destruct (Nat.ltb_spec (length f) 2); [reflexivity | lia].
Qed.

(** ** Transforms *)

Lemma wor_to_bsw_divisor (w : R) : 0 <= w -> w + 1 <> 0.
Proof. lra. Qed.

Lemma wor_to_bsw_one (w : R) :
  0 <= w -> wor_to_bsw [w] = Ok [w / (w + 1)].
Proof. intros H. unfold wor_to_bsw. simpl. by rewrite Rleb_true. Qed.

Lemma wor_to_bsw_one_neg (w : R) :
  w < 0 -> wor_to_bsw [w] = Raise AssertionError.
Proof. intros H. unfold wor_to_bsw. simpl. by rewrite Rleb_false. Qed.

Lemma bsw_range (w : R) : 0 <= w -> 0 <= w / (w + 1) < 1.
Proof.
  intros H. split.
  - apply Rmult_le_pos; [assumption|]. left. apply Rinv_0_lt_compat. lra.
  - apply (Rmult_lt_reg_r (w + 1)); [lra|]. field_simplify; lra.
Qed.

(** ** Rows that agree *)

Lemma same_row_refl (df : DataFrame) (j : nat) : same_row df df j.
Proof. by repeat split. Qed.

Lemma same_row_trans (df1 df2 df3 : DataFrame) (j : nat) :
  same_row df1 df2 j -> same_row df2 df3 j -> same_row df1 df3 j.
Proof.
  unfold same_row. intros H1 H2.
  destruct H1 as (?&?&?&?&?&?&?&?&?&?), H2 as (?&?&?&?&?&?&?&?&?&?).
  repeat split; congruence.
Qed.

Lemma initial_row_same (wor_i : R) (df df' : DataFrame) :
  same_row df df' 0 -> initial_row wor_i df -> initial_row wor_i df'.
Proof.
  unfold same_row, initial_row.
  intros (->&->&->&->&->&->&->&->&->&->). tauto.
Qed.

Lemma recurrence_row_same (slope wor_i : R) (df df' : DataFrame) (i : nat) :
  same_row df df' i -> same_row df df' (i - 1) ->
  recurrence_row slope wor_i df i -> recurrence_row slope wor_i df' i.
Proof.
  unfold same_row, recurrence_row.
  intros (->&->&->&->&->&->&->&->&->&->) (_&_&->&->&_). tauto.
Qed.

Lemma stop_at_same (rl cl wl : option R) (df df' : DataFrame) (i : nat) :
  same_row df df' i -> stop_at rl cl wl df' i = stop_at rl cl wl df i.
Proof.
  unfold same_row, stop_at. intros (->&_&->&_&_&->&_). reflexivity.
Qed.

(** ** The loop of [wor_forecast] *)

Lemma bind_Ok {A B : Type} (a : A) (k : A -> result B) : (Ok a ≫= k) = k a.
Proof. reflexivity. Qed.

Lemma bind_Ok_inv {A B : Type} (c : result A) (k : A -> result B) (b : B) :
  (c ≫= k) = Ok b -> exists a, c = Ok a /\ k a = Ok b.
Proof. destruct c as [a|e]; simpl; [eauto | discriminate]. Qed.

Section EngineProps.
Variables (time_array delta_time fluid_rate : list R) (slope wor_i : R).
Variables (rate_limit cum_limit wor_limit : option R).
Hypothesis wor_i_nonneg : 0 <= wor_i.

Local Abbreviation tbl := (table time_array delta_time fluid_rate).
Local Abbreviation T := (length time_array).

Lemma body_spec (i : nat) (a : arrays) :
  columns_length T (tbl a) -> (1 <= i < T)%nat ->
  exists a',
    body delta_time fluid_rate slope wor_i rate_limit cum_limit wor_limit i a
      = Ok (a', stop_at rate_limit cum_limit wor_limit (tbl a') i) /\
    columns_length T (tbl a') /\
    (forall j, j <> i -> same_row (tbl a) (tbl a') j) /\
    recurrence_row slope wor_i (tbl a') i.
Proof.
  destruct a as [w w1 b o wa oc wc fc].
  unfold columns_length, same_row, recurrence_row, stop_at. simpl.
  intros (Ht&Ho&Hwa&Hoc&Hwc&Hb&Hw&Hw1&Hdt&Hfr&Hfc) Hi.
  unfold body. simpl.
  rewrite !getitem_Ok by lia. simpl.
  assert (Hpos : 0 <= exp (slope * oc !!! (i - 1)%nat) * wor_i).
  { apply Rmult_le_pos; [left; apply exp_pos | assumption]. }
  rewrite (wor_to_bsw_one _ Hpos). simpl.
  eexists. split.
  { f_equal. f_equal. simpl. rewrite !list_lookup_total_insert_eq by lia. reflexivity. }
  simpl. rewrite !length_insert.
  split; [tauto|].
  split.
  { intros j Hj. rewrite !list_lookup_total_insert_ne by lia. tauto. }
  rewrite !list_lookup_total_insert_eq by lia.
  rewrite !list_lookup_total_insert_ne by lia.
  tauto.
Qed.

Lemma for_loop_spec (m : nat) : forall (s : nat) (i0 : option nat) (a : arrays),
  columns_length T (tbl a) -> (1 <= s)%nat -> (s + m <= T)%nat ->
  exists r a',
    for_loop delta_time fluid_rate slope wor_i rate_limit cum_limit wor_limit
      (seq s m) i0 a = Ok (r, a') /\
    columns_length T (tbl a') /\
    (forall j, (j < s)%nat -> same_row (tbl a) (tbl a') j) /\
    ((m = 0%nat /\ r = i0) \/
     (exists n, r = Some n /\ (s <= n < s + m)%nat /\
        (forall j, (s <= j <= n)%nat -> recurrence_row slope wor_i (tbl a') j) /\
        (forall j, (s <= j < n)%nat ->
           stop_at rate_limit cum_limit wor_limit (tbl a') j = None) /\
        ((n < s + m - 1)%nat ->
           stop_at rate_limit cum_limit wor_limit (tbl a') n <> None))).
Proof.
  induction m as [|m IH]; intros s i0 a Hlen Hs Hm.
  - exists i0, a. simpl. split; [reflexivity|]. split; [assumption|].
    split; [intros; apply same_row_refl|]. by left.
  - destruct (body_spec s a Hlen ltac:(lia)) as (a1 & Hbody & Hlen1 & Hsame1 & Hrec1).
    simpl seq. simpl for_loop. rewrite Hbody. simpl.
    destruct (stop_at rate_limit cum_limit wor_limit (tbl a1) s) as [st|] eqn:Hstop.
    + exists (Some s), a1. split; [reflexivity|]. split; [assumption|].
      split; [intros j Hj; apply Hsame1; lia|].
      right. exists s. split; [reflexivity|]. split; [lia|].
      split; [intros j Hj; by replace j with s by lia|].
      split; [intros j Hj; lia|].
      intros _. by rewrite Hstop.
    + destruct (IH (S s) (Some s) a1 Hlen1 ltac:(lia) ltac:(lia))
        as (r & a' & Hloop & Hlen' & Hsame' & Hpost).
      exists r, a'. split; [exact Hloop|]. split; [assumption|].
      split.
      { intros j Hj. eapply same_row_trans; [apply Hsame1; lia | apply Hsame'; lia]. }
      right.
      assert (Hrec_s : recurrence_row slope wor_i (tbl a') s).
      { eapply recurrence_row_same; [apply Hsame'; lia | apply Hsame'; lia | exact Hrec1]. }
      assert (Hstop_s : stop_at rate_limit cum_limit wor_limit (tbl a') s = None).
      { rewrite (stop_at_same _ _ _ (tbl a1)); [exact Hstop | apply Hsame'; lia]. }
      destruct Hpost as [[-> ->] | (n & -> & Hn & Hrec & Hnostop & Hlast)].
      * exists s. split; [reflexivity|]. split; [lia|].
        split; [intros j Hj; by replace j with s by lia|].
        split; [intros j Hj; lia|]. intros Hlt; lia.
      * exists n. split; [reflexivity|]. split; [lia|].
        split.
        { intros j Hj. destruct (decide (j = s)) as [->|Hne]; [assumption|].
          apply Hrec; lia. }
        split.
        { intros j Hj. destruct (decide (j = s)) as [->|Hne]; [assumption|].
          apply Hnostop; lia. }
        intros Hlt. apply Hlast. lia.
Qed.

Lemma for_loop_cons (j : nat) (rest : list nat) (i : option nat) (a : arrays) :
  for_loop delta_time fluid_rate slope wor_i rate_limit cum_limit wor_limit
    (j :: rest) i a
  = (r ← body delta_time fluid_rate slope wor_i rate_limit cum_limit wor_limit
           j a;
     match snd r with
     | Some _ => Ok (Some j, fst r)
     | None =>
         for_loop delta_time fluid_rate slope wor_i rate_limit cum_limit
           wor_limit rest (Some j) (fst r)
     end).
Proof. reflexivity. Qed.

(** Every pass of a loop that has come to its end: the pass for [j] is a
    pass of [body] that leaves rows [0..j] as they are at the end, and its
    [break] decision is the one taken on row [j] of the final arrays, which
    is none before the last pass. *)
Lemma for_loop_trace (m : nat) : forall (s : nat) (i0 : option nat)
    (a : arrays) (r : option nat) (a' : arrays),
  columns_length T (tbl a) -> (1 <= s)%nat -> (s + S m <= T)%nat ->
  for_loop delta_time fluid_rate slope wor_i rate_limit cum_limit wor_limit
    (seq s (S m)) i0 a = Ok (r, a') ->
  exists n, r = Some n /\ (s <= n <= s + m)%nat /\
    forall j, (s <= j <= n)%nat ->
      exists a_j a_j',
        body delta_time fluid_rate slope wor_i rate_limit cum_limit wor_limit
          j a_j
        = Ok (a_j', stop_at rate_limit cum_limit wor_limit (tbl a') j) /\
        ((j < n)%nat ->
         stop_at rate_limit cum_limit wor_limit (tbl a') j = None) /\
        (forall k, (k <= j)%nat -> same_row (tbl a_j') (tbl a') k).
Proof.
  induction m as [|m IH]; intros s i0 a r a' Hlen Hs Hm Hloop.
  - destruct (body_spec s a Hlen ltac:(lia))
      as (a1 & Hbody & Hlen1 & Hsame1 & Hrec1).
    simpl in Hloop. rewrite Hbody in Hloop. simpl in Hloop.
    assert (Hres : r = Some s /\ a' = a1).
    { destruct (stop_at rate_limit cum_limit wor_limit (tbl a1) s);
        injection Hloop as <- <-; by split. }
    destruct Hres as [-> ->].
    exists s. split; [reflexivity|]. split; [lia|].
    intros j Hj. replace j with s by lia. exists a, a1.
    split; [exact Hbody|]. split; [lia|]. intros k _. apply same_row_refl.
  - destruct (body_spec s a Hlen ltac:(lia))
      as (a1 & Hbody & Hlen1 & Hsame1 & Hrec1).
    change (seq s (S (S m))) with (s :: seq (S s) (S m)) in Hloop.
    rewrite for_loop_cons, Hbody, bind_Ok in Hloop. cbn [fst snd] in Hloop.
    destruct (stop_at rate_limit cum_limit wor_limit (tbl a1) s) as [st|]
      eqn:Hstop.
    + injection Hloop as <- <-.
      exists s. split; [reflexivity|]. split; [lia|].
      intros j Hj. replace j with s by lia. exists a, a1.
      rewrite Hstop. split; [exact Hbody|]. split; [lia|].
      intros k _. apply same_row_refl.
    + destruct (for_loop_spec (S m) (S s) (Some s) a1 Hlen1 ltac:(lia)
                  ltac:(lia)) as (r' & a'' & Hloop' & _ & Hsame' & _).
      rewrite Hloop in Hloop'. injection Hloop' as <- <-.
      destruct (IH (S s) (Some s) a1 r a' Hlen1 ltac:(lia) ltac:(lia) Hloop)
        as (n & -> & Hn & Htrace).
      exists n. split; [reflexivity|]. split; [lia|].
      intros j Hj. destruct (decide (j = s)) as [->|Hne].
      * assert (Hstop' : stop_at rate_limit cum_limit wor_limit (tbl a') s
                         = None).
        { rewrite (stop_at_same _ _ _ (tbl a1)); [exact Hstop|].
          apply Hsame'. lia. }
        exists a, a1. rewrite Hstop'.
        split; [exact Hbody|]. split; [reflexivity|].
        intros k Hk. apply Hsame'. lia.
      * apply Htrace. lia.
Qed.

End EngineProps.

(** ** The table constructor *)

Lemma maybe_repeat_id (n : nat) (c : list R) :
  length c = n -> maybe_repeat n c = c.
Proof.
  intros H. destruct c as [|x [|y c]]; simpl in *; [reflexivity| |reflexivity].
  by rewrite <- H.
Qed.

Lemma length_maybe_repeat (n : nat) (c : list R) :
  length (maybe_repeat n c) = n -> length c = n \/ length c = 1%nat.
Proof.
  destruct c as [|x [|y c]]; simpl; auto.
Qed.

Lemma DataFrame_new_Ok (time_array delta_time fluid_rate : list R)
    (a : arrays) :
  columns_length (length time_array) (table time_array delta_time fluid_rate a) ->
  DataFrame_new time_array delta_time fluid_rate a
  = Ok (table time_array delta_time fluid_rate a).
Proof.
  unfold columns_length. simpl.
  intros (_&Ho&Hwa&Hoc&Hwc&Hb&Hw&Hw1&Hdt&Hfr&Hfc).
  unfold DataFrame_new. cbv zeta. simpl forallb.
  rewrite !maybe_repeat_id by assumption.
  rewrite Ho, Hwa, Hoc, Hwc, Hb, Hw, Hw1, Hdt, Hfr, Hfc, Nat.eqb_refl.
  simpl. by destruct a.
Qed.

Lemma DataFrame_new_inv (time_array delta_time fluid_rate : list R)
    (a : arrays) (df : DataFrame) :
  DataFrame_new time_array delta_time fluid_rate a = Ok df ->
  length fluid_rate = length time_array \/ length fluid_rate = 1%nat.
Proof.
  unfold DataFrame_new. cbv zeta. simpl forallb.
  destruct (Nat.eqb_spec (length (maybe_repeat (length time_array) fluid_rate))
              (length time_array)) as [He|Hne];
    [intros _; by apply length_maybe_repeat|].
  rewrite !andb_false_r. discriminate.
Qed.

Lemma same_row_head (k j : nat) (df : DataFrame) :
  (j < k)%nat -> same_row df (head k df) j.
Proof.
  intros Hj. unfold same_row, head. simpl.
  rewrite !lookup_total_take_lt by lia. by repeat split.
Qed.

Lemma columns_length_head (k n : nat) (df : DataFrame) :
  (k <= n)%nat -> columns_length n df -> columns_length k (head k df).
Proof.
  unfold columns_length, head. simpl.
  intros Hk (?&?&?&?&?&?&?&?&?&?&?).
  rewrite !length_take. repeat split; lia.
Qed.

(** The loop of [wor_forecast] on well-formed inputs: it ends with the loop
    variable bound to some [n], the index of the first pass that takes a
    [break] and the last index of the range when none does, and the call
    returns the first [n + 1] rows of the table of the arrays. *)
Lemma wor_forecast_loop (time_array fluid_rate : list R) (slope wor_i : R)
    (rate_limit cum_limit wor_limit : option R) :
  (3 <= length time_array)%nat ->
  length fluid_rate = length time_array ->
  0 <= wor_i ->
  exists (n : nat) (delta_time : list R) (a0 a' : arrays),
    np_gradient time_array = Ok delta_time /\
    for_loop delta_time fluid_rate slope wor_i rate_limit cum_limit wor_limit
      (seq 1 (length time_array - 2)) None a0 = Ok (Some n, a') /\
    wor_forecast time_array fluid_rate slope wor_i rate_limit cum_limit wor_limit
      = Ok (head (n + 1) (table time_array delta_time fluid_rate a')) /\
    (1 <= n <= length time_array - 2)%nat /\
    columns_length (length time_array)
      (table time_array delta_time fluid_rate a0) /\
    columns_length (length time_array)
      (table time_array delta_time fluid_rate a') /\
    initial_row wor_i (table time_array delta_time fluid_rate a') /\
    (forall j, (1 <= j <= n)%nat ->
       recurrence_row slope wor_i (table time_array delta_time fluid_rate a') j) /\
    (forall j, (1 <= j < n)%nat ->
       stop_at rate_limit cum_limit wor_limit
         (table time_array delta_time fluid_rate a') j = None) /\
    ((n < length time_array - 2)%nat ->
       stop_at rate_limit cum_limit wor_limit
         (table time_array delta_time fluid_rate a') n <> None).
Proof.
  intros HT Hfr Hw.
  destruct (np_gradient_Ok time_array ltac:(lia)) as (dt & Hg & Hdt & _).
  remember (wor_forecast time_array fluid_rate slope wor_i rate_limit cum_limit
              wor_limit) as res eqn:E.
  unfold wor_forecast in E. rewrite Hg, bind_Ok in E. cbv beta zeta in E.
  rewrite !getitem_Ok in E by (rewrite ?length_insert, ?length_np_zeros; lia).
  rewrite list_lookup_total_insert_eq in E by (rewrite length_np_zeros; lia).
  rewrite bind_Ok, (wor_to_bsw_one _ Hw), !bind_Ok in E. simpl item in E.
  rewrite !bind_Ok in E.
  match type of E with
  | context [for_loop _ _ _ _ _ _ _ _ _ ?a0] => set (a := a0) in E
  end.
  assert (Hlen0 : columns_length (length time_array) (table time_array dt fluid_rate a)).
  { unfold columns_length, a. simpl.
    rewrite !length_insert, !length_np_zeros. tauto. }
  assert (Hinit0 : initial_row wor_i (table time_array dt fluid_rate a)).
  { unfold initial_row, a. simpl.
    rewrite !list_lookup_total_insert_eq by (rewrite length_np_zeros; lia).
    by repeat split. }
  destruct (for_loop_spec time_array dt fluid_rate slope wor_i rate_limit
              cum_limit wor_limit Hw (length time_array - 2) 1 None a Hlen0
              ltac:(lia) ltac:(lia))
    as (r & a' & Hloop & Hlen' & Hsame & Hpost).
  replace (length dt - 1 - 1)%nat with (length time_array - 2)%nat in E by lia.
  rewrite Hloop, bind_Ok in E. simpl fst in E. simpl snd in E.
  destruct Hpost as [[Hm _] | (n & -> & Hn & Hrec & Hnostop & Hlast)]; [lia|].
  rewrite (DataFrame_new_Ok _ _ _ _ Hlen'), bind_Ok in E. subst res.
  exists n, dt, a, a'.
  split; [assumption|]. split; [exact Hloop|]. split; [reflexivity|].
  split; [lia|]. split; [assumption|]. split; [assumption|].
  split.
  { apply (initial_row_same _ (table time_array dt fluid_rate a));
      [apply Hsame; lia | assumption]. }
  split; [intros j Hj; apply Hrec; lia|].
  split; [intros j Hj; apply Hnostop; lia|].
  intros Hlt. apply Hlast. lia.
Qed.

(** The complete run of [wor_forecast] on well-formed inputs: it returns
    rows [0..n], where [n] is the index of the first row that takes a
    [break], and the last index of the loop when no row does. *)
Lemma wor_forecast_run (time_array fluid_rate : list R) (slope wor_i : R)
    (rate_limit cum_limit wor_limit : option R) :
  (3 <= length time_array)%nat ->
  length fluid_rate = length time_array ->
  0 <= wor_i ->
  exists (n : nat) (delta_time : list R) (df : DataFrame),
    np_gradient time_array = Ok delta_time /\
    wor_forecast time_array fluid_rate slope wor_i rate_limit cum_limit wor_limit
      = Ok df /\
    (1 <= n <= length time_array - 2)%nat /\
    columns_length (n + 1) df /\
    index df = take (n + 1) time_array /\
    c_delta_time df = take (n + 1) delta_time /\
    c_fluid_rate df = take (n + 1) fluid_rate /\
    initial_row wor_i df /\
    (forall j, (1 <= j <= n)%nat -> recurrence_row slope wor_i df j) /\
    (forall j, (1 <= j < n)%nat ->
       stop_at rate_limit cum_limit wor_limit df j = None) /\
    ((n < length time_array - 2)%nat ->
       stop_at rate_limit cum_limit wor_limit df n <> None).
Proof.
  intros HT Hfr Hw.
  destruct (wor_forecast_loop time_array fluid_rate slope wor_i rate_limit
              cum_limit wor_limit HT Hfr Hw)
    as (n & dt & a & a' & Hg & _ & Hrun & Hn & _ & Hlen' & Hinit & Hrec
        & Hnostop & Hlast).
  set (tb := table time_array dt fluid_rate a') in *.
  assert (Hhead : forall j, (j <= n)%nat -> same_row tb (head (n + 1) tb) j).
  { intros j Hj. apply same_row_head. lia. }
  exists n, dt, (head (n + 1) tb).
  split; [assumption|]. split; [exact Hrun|]. split; [lia|].
  split; [apply (columns_length_head _ (length time_array)); [lia | assumption]|].
  split; [reflexivity|]. split; [reflexivity|]. split; [reflexivity|].
  split; [apply (initial_row_same _ tb); [apply Hhead; lia | assumption]|].
  split.
  { intros j Hj. apply (recurrence_row_same _ _ tb);
      [apply Hhead; lia | apply Hhead; lia | apply Hrec; lia]. }
  split.
  { intros j Hj. rewrite (stop_at_same _ _ _ tb); [apply Hnostop; lia | apply Hhead; lia]. }
  intros Hlt. rewrite (stop_at_same _ _ _ tb); [apply Hlast; lia | apply Hhead; lia].
Qed.

(** The pass through the loop body that ends the loop: the one for the index
    the loop variable is left at. *)
Lemma for_loop_last_body (dt fr : list R) (slope wor_i : R)
    (rl cl wl : option R) (range : list nat) :
  forall (i0 : option nat) (a : arrays) (r : option nat) (a' : arrays),
  range <> [] ->
  for_loop dt fr slope wor_i rl cl wl range i0 a = Ok (r, a') ->
  exists (n : nat) (a_prev : arrays) (tag : option stop),
    r = Some n /\
    body dt fr slope wor_i rl cl wl n a_prev = Ok (a', tag).
Proof.
  induction range as [|j rest IH]; intros i0 a r a' Hne H; [done|].
  simpl in H.
  destruct (body dt fr slope wor_i rl cl wl j a) as [[a1 [st|]]|e] eqn:Hbody;
    simpl in H; [| |discriminate].
  - injection H as <- <-. by exists j, a, (Some st).
  - destruct rest as [|k rest].
    + simpl in H. injection H as <- <-. by exists j, a, None.
    + by apply (IH (Some j) a1).
Qed.

(** The [break] decision of a pass is taken on the values it has just
    written. *)
Lemma body_stop_at (ta dt fr : list R) (slope wor_i : R) (rl cl wl : option R)
    (i : nat) (a a' : arrays) (tag : option stop) :
  body dt fr slope wor_i rl cl wl i a = Ok (a', tag) ->
  (i < length (oil_rate a'))%nat -> (i < length (oil_cum a'))%nat ->
  (i < length (wor a'))%nat ->
  tag = stop_at rl cl wl (table ta dt fr a') i.
Proof.
  unfold body. intros H.
  repeat match type of H with
         | (_ ≫= _) = Ok _ =>
             let x := fresh "x" in
             let Hx := fresh "Hx" in
             destruct (bind_Ok_inv _ _ _ H) as (x & Hx & H'); clear H;
             rename H' into H
         end.
  injection H as <- <-. simpl. rewrite !length_insert. intros Ho Hoc Hw.
  unfold stop_at. simpl.
  by rewrite !list_lookup_total_insert_eq by assumption.
Qed.

(** ** When [wor_forecast] raises *)

Lemma wor_to_bsw_one_inv (w : R) (bs : list R) :
  wor_to_bsw [w] = Ok bs -> 0 <= w.
Proof.
  intros H. destruct (Rle_lt_dec 0 w) as [Hle|Hlt]; [assumption|].
  rewrite (wor_to_bsw_one_neg _ Hlt) in H. discriminate.
Qed.

(** A pass through the loop body reads [fluid_rate[i]]. *)
Lemma body_Ok_inv (dt fr : list R) (slope wor_i : R) (rl cl wl : option R)
    (i : nat) (a : arrays) (r : arrays * option stop) :
  body dt fr slope wor_i rl cl wl i a = Ok r -> (i < length fr)%nat.
Proof.
  unfold body. intros H.
  apply bind_Ok_inv in H as (oc & _ & H).
  apply bind_Ok_inv in H as (b & _ & H).
  apply bind_Ok_inv in H as (f & Hf & _).
  unfold getitem in Hf.
  destruct (fr !! i) eqn:E; [|discriminate].
  by apply lookup_lt_Some in E.
Qed.

(** A returned table means well-formed inputs: at least three time steps, a
    fluid rate for each of them, and an initial WOR that passes the
    assertion of [wor_to_bsw]. *)
Lemma wor_forecast_Ok_inv (time_array fluid_rate : list R) (slope wor_i : R)
    (rate_limit cum_limit wor_limit : option R) (df : DataFrame) :
  wor_forecast time_array fluid_rate slope wor_i rate_limit cum_limit wor_limit
    = Ok df ->
  (3 <= length time_array)%nat /\
  length fluid_rate = length time_array /\
  0 <= wor_i.
Proof.
  unfold wor_forecast. intros H.
  apply bind_Ok_inv in H as (dt & Hg & H).
  assert (HT : (2 <= length time_array)%nat).
  { destruct (Nat.le_gt_cases 2 (length time_array)) as [Hle|Hgt]; [assumption|].
    rewrite np_gradient_Raise in Hg by lia. discriminate. }
  destruct (np_gradient_Ok time_array HT) as (dt' & Hg' & Hdt & _).
  rewrite Hg in Hg'. injection Hg' as <-.
  cbv beta zeta in H.
  apply bind_Ok_inv in H as (w0 & Hw0 & H).
  rewrite getitem_Ok in Hw0 by (rewrite length_insert, length_np_zeros; lia).
  rewrite list_lookup_total_insert_eq in Hw0 by (rewrite length_np_zeros; lia).
  injection Hw0 as <-.
  apply bind_Ok_inv in H as (b0 & Hb0 & H).
  apply bind_Ok_inv in Hb0 as (bs & Hbs & _).
  apply wor_to_bsw_one_inv in Hbs.
  apply bind_Ok_inv in H as (f0 & _ & H).
  apply bind_Ok_inv in H as (d0 & _ & H).
  apply bind_Ok_inv in H as ([i a'] & Hloop & H).
  apply bind_Ok_inv in H as (fc & Hnew & H).
  apply DataFrame_new_inv in Hnew.
  assert (HT3 : (3 <= length time_array)%nat).
  { destruct (Nat.le_gt_cases 3 (length time_array)) as [Hle|Hgt]; [assumption|].
    replace (length dt - 1 - 1)%nat with 0%nat in Hloop by lia.
    simpl in Hloop. injection Hloop as <- <-. discriminate. }
  split; [assumption|]. split; [|assumption].
  replace (length dt - 1 - 1)%nat with (S (length time_array - 3)) in Hloop by lia.
  simpl in Hloop.
  apply bind_Ok_inv in Hloop as (r1 & Hbody & _).
  apply body_Ok_inv in Hbody. lia.
Qed.

Lemma wor_forecast_gradient_error (time_array fluid_rate : list R)
    (slope wor_i : R) (rate_limit cum_limit wor_limit : option R) :
  (length time_array < 2)%nat ->
  wor_forecast time_array fluid_rate slope wor_i rate_limit cum_limit wor_limit
    = Raise ValueError.
Proof.
  intros H. unfold wor_forecast. by rewrite np_gradient_Raise.
Qed.

Lemma wor_forecast_unbound_index (time_array fluid_rate : list R)
    (slope wor_i : R) (rate_limit cum_limit wor_limit : option R) :
  length time_array = 2%nat -> (1 <= length fluid_rate <= 2)%nat ->
  0 <= wor_i ->
  wor_forecast time_array fluid_rate slope wor_i rate_limit cum_limit wor_limit
    = Raise UnboundLocalError.
Proof.
  intros HT Hfr Hw.
  destruct (np_gradient_Ok time_array ltac:(lia)) as (dt & Hg & Hdt & _).
  unfold wor_forecast. rewrite Hg, bind_Ok. cbv beta zeta.
  rewrite !getitem_Ok by (rewrite ?length_insert, ?length_np_zeros; lia).
  rewrite list_lookup_total_insert_eq by (rewrite length_np_zeros; lia).
  rewrite bind_Ok, (wor_to_bsw_one _ Hw), !bind_Ok. simpl item.
  rewrite !bind_Ok.
  replace (length dt - 1 - 1)%nat with 0%nat by lia.
  simpl for_loop. rewrite bind_Ok. simpl fst. simpl snd.
  unfold DataFrame_new. cbv zeta. simpl forallb.
  rewrite !maybe_repeat_id
    by (rewrite ?length_insert, ?length_np_zeros; congruence).
  rewrite !length_insert, !length_np_zeros, Hdt, HT.
  destruct fluid_rate as [|x [|y [|z fr]]]; simpl in Hfr; try lia; reflexivity.
Qed.

(** ** The stopping conditions *)

Lemma limit_test_spec (limit : option R) (test : R -> bool) (P : R -> Prop) :
  (forall l, test l = true <-> P l) ->
  limit_test limit test = true <-> exists l, limit_set limit l /\ P l.
Proof.
  intros Htest. unfold limit_test, limit_set, Rnonzero.
  destruct limit as [l|].
  - destruct (Req_dec_T l 0) as [Hz|Hnz]; simpl.
    + split; [discriminate|]. intros (l' & [[= <-] Hl'] & _). contradiction.
    + rewrite Htest. split.
      * intros HP. exists l. auto.
      * intros (l' & [[= <-] _] & HP). exact HP.
  - split; [discriminate|]. intros (l' & [[=] _] & _).
Qed.

Lemma rate_test_spec (rate_limit : option R) (df : DataFrame) (i : nat) :
  limit_test rate_limit (fun l => Rleb (c_oil_rate df !!! i) l) = true
  <-> rate_hit rate_limit df i.
Proof. apply limit_test_spec. intros l. apply Rleb_spec. Qed.

Lemma cum_test_spec (cum_limit : option R) (df : DataFrame) (i : nat) :
  limit_test cum_limit (fun l => Rgeb (c_oil_cum df !!! i) l) = true
  <-> cum_hit cum_limit df i.
Proof. apply limit_test_spec. intros l. apply Rleb_spec. Qed.

Lemma wor_test_spec (wor_limit : option R) (df : DataFrame) (i : nat) :
  limit_test wor_limit (fun l => Rgeb (c_wor df !!! i) l) = true
  <-> wor_hit wor_limit df i.
Proof. apply limit_test_spec. intros l. apply Rleb_spec. Qed.

(** The tests are tried in the order rate, cumulative, WOR. *)
Lemma stop_at_order (rl cl wl : option R) (df : DataFrame) (i : nat) :
  (stop_at rl cl wl df i = Some RateLimit <-> rate_hit rl df i) /\
  (stop_at rl cl wl df i = Some CumLimit <->
     ~ rate_hit rl df i /\ cum_hit cl df i) /\
  (stop_at rl cl wl df i = Some WorLimit <->
     ~ rate_hit rl df i /\ ~ cum_hit cl df i /\ wor_hit wl df i) /\
  (stop_at rl cl wl df i = None <->
     ~ rate_hit rl df i /\ ~ cum_hit cl df i /\ ~ wor_hit wl df i).
Proof.
  unfold stop_at, stopping.
  pose proof (rate_test_spec rl df i) as Hr.
  pose proof (cum_test_spec cl df i) as Hc.
  pose proof (wor_test_spec wl df i) as Hw.
  destruct (limit_test rl _); destruct (limit_test cl _);
    destruct (limit_test wl _);
    repeat split; intros; try discriminate; try tauto;
    try (exfalso; intuition congruence); intuition congruence.
Qed.

Lemma stopping_zero_rate (cl wl : option R) (o c w : R) :
  stopping (Some 0) cl wl o c w = stopping None cl wl o c w.
Proof. unfold stopping, limit_test. by rewrite Rnonzero_0. Qed.

Lemma stopping_zero_cum (rl wl : option R) (o c w : R) :
  stopping rl (Some 0) wl o c w = stopping rl None wl o c w.
Proof. unfold stopping, limit_test. by rewrite Rnonzero_0. Qed.

Lemma stopping_zero_wor (rl cl : option R) (o c w : R) :
  stopping rl cl (Some 0) o c w = stopping rl cl None o c w.
Proof. unfold stopping, limit_test. by rewrite Rnonzero_0. Qed.

(** [wor_forecast] depends on the limits only through the [break] tests. *)
Section SameStopping.
Variables (rl cl wl rl' cl' wl' : option R).
Hypothesis same_stopping : forall o c w : R,
  stopping rl cl wl o c w = stopping rl' cl' wl' o c w.

Lemma body_same_stopping (dt fr : list R) (slope wor_i : R) (i : nat)
    (a : arrays) :
  body dt fr slope wor_i rl cl wl i a = body dt fr slope wor_i rl' cl' wl' i a.
Proof.
  unfold body.
  repeat match goal with
         | |- (?c ≫= _) = (?c ≫= _) =>
             destruct c; simpl; [|reflexivity]
         end.
  by rewrite same_stopping.
Qed.

Lemma for_loop_same_stopping (dt fr : list R) (slope wor_i : R)
    (range : list nat) : forall (i0 : option nat) (a : arrays),
  for_loop dt fr slope wor_i rl cl wl range i0 a
  = for_loop dt fr slope wor_i rl' cl' wl' range i0 a.
Proof.
  induction range as [|j rest IH]; intros i0 a; [reflexivity|].
  simpl. rewrite body_same_stopping.
  destruct (body dt fr slope wor_i rl' cl' wl' j a) as [[a' [st|]]|e]; simpl;
    [reflexivity | apply IH | reflexivity].
Qed.

Lemma wor_forecast_same_stopping (ta fr : list R) (slope wor_i : R) :
  wor_forecast ta fr slope wor_i rl cl wl
  = wor_forecast ta fr slope wor_i rl' cl' wl'.
Proof.
  unfold wor_forecast.
  repeat match goal with
         | |- (?c ≫= _) = (?c ≫= _) =>
             destruct c; simpl; [|reflexivity]
         end.
  by rewrite for_loop_same_stopping.
Qed.

End SameStopping.

(** ** Signs and growth along a run *)

Section Rows.
Variables (slope wor_i : R) (df : DataFrame) (n : nat).
Hypothesis row_0 : initial_row wor_i df.
Hypothesis row_S : forall j, (1 <= j <= n)%nat -> recurrence_row slope wor_i df j.
Hypothesis wor_i_nonneg : 0 <= wor_i.

Lemma row_wor_nonneg (j : nat) : (j <= n)%nat -> 0 <= c_wor df !!! j.
Proof.
  intros Hj. destruct j as [|j].
  - destruct row_0 as (-> & _). assumption.
  - destruct (row_S (S j) ltac:(lia)) as (-> & _).
    apply Rmult_le_pos; [left; apply exp_pos | assumption].
Qed.

Lemma row_rates (j : nat) :
  (j <= n)%nat ->
  c_bsw df !!! j = c_wor df !!! j / (c_wor df !!! j + 1) /\
  c_oil_rate df !!! j = c_fluid_rate df !!! j * (1 - c_bsw df !!! j) /\
  c_water_rate df !!! j = c_fluid_rate df !!! j * c_bsw df !!! j.
Proof.
  intros Hj. destruct j as [|j].
  - destruct row_0 as (_ & _ & ? & ? & ? & _). auto.
  - destruct (row_S (S j) ltac:(lia)) as (_ & _ & ? & ? & ? & _). auto.
Qed.

Lemma row_bsw_range (j : nat) : (j <= n)%nat -> 0 <= c_bsw df !!! j < 1.
Proof.
  intros Hj. destruct (row_rates j Hj) as (-> & _).
  apply bsw_range, row_wor_nonneg, Hj.
Qed.

Lemma row_oil_cum_0 :
  c_oil_cum df !!! 0%nat = c_oil_rate df !!! 0%nat * c_delta_time df !!! 0%nat.
Proof. destruct row_0 as (_ & _ & _ & _ & _ & ? & _). assumption. Qed.

Lemma row_fluid_cum_sum (j : nat) :
  (j <= n)%nat ->
  c_fluid_cum df !!! j = c_water_cum df !!! j + c_oil_cum df !!! j.
Proof.
  intros Hj. destruct j as [|j].
  - destruct row_0 as (_ & _ & _ & Ho & Hwa & -> & -> & ->).
    rewrite Ho, Hwa. ring.
  - destruct (row_S (S j) ltac:(lia)) as (_ & _ & _ & _ & _ & _ & _ & ->).
    reflexivity.
Qed.

Lemma row_cum_step (j : nat) :
  (j + 1 <= n)%nat ->
  c_wor df !!! (j + 1)%nat = exp (slope * c_oil_cum df !!! j) * wor_i /\
  c_oil_cum df !!! (j + 1)%nat =
    c_oil_cum df !!! j
    + c_oil_rate df !!! (j + 1)%nat * c_delta_time df !!! (j + 1)%nat /\
  c_water_cum df !!! (j + 1)%nat =
    c_water_cum df !!! j
    + c_water_rate df !!! (j + 1)%nat * c_delta_time df !!! (j + 1)%nat.
Proof.
  intros Hj.
  destruct (row_S (j + 1)%nat ltac:(lia)) as (Hw & _ & _ & _ & _ & Ho & Hwa & _).
  replace (j + 1 - 1)%nat with j in * by lia. auto.
Qed.

(** Non-negative fluid rates and time steps. *)
Section NonNegative.
Hypothesis fluid_nonneg : forall j, (j <= n)%nat -> 0 <= c_fluid_rate df !!! j.
Hypothesis delta_nonneg : forall j, (j <= n)%nat -> 0 <= c_delta_time df !!! j.

Lemma row_oil_volume_nonneg (j : nat) :
  (j <= n)%nat -> 0 <= c_oil_rate df !!! j * c_delta_time df !!! j.
Proof.
  intros Hj. destruct (row_rates j Hj) as (_ & -> & _).
  pose proof (row_bsw_range j Hj). pose proof (fluid_nonneg j Hj).
  apply Rmult_le_pos; [|apply delta_nonneg, Hj].
  apply Rmult_le_pos; lra.
Qed.

Lemma row_water_volume_nonneg (j : nat) :
  (j <= n)%nat -> 0 <= c_water_rate df !!! j * c_delta_time df !!! j.
Proof.
  intros Hj. destruct (row_rates j Hj) as (_ & _ & ->).
  pose proof (row_bsw_range j Hj). pose proof (fluid_nonneg j Hj).
  apply Rmult_le_pos; [|apply delta_nonneg, Hj].
  apply Rmult_le_pos; lra.
Qed.

Lemma row_oil_cum_mono (j : nat) :
  (j + 1 <= n)%nat -> c_oil_cum df !!! j <= c_oil_cum df !!! (j + 1)%nat.
Proof.
  intros Hj. destruct (row_cum_step j Hj) as (_ & -> & _).
  pose proof (row_oil_volume_nonneg (j + 1) Hj). lra.
Qed.

Lemma row_water_cum_mono (j : nat) :
  (j + 1 <= n)%nat -> c_water_cum df !!! j <= c_water_cum df !!! (j + 1)%nat.
Proof.
  intros Hj. destruct (row_cum_step j Hj) as (_ & _ & ->).
  pose proof (row_water_volume_nonneg (j + 1) Hj). lra.
Qed.

Lemma row_fluid_cum_mono (j : nat) :
  (j + 1 <= n)%nat -> c_fluid_cum df !!! j <= c_fluid_cum df !!! (j + 1)%nat.
Proof.
  intros Hj. rewrite !row_fluid_cum_sum by lia.
  pose proof (row_oil_cum_mono j Hj). pose proof (row_water_cum_mono j Hj). lra.
Qed.

Lemma row_oil_cum_0_nonneg : 0 <= c_oil_cum df !!! 0%nat.
Proof. rewrite row_oil_cum_0. apply row_oil_volume_nonneg. lia. Qed.

Lemma row_wor_mono (j : nat) :
  0 <= slope -> (j + 1 <= n)%nat -> c_wor df !!! j <= c_wor df !!! (j + 1)%nat.
Proof.
  intros Hs Hj. destruct (row_cum_step j Hj) as (-> & _).
  assert (Hexp : forall x y, x <= y -> exp x <= exp y).
  { intros x y [Hlt | ->]; [left; by apply exp_increasing | right; reflexivity]. }
  destruct j as [|j].
  - destruct row_0 as (-> & _).
    pose proof row_oil_cum_0_nonneg as H0.
    assert (1 <= exp (slope * c_oil_cum df !!! 0%nat)).
    { rewrite <- exp_0. apply Hexp. by apply Rmult_le_pos. }
    nra.
  - destruct (row_cum_step j ltac:(lia)) as (Hw & _).
    replace (j + 1)%nat with (S j) in Hw by lia. rewrite Hw.
    apply Rmult_le_compat_r; [assumption|]. apply Hexp.
    apply Rmult_le_compat_l; [assumption|].
    pose proof (row_oil_cum_mono j ltac:(lia)) as Hm.
    by replace (j + 1)%nat with (S j) in Hm by lia.
Qed.

End NonNegative.

(** Positive fluid rates, time steps, slope and initial WOR. *)
Section Positive.
Hypothesis fluid_pos : forall j, (j <= n)%nat -> 0 < c_fluid_rate df !!! j.
Hypothesis delta_pos : forall j, (j <= n)%nat -> 0 < c_delta_time df !!! j.
Hypothesis slope_pos : 0 < slope.
Hypothesis wor_i_pos : 0 < wor_i.

Lemma row_oil_volume_pos (j : nat) :
  (j <= n)%nat -> 0 < c_oil_rate df !!! j * c_delta_time df !!! j.
Proof.
  intros Hj. destruct (row_rates j Hj) as (_ & -> & _).
  pose proof (row_bsw_range j Hj). pose proof (fluid_pos j Hj).
  apply Rmult_lt_0_compat; [|apply delta_pos, Hj].
  apply Rmult_lt_0_compat; lra.
Qed.

Lemma row_wor_increasing (j : nat) :
  (j + 1 <= n)%nat -> c_wor df !!! j < c_wor df !!! (j + 1)%nat.
Proof.
  intros Hj. destruct (row_cum_step j Hj) as (-> & _).
  destruct j as [|j].
  - destruct row_0 as (-> & _).
    assert (1 < exp (slope * c_oil_cum df !!! 0%nat)).
    { rewrite <- exp_0. apply exp_increasing. apply Rmult_lt_0_compat; [assumption|].
      rewrite row_oil_cum_0. apply row_oil_volume_pos. lia. }
    nra.
  - destruct (row_cum_step j ltac:(lia)) as (Hw & Ho & _).
    replace (j + 1)%nat with (S j) in Hw, Ho by lia. rewrite Hw.
    apply Rmult_lt_compat_r; [assumption|]. apply exp_increasing.
    apply Rmult_lt_compat_l; [assumption|].
    rewrite Ho. pose proof (row_oil_volume_pos (S j) ltac:(lia)). lra.
Qed.

End Positive.
End Rows.

(** ** Time steps of a sorted time axis *)

Lemma sorted_lookup_le (ta : list R) :
  (forall i, (i + 1 < length ta)%nat -> ta !!! i <= ta !!! (i + 1)%nat) ->
  forall i j, (i <= j < length ta)%nat -> ta !!! i <= ta !!! j.
Proof.
  intros Hs i j [Hij Hj]. induction Hij as [|j Hij IH]; [lra|].
  specialize (IH ltac:(lia)). specialize (Hs j ltac:(lia)).
  replace (j + 1)%nat with (S j) in Hs by lia. lra.
Qed.

Lemma np_gradient_nonneg (ta dt : list R) :
  (forall i, (i + 1 < length ta)%nat -> ta !!! i <= ta !!! (i + 1)%nat) ->
  np_gradient ta = Ok dt ->
  forall i, (i < length ta)%nat -> 0 <= dt !!! i.
Proof.
  intros Hs Hg i Hi.
  assert (HT : (2 <= length ta)%nat).
  { destruct (Nat.le_gt_cases 2 (length ta)) as [Hle|Hgt]; [assumption|].
    rewrite np_gradient_Raise in Hg by lia. discriminate. }
  destruct (np_gradient_Ok ta HT) as (dt' & Hg' & _ & H0 & Hlast & Hmid).
  rewrite Hg in Hg'. injection Hg' as <-.
  pose proof (sorted_lookup_le ta Hs) as Hle.
  destruct (decide (i = 0%nat)) as [->|Hne0].
  { rewrite H0. specialize (Hle 0%nat 1%nat ltac:(lia)). lra. }
  destruct (decide (i = (length ta - 1)%nat)) as [->|Hnel].
  { rewrite Hlast.
    specialize (Hle (length ta - 2)%nat (length ta - 1)%nat ltac:(lia)). lra. }
  rewrite Hmid by lia.
  specialize (Hle (i - 1)%nat (i + 1)%nat ltac:(lia)). lra.
Qed.

Lemma np_gradient_pos (ta dt : list R) :
  (forall i, (i + 1 < length ta)%nat -> ta !!! i < ta !!! (i + 1)%nat) ->
  np_gradient ta = Ok dt ->
  forall i, (i < length ta)%nat -> 0 < dt !!! i.
Proof.
  intros Hs Hg i Hi.
  assert (HT : (2 <= length ta)%nat).
  { destruct (Nat.le_gt_cases 2 (length ta)) as [Hle|Hgt]; [assumption|].
    rewrite np_gradient_Raise in Hg by lia. discriminate. }
  destruct (np_gradient_Ok ta HT) as (dt' & Hg' & _ & H0 & Hlast & Hmid).
  rewrite Hg in Hg'. injection Hg' as <-.
  destruct (decide (i = 0%nat)) as [->|Hne0].
  { rewrite H0. specialize (Hs 0%nat ltac:(lia)). simpl in Hs. lra. }
  destruct (decide (i = (length ta - 1)%nat)) as [->|Hnel].
  { rewrite Hlast. specialize (Hs (length ta - 2)%nat ltac:(lia)).
    replace (length ta - 2 + 1)%nat with (length ta - 1)%nat in Hs by lia. lra. }
  rewrite Hmid by lia.
  pose proof (Hs (i - 1)%nat ltac:(lia)) as H1.
  pose proof (Hs i ltac:(lia)) as H2.
  replace (i - 1 + 1)%nat with i in H1 by lia. lra.
Qed.

(** * The claims about [wor_forecast] *)

(** C4 (stopping conditions).  On well-formed inputs [wor_forecast] returns
    rows [0..n] with [1 <= n <= T-2], where [n] is the index of the last pass
    through the loop body: the returned table is the first [n + 1] rows of
    the table of the arrays that pass leaves, every column has [n + 1]
    entries, and the rows hold the values of the recurrence.  The loop runs
    over the indices [1..T-2] only.  Each of its passes, for [j] in [1..n],
    is a pass of [body] that computes row [j] of the returned table and then
    takes the [break] decision of that row; the decision is none before [n],
    and when [n] is not the last index of the loop, the pass for [n] takes a
    [break].  The [break] of a pass is decided by trying the conditions in
    the order rate limit ([oil_rate <= rate_limit]), cumulative limit
    ([oil_cum >= cum_limit]), WOR limit ([wor >= wor_limit]). *)
Theorem wor_forecast_stopping (time_array fluid_rate : list R) (slope wor_i : R)
    (rate_limit cum_limit wor_limit : option R) :
  (3 <= length time_array)%nat ->
  length fluid_rate = length time_array ->
  0 <= wor_i ->
  exists (n : nat) (delta_time : list R) (a a' : arrays) (tag : option stop)
         (df : DataFrame),
    np_gradient time_array = Ok delta_time /\
    wor_forecast time_array fluid_rate slope wor_i rate_limit cum_limit wor_limit
      = Ok df /\
    (1 <= n <= length time_array - 2)%nat /\
    body delta_time fluid_rate slope wor_i rate_limit cum_limit wor_limit n a
      = Ok (a', tag) /\
    columns_length (length time_array)
      (table time_array delta_time fluid_rate a') /\
    df = head (n + 1) (table time_array delta_time fluid_rate a') /\
    columns_length (n + 1) df /\
    nrows df = (n + 1)%nat /\
    index df = take (n + 1) time_array /\
    c_delta_time df = take (n + 1) delta_time /\
    c_fluid_rate df = take (n + 1) fluid_rate /\
    initial_row wor_i df /\
    (forall j, (1 <= j <= n)%nat -> recurrence_row slope wor_i df j) /\
    (forall j, (1 <= j <= n)%nat ->
       exists a_j a_j',
         body delta_time fluid_rate slope wor_i rate_limit cum_limit wor_limit
           j a_j
         = Ok (a_j', stop_at rate_limit cum_limit wor_limit df j) /\
         forall k, (k <= j)%nat ->
           same_row (table time_array delta_time fluid_rate a_j') df k) /\
    (forall j, (1 <= j < n)%nat ->
       stop_at rate_limit cum_limit wor_limit df j = None /\
       ~ rate_hit rate_limit df j /\ ~ cum_hit cum_limit df j /\
       ~ wor_hit wor_limit df j) /\
    ((n < length time_array - 2)%nat ->
       tag <> None /\
       (rate_hit rate_limit df n \/ cum_hit cum_limit df n \/
        wor_hit wor_limit df n)) /\
    (tag = Some RateLimit <-> rate_hit rate_limit df n) /\
    (tag = Some CumLimit <->
       ~ rate_hit rate_limit df n /\ cum_hit cum_limit df n) /\
    (tag = Some WorLimit <->
       ~ rate_hit rate_limit df n /\ ~ cum_hit cum_limit df n /\
       wor_hit wor_limit df n) /\
    (tag = None <->
       ~ rate_hit rate_limit df n /\ ~ cum_hit cum_limit df n /\
       ~ wor_hit wor_limit df n) /\
    (forall j,
       (stop_at rate_limit cum_limit wor_limit df j = Some RateLimit
        <-> rate_hit rate_limit df j) /\
       (stop_at rate_limit cum_limit wor_limit df j = Some CumLimit
        <-> ~ rate_hit rate_limit df j /\ cum_hit cum_limit df j) /\
       (stop_at rate_limit cum_limit wor_limit df j = Some WorLimit
        <-> ~ rate_hit rate_limit df j /\ ~ cum_hit cum_limit df j /\
            wor_hit wor_limit df j)).
Proof.
  intros HT Hfr Hw.
  destruct (wor_forecast_loop time_array fluid_rate slope wor_i rate_limit
              cum_limit wor_limit HT Hfr Hw)
    as (n & dt & a0 & a' & Hg & Hloop & Hrun & Hn & Hlen0 & Hlen' & Hinit
        & Hrec & Hnostop & Hlast).
  assert (Hne : seq 1 (length time_array - 2) <> []).
  { by replace (length time_array - 2)%nat with (S (length time_array - 3)) by lia. }
  destruct (for_loop_last_body _ _ _ _ _ _ _ _ _ _ _ _ Hne Hloop)
    as (n' & a & tag & [= <-] & Hbody).
  set (tb := table time_array dt fluid_rate a') in *.
  assert (Htag : tag = stop_at rate_limit cum_limit wor_limit tb n).
  { destruct Hlen' as (_&Ho&_&Hoc&_&_&Hwl&_). simpl in Ho, Hoc, Hwl.
    apply (body_stop_at time_array _ _ _ _ _ _ _ _ _ _ _ Hbody); lia. }
  assert (Hhead : forall j, (j <= n)%nat -> same_row tb (head (n + 1) tb) j).
  { intros j Hj. apply same_row_head. lia. }
  assert (Hstop : forall j, (j <= n)%nat ->
            stop_at rate_limit cum_limit wor_limit (head (n + 1) tb) j
            = stop_at rate_limit cum_limit wor_limit tb j).
  { intros j Hj. apply stop_at_same, Hhead, Hj. }
  assert (Hlenh : columns_length (n + 1) (head (n + 1) tb)).
  { apply (columns_length_head _ (length time_array)); [lia | assumption]. }
  rewrite <- (Hstop n) in Htag by lia.
  exists n, dt, a, a', tag, (head (n + 1) tb).
  split; [assumption|]. split; [exact Hrun|]. split; [lia|].
  split; [exact Hbody|]. split; [assumption|]. split; [reflexivity|].
  split; [assumption|]. split; [apply Hlenh|].
  split; [reflexivity|]. split; [reflexivity|]. split; [reflexivity|].
  split; [apply (initial_row_same _ tb); [apply Hhead; lia | assumption]|].
  split.
  { intros j Hj. apply (recurrence_row_same _ _ tb);
      [apply Hhead; lia | apply Hhead; lia | apply Hrec; lia]. }
  split.
  { intros j Hj.
    assert (Hseq : (length time_array - 2 = S (length time_array - 3))%nat)
      by lia.
    rewrite Hseq in Hloop.
    destruct (for_loop_trace time_array dt fluid_rate slope wor_i rate_limit
                cum_limit wor_limit Hw (length time_array - 3) 1 None a0
                (Some n) a' Hlen0 ltac:(lia) ltac:(lia) Hloop)
      as (n' & [= <-] & _ & Htrace).
    destruct (Htrace j Hj) as (a_j & a_j' & Hbj & _ & Hsj).
    exists a_j, a_j'. rewrite Hstop by lia. split; [exact Hbj|].
    intros k Hk. eapply same_row_trans; [apply Hsj, Hk | apply Hhead; lia]. }
  split.
  { intros j Hj. rewrite Hstop by lia. split; [apply Hnostop, Hj|].
    apply stop_at_order. rewrite Hstop by lia. apply Hnostop, Hj. }
  destruct (stop_at_order rate_limit cum_limit wor_limit (head (n + 1) tb) n)
    as (Hr & Hc & Hwl & Hnone).
  rewrite <- Htag in Hr, Hc, Hwl, Hnone.
  split.
  { intros Hlt. specialize (Hlast Hlt). rewrite <- Hstop, <- Htag in Hlast by lia.
    split; [assumption|].
    destruct tag as [[| |]|];
      [left; by apply Hr | right; left; by apply Hc
      | right; right; by apply Hwl | contradiction]. }
  split; [assumption|]. split; [assumption|]. split; [assumption|].
  split; [assumption|].
  intros j.
  destruct (stop_at_order rate_limit cum_limit wor_limit (head (n + 1) tb) j)
    as (?&?&?&_).
  auto.
Qed.

(** C5 (the recurrence).  On well-formed inputs the returned table satisfies
    the equations of the specification, with [delta_time = np.gradient
    (time_array)]: row 0 holds the initial condition, with cumulative volumes
    equal to the rates times [delta_time[0]], and every later row [i] holds
    [wor[i] = wor_i * exp (slope * oil_cum[i-1])], [bsw[i] = wor_to_bsw
    (wor[i])], the rates from [bsw[i]] and [fluid_rate[i]], and the
    cumulative volumes of row [i-1] plus rate times [delta_time[i]]. *)
Theorem wor_forecast_recurrence (time_array fluid_rate : list R) (slope wor_i : R)
    (rate_limit cum_limit wor_limit : option R) :
  (3 <= length time_array)%nat ->
  length fluid_rate = length time_array ->
  0 <= wor_i ->
  exists (delta_time : list R) (df : DataFrame),
    np_gradient time_array = Ok delta_time /\
    wor_forecast time_array fluid_rate slope wor_i rate_limit cum_limit wor_limit
      = Ok df /\
    (2 <= nrows df <= length time_array - 1)%nat /\
    (c_wor df !!! 0%nat = wor_i /\
     wor_to_bsw [wor_i] = Ok [c_bsw df !!! 0%nat] /\
     c_oil_rate df !!! 0%nat = fluid_rate !!! 0%nat * (1 - c_bsw df !!! 0%nat) /\
     c_water_rate df !!! 0%nat = fluid_rate !!! 0%nat * c_bsw df !!! 0%nat /\
     c_oil_cum df !!! 0%nat = c_oil_rate df !!! 0%nat * delta_time !!! 0%nat /\
     c_water_cum df !!! 0%nat = c_water_rate df !!! 0%nat * delta_time !!! 0%nat /\
     c_fluid_cum df !!! 0%nat = fluid_rate !!! 0%nat * delta_time !!! 0%nat) /\
    (forall i, (1 <= i < nrows df)%nat ->
       c_wor df !!! i = wor_i * exp (slope * c_oil_cum df !!! (i - 1)%nat) /\
       wor_to_bsw [c_wor df !!! i] = Ok [c_bsw df !!! i] /\
       c_oil_rate df !!! i = fluid_rate !!! i * (1 - c_bsw df !!! i) /\
       c_water_rate df !!! i = fluid_rate !!! i * c_bsw df !!! i /\
       c_oil_cum df !!! i =
         c_oil_cum df !!! (i - 1)%nat + c_oil_rate df !!! i * delta_time !!! i /\
       c_water_cum df !!! i =
         c_water_cum df !!! (i - 1)%nat + c_water_rate df !!! i * delta_time !!! i /\
       c_fluid_cum df !!! i = c_oil_cum df !!! i + c_water_cum df !!! i).
Proof.
  intros HT Hfr Hw.
  destruct (wor_forecast_run time_array fluid_rate slope wor_i rate_limit
              cum_limit wor_limit HT Hfr Hw)
    as (n & dt & df & Hg & Hrun & Hn & Hlen & _ & Hdt & Hfl & H0 & HS & _).
  exists dt, df. split; [exact Hg|]. split; [exact Hrun|].
  assert (Hrows : nrows df = (n + 1)%nat) by apply Hlen.
  split; [lia|].
  assert (Hd : forall i, (i <= n)%nat -> c_delta_time df !!! i = dt !!! i).
  { intros i Hi. rewrite Hdt. apply lookup_total_take_lt. lia. }
  assert (Hf : forall i, (i <= n)%nat -> c_fluid_rate df !!! i = fluid_rate !!! i).
  { intros i Hi. rewrite Hfl. apply lookup_total_take_lt. lia. }
  split.
  - destruct H0 as (E1 & _ & E3 & E4 & E5 & E6 & E7 & E8).
    rewrite Hd, Hf in * by lia.
    rewrite wor_to_bsw_one by assumption.
    rewrite E1 in E3. rewrite <- E3. auto 10.
  - intros i Hi.
    pose proof (row_wor_nonneg slope wor_i df n H0 HS Hw i ltac:(lia)) as Hpos.
    destruct (HS i ltac:(lia)) as (E1 & _ & E3 & E4 & E5 & E6 & E7 & E8).
    rewrite Hd, Hf in * by lia.
    rewrite wor_to_bsw_one by assumption.
    rewrite <- E3, E8. repeat split; try assumption.
    + rewrite E1. ring.
    + ring.
Qed.

(** ** Runs worked out *)

Ltac np_step :=
  first
    [ rewrite Rmult_0_l
    | rewrite exp_0
    | rewrite Rnonzero_0
    | rewrite wor_to_bsw_one by lra
    | rewrite Rleb_true by lra
    | rewrite Rleb_false by lra
    | rewrite Rnonzero_true by lra
    | rewrite np_div_finite by lra
    | progress unfold body, stopping, limit_test, Rgeb
    | progress unfold DataFrame_new, head, table ];
  simpl.

Ltac np_eval :=
  unfold wor_forecast, np_gradient; simpl; repeat np_step.

Lemma wor_forecast_schedule :
  wor_forecast [0; 1; 2; 3] [100; 200; 300; 100] 0 1 None None None
  = Ok schedule_run.
Proof. np_eval. unfold schedule_run. repeat f_equal; lra. Qed.

Lemma wor_forecast_shut_in :
  wor_forecast [0; 1; 2; 3] [100; 0; 0; 100] 0 1 (Some 0) None None
  = Ok shut_in_run.
Proof. np_eval. unfold shut_in_run. repeat f_equal; lra. Qed.

Lemma wor_forecast_limited :
  wor_forecast [0; 1; 2; 3] [100; 200; 300; 100] 0 1 (Some 200) (Some 120) None
  = Ok limited_run.
Proof. np_eval. unfold limited_run. repeat f_equal; lra. Qed.

(** C6, as stated, fails in doubles: the cumulative columns of a run are not
    always non-decreasing.  When [exp] overflows, the WOR of the row is [+inf], its
    water cut [inf / inf] is [nan], and so are its rates and volumes: with a
    slope of [2] and a fluid rate of [1000], [oil_cum] is [[500; nan]].  And
    [fluid_cum[0]], which is [fluid_rate[0] * delta_time[0]], can exceed
    [fluid_cum[1]], which is [water_cum[1] + oil_cum[1]], by a rounding
    error: with a WOR of [0.1] and a well shut in after the first step,
    [fluid_cum] goes from [1000] down to [999.9999999999999]. *)
Lemma wor_forecast_not_monotone_in_doubles :
  (exists df : F64.DataFrame,
     F64.wor_forecast [0; 1; 2]%float [1000; 1000; 1000]%float 2%float 1%float
       None None None = Ok df /\
     F64.c_wor df = [1; infinity]%float /\
     F64.c_oil_cum df = [500; nan]%float /\
     (F64.c_oil_cum df !!! 0%nat <=? F64.c_oil_cum df !!! 1%nat)%float = false) /\
  (exists df : F64.DataFrame,
     F64.wor_forecast [0; 1; 2; 3]%float [1000; 0; 0; 1000]%float 0%float
       0.1%float None None None = Ok df /\
     F64.c_fluid_cum df !!! 0%nat = 1000%float /\
     F64.c_fluid_cum df !!! 1%nat = 999.9999999999999%float /\
     (F64.c_fluid_cum df !!! 0%nat <=? F64.c_fluid_cum df !!! 1%nat)%float
     = false).
Proof.
  split; eexists; (split; [vm_compute; reflexivity|]); repeat split.
Qed.

(** C6 (monotonicity).  For a non-decreasing time axis, non-negative fluid
    rates and a non-negative initial WOR, in any returned run whose entries
    are all finite ([exp] has not overflowed), the columns [oil_cum] and
    [water_cum] are non-decreasing, [fluid_cum] is non-decreasing from row 1
    on and [fluid_cum[1]] is at least [oil_cum[0] + water_cum[0]], and [wor]
    is non-decreasing when the slope is not negative. *)
Theorem wor_forecast_monotone (time_array fluid_rate : list R) (slope wor_i : R)
    (rate_limit cum_limit wor_limit : option R) (df : DataFrame) :
  (forall i, (i + 1 < length time_array)%nat ->
     time_array !!! i <= time_array !!! (i + 1)%nat) ->
  (forall i, (i < length fluid_rate)%nat -> 0 <= fluid_rate !!! i) ->
  0 <= wor_i ->
  wor_forecast time_array fluid_rate slope wor_i rate_limit cum_limit wor_limit
    = Ok df ->
  finite_table df ->
  forall i, (i + 1 < nrows df)%nat ->
    c_oil_cum df !!! i <= c_oil_cum df !!! (i + 1)%nat /\
    c_water_cum df !!! i <= c_water_cum df !!! (i + 1)%nat /\
    ((1 <= i)%nat -> c_fluid_cum df !!! i <= c_fluid_cum df !!! (i + 1)%nat) /\
    (i = 0%nat ->
     c_oil_cum df !!! 0%nat + c_water_cum df !!! 0%nat
     <= c_fluid_cum df !!! 1%nat) /\
    (0 <= slope -> c_wor df !!! i <= c_wor df !!! (i + 1)%nat).
Proof.
  intros Hsorted Hfluid Hw Hrun _ i Hi.
  destruct (wor_forecast_Ok_inv _ _ _ _ _ _ _ _ Hrun) as (HT & Hfr & _).
  destruct (wor_forecast_run time_array fluid_rate slope wor_i rate_limit
              cum_limit wor_limit HT Hfr Hw)
    as (n & dt & df' & Hg & Hrun' & Hn & Hlen & _ & Hdt & Hfl & H0 & HS & _).
  rewrite Hrun in Hrun'. injection Hrun' as <-.
  assert (Hrows : nrows df = (n + 1)%nat) by apply Hlen.
  assert (Hf : forall j, (j <= n)%nat -> 0 <= c_fluid_rate df !!! j).
  { intros j Hj. rewrite Hfl, lookup_total_take_lt by lia. apply Hfluid. lia. }
  assert (Hd : forall j, (j <= n)%nat -> 0 <= c_delta_time df !!! j).
  { intros j Hj. rewrite Hdt, lookup_total_take_lt by lia.
    apply (np_gradient_nonneg time_array dt Hsorted Hg). lia. }
  pose proof (row_oil_cum_mono slope wor_i df n H0 HS Hw Hf Hd) as Hoc.
  pose proof (row_water_cum_mono slope wor_i df n H0 HS Hw Hf Hd) as Hwc.
  split; [apply Hoc; lia|].
  split; [apply Hwc; lia|].
  split; [intros _; apply (row_fluid_cum_mono slope wor_i df n); auto; lia|].
  split.
  { intros ->.
    destruct (HS 1%nat ltac:(lia)) as (_&_&_&_&_&_&_&->).
    pose proof (Hoc 0%nat ltac:(lia)). pose proof (Hwc 0%nat ltac:(lia)).
    simpl in *. lra. }
  intros Hs. apply (row_wor_mono slope wor_i df n); auto; lia.
Qed.

(** C9, as stated, fails on a time axis of one step: the call does not get to
    the loop, it fails in [np.gradient], with [ValueError], and not on the
    loop index. *)
Lemma wor_forecast_one_step :
  np_gradient [0] = Raise ValueError /\
  wor_forecast [0] [100] 0 1 None None None = Raise ValueError /\
  wor_forecast [0] [100] 0 1 None None None <> Raise UnboundLocalError.
Proof. split; [reflexivity|]. split; [reflexivity | discriminate]. Qed.

(** C9 (short time axes).  [wor_forecast] raises for every time axis of
    fewer than three steps, where the range of the loop is empty.  With fewer
    than two steps the exception is the [ValueError] of [np.gradient], raised
    before the loop is reached; with two steps and otherwise well-formed
    inputs (one or two fluid rates, the single one being repeated by pandas)
    it is the unbound loop index.  With three steps or more the returned
    table has fewer rows than the time axis, and exactly [T - 1] when no row
    meets a stopping condition. *)
Theorem wor_forecast_needs_three_steps (time_array fluid_rate : list R)
    (slope wor_i : R) (rate_limit cum_limit wor_limit : option R) :
  ((length time_array < 3)%nat ->
     seq 1 (length time_array - 1 - 1) = [] /\
     exists e,
       wor_forecast time_array fluid_rate slope wor_i rate_limit cum_limit
         wor_limit = Raise e) /\
  ((length time_array < 2)%nat ->
     np_gradient time_array = Raise ValueError /\
     wor_forecast time_array fluid_rate slope wor_i rate_limit cum_limit
       wor_limit = Raise ValueError) /\
  (length time_array = 2%nat -> (1 <= length fluid_rate <= 2)%nat ->
     0 <= wor_i ->
     wor_forecast time_array fluid_rate slope wor_i rate_limit cum_limit
       wor_limit = Raise UnboundLocalError) /\
  ((3 <= length time_array)%nat -> length fluid_rate = length time_array ->
     0 <= wor_i ->
     exists df,
       wor_forecast time_array fluid_rate slope wor_i rate_limit cum_limit
         wor_limit = Ok df /\
       (nrows df < length time_array)%nat /\
       ((forall j, (1 <= j < nrows df)%nat ->
           stop_at rate_limit cum_limit wor_limit df j = None) ->
        nrows df = (length time_array - 1)%nat)).
Proof.
  split; [|split; [|split]].
  - intros HT. split.
    { by replace (length time_array - 1 - 1)%nat with 0%nat by lia. }
    destruct (wor_forecast time_array fluid_rate slope wor_i rate_limit
                cum_limit wor_limit) as [df|e] eqn:E; [|by exists e].
    apply wor_forecast_Ok_inv in E. lia.
  - intros HT. split; [by apply np_gradient_Raise|].
    by apply wor_forecast_gradient_error.
  - apply wor_forecast_unbound_index.
  - intros HT Hfr Hw.
    destruct (wor_forecast_run time_array fluid_rate slope wor_i rate_limit
                cum_limit wor_limit HT Hfr Hw)
      as (n & dt & df & _ & Hrun & Hn & Hlen & _ & _ & _ & _ & _ & _ & Hlast).
    assert (Hrows : nrows df = (n + 1)%nat) by apply Hlen.
    exists df. split; [exact Hrun|]. split; [lia|].
    intros Hno.
    destruct (Nat.lt_ge_cases n (length time_array - 2)) as [Hlt|Hge]; [|lia].
    exfalso. apply (Hlast Hlt). apply Hno. lia.
Qed.

(** C10 (a limit of zero).  A limit equal to [0] is the same as no limit,
    for each of the three limits; in particular a run with [rate_limit = 0]
    and no other limit is never cut short, whatever its oil rates. *)
Theorem wor_forecast_zero_limit (time_array fluid_rate : list R)
    (slope wor_i : R) (rate_limit cum_limit wor_limit : option R) :
  wor_forecast time_array fluid_rate slope wor_i (Some 0) cum_limit wor_limit
  = wor_forecast time_array fluid_rate slope wor_i None cum_limit wor_limit /\
  wor_forecast time_array fluid_rate slope wor_i rate_limit (Some 0) wor_limit
  = wor_forecast time_array fluid_rate slope wor_i rate_limit None wor_limit /\
  wor_forecast time_array fluid_rate slope wor_i rate_limit cum_limit (Some 0)
  = wor_forecast time_array fluid_rate slope wor_i rate_limit cum_limit None /\
  ((3 <= length time_array)%nat -> length fluid_rate = length time_array ->
   0 <= wor_i ->
   exists df,
     wor_forecast time_array fluid_rate slope wor_i (Some 0) None None = Ok df /\
     nrows df = (length time_array - 1)%nat).
Proof.
  split; [apply wor_forecast_same_stopping, stopping_zero_rate|].
  split; [apply wor_forecast_same_stopping, stopping_zero_cum|].
  split; [apply wor_forecast_same_stopping, stopping_zero_wor|].
  intros HT Hfr Hw.
  rewrite (wor_forecast_same_stopping (Some 0) None None None None None)
    by apply stopping_zero_rate.
  destruct (wor_forecast_run time_array fluid_rate slope wor_i None None None
              HT Hfr Hw)
    as (n & dt & df & _ & Hrun & Hn & Hlen & _ & _ & _ & _ & _ & _ & Hlast).
  assert (Hrows : nrows df = (n + 1)%nat) by apply Hlen.
  exists df. split; [exact Hrun|].
  destruct (Nat.lt_ge_cases n (length time_array - 2)) as [Hlt|Hge]; [|lia].
  exfalso. by apply (Hlast Hlt).
Qed.

Lemma forecast_schedule :
  Wor.forecast schedule_well [0; 1; 2; 3] None None None
  = Ok [ {| frame := schedule_run; iteration := 0;
            oil_volume := [100; 125; 150]; water_volume := [100; 125; 150];
            gas := Some {| gas_cum := [0; 0; 0];
                           gas_volume := [Fin 0; Fin 0; Fin 0];
                           gas_rate := [Fin 0; Fin 0; Fin 0] |} |} ].
Proof.
  unfold Wor.forecast, Wor.forecast_iteration, bsw_to_wor, broadcast_to,
    schedule_well.
  simpl. repeat np_step.
  replace (1 / 2 / (1 - 1 / 2)) with 1 by lra.
  rewrite wor_forecast_schedule. simpl.
  unfold np_gradient. simpl.
  repeat f_equal; lra.
Qed.

Lemma wor_forecast_glr_run :
  wor_forecast [0; 2; 4; 6] [100; 100; 100; 100] 0 1 None None None
  = Ok glr_run.
Proof. np_eval. unfold glr_run. repeat f_equal; lra. Qed.

Lemma forecast_glr :
  Wor.forecast glr_well [0; 2; 4; 6] None None None
  = Ok [ {| frame := glr_run; iteration := 0;
            oil_volume := [100; 100; 100]; water_volume := [100; 100; 100];
            gas := Some {| gas_cum := [400; 800; 1200];
                           gas_volume := [Fin 200; Fin 200; Fin 200];
                           gas_rate := [Fin 100; Fin 100; Fin 100] |} |} ].
Proof.
  unfold Wor.forecast, Wor.forecast_iteration, bsw_to_wor, broadcast_to,
    glr_well.
  simpl. repeat np_step.
  replace (1 / 2 / (1 - 1 / 2)) with 1 by lra.
  rewrite wor_forecast_glr_run. simpl.
  unfold np_gradient. simpl.
  unfold Wor.gas_columns, when_truthy. simpl. repeat np_step.
  repeat f_equal; lra.
Qed.

(** ** Runs without limits *)

Lemma stop_at_unlimited (df : DataFrame) (i : nat) :
  stop_at None None None df i = None.
Proof. reflexivity. Qed.

Lemma wor_forecast_run_unlimited (time_array fluid_rate : list R)
    (slope wor_i : R) :
  (3 <= length time_array)%nat ->
  length fluid_rate = length time_array ->
  0 <= wor_i ->
  exists (delta_time : list R) (df : DataFrame),
    np_gradient time_array = Ok delta_time /\
    wor_forecast time_array fluid_rate slope wor_i None None None = Ok df /\
    columns_length (length time_array - 1) df /\
    index df = take (length time_array - 1) time_array /\
    c_delta_time df = take (length time_array - 1) delta_time /\
    c_fluid_rate df = take (length time_array - 1) fluid_rate /\
    initial_row wor_i df /\
    (forall j, (1 <= j <= length time_array - 2)%nat ->
       recurrence_row slope wor_i df j).
Proof.
  intros HT Hfr Hw.
  destruct (wor_forecast_run time_array fluid_rate slope wor_i None None None
              HT Hfr Hw)
    as (n & dt & df & Hg & Hrun & Hn & Hlen & Hidx & Hdt & Hfl & H0 & HS & _ & Hlast).
  assert (n = (length time_array - 2)%nat) as ->.
  { destruct (Nat.lt_ge_cases n (length time_array - 2)) as [Hlt|Hge]; [|lia].
    exfalso. by apply (Hlast Hlt). }
  replace (length time_array - 2 + 1)%nat with (length time_array - 1)%nat
    in * by lia.
  exists dt, df. auto 10.
Qed.

(** ** The scenario of the specification *)

Lemma scenario_time_increasing (i : nat) :
  (i + 1 < length scenario_time)%nat ->
  scenario_time !!! i < scenario_time !!! (i + 1)%nat.
Proof.
  unfold scenario_time. simpl. intros Hi.
  do 9 (destruct i as [|i]; [simpl; lra|]). lia.
Qed.

(** C1, as stated, fails: the run of the scenario does not have ten rows. *)
Lemma wor_forecast_scenario_not_full :
  ~ exists df,
      wor_forecast scenario_time (replicate 10 1000) (1 / 100000) (1 / 10)
        None None None = Ok df /\
      nrows df = 10%nat.
Proof.
  intros (df & Hrun & Hrows).
  destruct (wor_forecast_run_unlimited scenario_time (replicate 10 1000)
              (1 / 100000) (1 / 10) ltac:(simpl; lia) ltac:(reflexivity)
              ltac:(lra))
    as (dt & df' & _ & Hrun' & Hlen & _).
  rewrite Hrun in Hrun'. injection Hrun' as <-.
  destruct Hlen as (Hlen & _). unfold nrows in Hrows.
  rewrite Hrows in Hlen. simpl in Hlen. lia.
Qed.

(** C1, amended.  For [wor_i = 0.1], [slope = 0.00001], a fluid rate of
    [1000] on ten unit time steps and no limit, [wor_forecast] returns the
    nine rows of the time indices [0..8]; [wor] is strictly increasing,
    [oil_rate[0] = 1000 * (1 - wor_to_bsw(0.1))], and in the run that
    [Wor.forecast] builds from it without GOR and GLR [gas_cum] is zero
    everywhere. *)
Theorem wor_forecast_scenario :
  exists df,
    wor_forecast scenario_time (replicate 10 1000) (1 / 100000) (1 / 10)
      None None None = Ok df /\
    nrows df = 9%nat /\
    index df = [0; 1; 2; 3; 4; 5; 6; 7; 8] /\
    (forall i, (i + 1 < 9)%nat -> c_wor df !!! i < c_wor df !!! (i + 1)%nat) /\
    (exists b, wor_to_bsw [1 / 10] = Ok [b] /\
               c_oil_rate df !!! 0%nat = 1000 * (1 - b)) /\
    exists f g,
      Wor.forecast scenario_well scenario_time None None None = Ok [f] /\
      frame f = df /\ gas f = Some g /\ gas_cum g = replicate 9 0.
Proof.
  destruct (wor_forecast_run_unlimited scenario_time (replicate 10 1000)
              (1 / 100000) (1 / 10) ltac:(simpl; lia) ltac:(reflexivity)
              ltac:(lra))
    as (dt & df & Hg & Hrun & Hlen & Hidx & Hdt & Hfl & H0 & HS).
  change (length scenario_time - 1)%nat with 9%nat in *.
  change (length scenario_time - 2)%nat with 8%nat in *.
  assert (Hrows : nrows df = 9%nat) by apply Hlen.
  exists df. split; [exact Hrun|]. split; [exact Hrows|].
  split; [exact Hidx|].
  assert (Hf : forall j, (j <= 8)%nat -> c_fluid_rate df !!! j = 1000).
  { intros j Hj. rewrite Hfl, lookup_total_take_lt by lia.
    apply lookup_total_replicate_2. lia. }
  split.
  { intros i Hi. apply (row_wor_increasing (1 / 100000) (1 / 10) df 8);
      try assumption; try lra; try lia.
    - intros j Hj. rewrite Hf by lia. lra.
    - intros j Hj. rewrite Hdt, lookup_total_take_lt by lia.
      apply (np_gradient_pos scenario_time dt scenario_time_increasing Hg).
      simpl. lia. }
  split.
  { exists (1 / 10 / (1 / 10 + 1)). split; [apply wor_to_bsw_one; lra|].
    destruct H0 as (E1 & _ & E3 & E4 & _).
    rewrite E4, E3, E1, Hf by lia. reflexivity. }
  destruct (np_gradient_Ok (c_oil_cum df)) as (ov & Hov & _).
  { destruct Hlen as (_ & _ & _ & -> & _). lia. }
  destruct (np_gradient_Ok (c_water_cum df)) as (wv & Hwv & _).
  { destruct Hlen as (_ & _ & _ & _ & -> & _). lia. }
  eexists _, _. split; [|split; [|split]].
  - unfold Wor.forecast, Wor.forecast_iteration, bsw_to_wor, broadcast_to,
      scenario_well.
    simpl. repeat np_step.
    replace (1 / 11 / (1 - 1 / 11)) with (1 / 10) by lra.
    simpl replicate in Hrun. rewrite Hrun. simpl.
    rewrite Hov, Hwv. simpl. reflexivity.
  - simpl. rewrite Hrows. destruct df. simpl in *. by rewrite Hidx.
  - reflexivity.
  - simpl. unfold nrows in *. simpl. rewrite length_take, Hrows.
    reflexivity.
Qed.

(** * The claims about the transforms *)

Lemma bsw_to_wor_Ok (bsw : list R) :
  Forall (fun b => 0 <= b <= 1) bsw ->
  bsw_to_wor bsw = Ok (map (fun b => np_div b (1 - b)) bsw).
Proof.
  intros H. unfold bsw_to_wor.
  replace (forallb (fun b => Rleb 0 b && Rleb b 1) bsw) with true; [reflexivity|].
  induction H as [|b l [H0 H1] _ IH]; [reflexivity|].
  simpl. by rewrite !Rleb_true, <- IH.
Qed.

Lemma bsw_to_wor_Raise (bsw : list R) :
  Exists (fun b => ~ 0 <= b <= 1) bsw ->
  bsw_to_wor bsw = Raise AssertionError.
Proof.
  intros H. unfold bsw_to_wor.
  replace (forallb (fun b => Rleb 0 b && Rleb b 1) bsw) with false; [reflexivity|].
  induction H as [b l Hb | b l _ IH]; simpl.
  - destruct (Rle_lt_dec 0 b) as [H0|H0].
    + rewrite (Rleb_true 0 b H0), (Rleb_false b 1) by lra. reflexivity.
    + by rewrite (Rleb_false 0 b H0).
  - rewrite <- IH. by rewrite andb_false_r.
Qed.

Lemma wor_to_bsw_Ok (wor : list R) :
  Forall (fun w => 0 <= w) wor ->
  wor_to_bsw wor = Ok (map (fun w => w / (w + 1)) wor).
Proof.
  intros H. unfold wor_to_bsw.
  replace (forallb (fun w => Rleb 0 w) wor) with true; [reflexivity|].
  induction H as [|w l H0 _ IH]; [reflexivity|].
  simpl. by rewrite Rleb_true, <- IH.
Qed.

Lemma wor_to_bsw_Raise (wor : list R) :
  Exists (fun w => w < 0) wor ->
  wor_to_bsw wor = Raise AssertionError.
Proof.
  intros H. unfold wor_to_bsw.
  replace (forallb (fun w => Rleb 0 w) wor) with false; [reflexivity|].
  induction H as [w l Hw | w l _ IH]; simpl.
  - by rewrite (Rleb_false 0 w Hw).
  - rewrite <- IH. by rewrite andb_false_r.
Qed.

Lemma wor_range (b : R) : 0 <= b < 1 -> 0 <= b / (1 - b).
Proof.
  intros H. apply Rmult_le_pos; [lra|]. left. apply Rinv_0_lt_compat. lra.
Qed.



(** C8 (domains).  [bsw_to_wor] fails, on its assertion, as soon as one
    element lies outside [[0,1]]; on [[0,1]] it returns [bsw / (1 - bsw)],
    which for [bsw = 1] is [+inf], and never [nan].  [wor_to_bsw] returns
    [wor / (wor + 1)] on non-negative elements and fails, on its assertion,
    as soon as one element is negative. *)
Theorem transform_domain (bsw wor : list R) :
  (Exists (fun b => ~ 0 <= b <= 1) bsw -> bsw_to_wor bsw = Raise AssertionError) /\
  (Forall (fun b => 0 <= b <= 1) bsw ->
     exists ws, bsw_to_wor bsw = Ok ws /\
       length ws = length bsw /\
       (forall i b, bsw !! i = Some b ->
          (b < 1 -> ws !! i = Some (Fin (b / (1 - b)))) /\
          (b = 1 -> ws !! i = Some PInf)) /\
       ~ In NaN ws) /\
  (Forall (fun w => 0 <= w) wor ->
     wor_to_bsw wor = Ok (map (fun w => w / (w + 1)) wor)) /\
  (Exists (fun w => w < 0) wor -> wor_to_bsw wor = Raise AssertionError).
Proof.
  split; [apply bsw_to_wor_Raise|].
  split; [|split; [apply wor_to_bsw_Ok | apply wor_to_bsw_Raise]].
  intros H. exists (map (fun b => np_div b (1 - b)) bsw).
  split; [by apply bsw_to_wor_Ok|]. split; [apply length_map|]. split.
  - intros i b Hi. rewrite list_lookup_fmap, Hi. simpl. split.
    + intros Hb. by rewrite np_div_finite by lra.
    + intros ->. unfold np_div.
      destruct (Req_dec_T (1 - 1) 0) as [_|Hne]; [|lra].
      destruct (Rlt_dec 0 1); [reflexivity | lra].
  - intros Hin. apply in_map_iff in Hin as (b & Hb & Hin).
    rewrite Forall_forall in H.
    assert (Hr : 0 <= b <= 1) by (apply H; by apply list_elem_of_In).
    unfold np_div in Hb.
    destruct (Req_dec_T (1 - b) 0); [|discriminate].
    destruct (Rlt_dec 0 b); [discriminate|]. lra.
Qed.

(** * The claims about [Wor.forecast] *)

(** What an iteration adds to the table of [wor_forecast]. *)
Lemma forecast_iteration_columns (self : Wor.t) (time_array time_range : list R)
    (_bsw _slope : list R) (_fluid : list (list R))
    (rate_limit cum_limit wor_limit : option R) (i : nat) (f : Forecast) :
  Wor.forecast_iteration self time_array time_range _bsw _slope _fluid
    rate_limit cum_limit wor_limit i = Ok f ->
  iteration f = i /\
  np_gradient (c_oil_cum (frame f)) = Ok (oil_volume f) /\
  np_gradient (c_water_cum (frame f)) = Ok (water_volume f) /\
  Wor.gas_columns self (frame f) = Ok (gas f).
Proof.
  unfold Wor.forecast_iteration. intros H.
  apply bind_Ok_inv in H as (b & _ & H).
  apply bind_Ok_inv in H as (ws & _ & H).
  apply bind_Ok_inv in H as (fl & _ & H).
  apply bind_Ok_inv in H as (sl & _ & H).
  apply bind_Ok_inv in H as (w & _ & H).
  apply bind_Ok_inv in H as (df & _ & H).
  apply bind_Ok_inv in H as (ov & Hov & H).
  apply bind_Ok_inv in H as (wv & Hwv & H).
  apply bind_Ok_inv in H as (g & Hg & H).
  injection H as <-. simpl. auto.
Qed.

(** Neither ratio given: the three gas columns are zero. *)
Lemma gas_columns_unset (self : Wor.t) (_f : DataFrame) :
  Wor.gor self = None -> Wor.glr self = None ->
  Wor.gas_columns self _f
  = Ok (Some {| gas_cum := replicate (nrows _f) 0;
                gas_volume := replicate (nrows _f) (Fin 0);
                gas_rate := replicate (nrows _f) (Fin 0) |}).
Proof. intros Hgor Hglr. unfold Wor.gas_columns. by rewrite Hgor, Hglr. Qed.

(** A gas-oil ratio that is not zero: [gas_volume] is the increment of
    [gas_cum], and [gas_rate] that increment over [delta_time]. *)
Lemma gas_columns_gor (self : Wor.t) (_f : DataFrame) (g : R) :
  Wor.gor self = Some (Scalar g) -> g <> 0 ->
  Wor.gas_columns self _f
  = Ok (Some {| gas_cum := map (fun v => v * g) (c_oil_cum _f);
                gas_volume :=
                  Fin <$> np_diff_prepend0 (map (fun v => v * g) (c_oil_cum _f));
                gas_rate :=
                  zip_with np_div_float
                    (Fin <$> np_diff_prepend0 (map (fun v => v * g) (c_oil_cum _f)))
                    (c_delta_time _f) |}).
Proof.
  intros Hgor Hg. unfold Wor.gas_columns, when_truthy. rewrite Hgor. simpl.
  by rewrite Rnonzero_true.
Qed.

(** A gas-liquid ratio that is not zero, without a gas-oil ratio:
    [gas_volume] is the increment of [gas_cum] over [delta_time], and
    [gas_rate] divides by [delta_time] once more. *)
Lemma gas_columns_glr (self : Wor.t) (_f : DataFrame) (g : R) :
  Wor.gor self = None -> Wor.glr self = Some (Scalar g) -> g <> 0 ->
  let gas_cum :=
    map (fun v => v * g) (zip_with Rplus (c_oil_cum _f) (c_water_cum _f)) in
  Wor.gas_columns self _f
  = Ok (Some {| gas_cum := gas_cum;
                gas_volume :=
                  zip_with np_div (np_diff_prepend0 gas_cum) (c_delta_time _f);
                gas_rate :=
                  zip_with np_div_float
                    (zip_with np_div (np_diff_prepend0 gas_cum) (c_delta_time _f))
                    (c_delta_time _f) |}).
Proof.
  intros Hgor Hglr Hg. unfold Wor.gas_columns, when_truthy.
  rewrite Hgor, Hglr. simpl. by rewrite Rnonzero_true.
Qed.

(** A gas-oil ratio of zero and no gas-liquid ratio: no gas column at all. *)
Lemma gas_columns_gor_zero (self : Wor.t) (_f : DataFrame) :
  Wor.gor self = Some (Scalar 0) -> Wor.glr self = None ->
  Wor.gas_columns self _f = Ok None.
Proof.
  intros Hgor Hglr. unfold Wor.gas_columns, when_truthy.
  rewrite Hgor, Hglr. simpl. by rewrite Rnonzero_0.
Qed.

(** C2 (volumes).  On a schedule of fluid rates [Wor.forecast] returns
    [oil_volume = [100; 125; 150]] for [oil_cum = [50; 150; 300]]: the
    centred differences of [np.gradient], not the step-wise increments
    [[50; 100; 150]], and a first value that is not the first cumulative
    value.  The same holds for [water_volume]. *)
Theorem forecast_volume_is_gradient :
  exists f,
    Wor.forecast schedule_well [0; 1; 2; 3] None None None = Ok [f] /\
    c_oil_cum (frame f) = [50; 150; 300] /\
    c_water_cum (frame f) = [50; 150; 300] /\
    oil_volume f = [100; 125; 150] /\
    water_volume f = [100; 125; 150] /\
    np_diff_prepend0 (c_oil_cum (frame f)) = [50 - 0; 150 - 50; 300 - 150] /\
    oil_volume f <> np_diff_prepend0 (c_oil_cum (frame f)) /\
    water_volume f <> np_diff_prepend0 (c_water_cum (frame f)) /\
    oil_volume f !!! 0%nat <> c_oil_cum (frame f) !!! 0%nat.
Proof.
  eexists. split; [apply forecast_schedule|]. simpl.
  repeat split; try reflexivity.
  - intros [= H _]. lra.
  - intros [= H _]. lra.
  - lra.
Qed.

(** C3 (gas).  With a gas-liquid ratio of [2] and time steps of [2],
    [Wor.forecast] returns [gas_cum = [400; 800; 1200]] but [gas_volume =
    [200; 200; 200]], the increments of [gas_cum] divided by [delta_time],
    and [gas_rate = [100; 100; 100]], the increments divided by [delta_time]
    twice. *)
Theorem forecast_glr_divides_twice :
  exists f g,
    Wor.forecast glr_well [0; 2; 4; 6] None None None = Ok [f] /\
    gas f = Some g /\
    c_delta_time (frame f) = [2; 2; 2] /\
    gas_cum g =
      map (fun v => v * 2)
        (zip_with Rplus (c_oil_cum (frame f)) (c_water_cum (frame f))) /\
    gas_cum g = [400; 800; 1200] /\
    np_diff_prepend0 (gas_cum g) = [400 - 0; 800 - 400; 1200 - 800] /\
    gas_volume g = [Fin 200; Fin 200; Fin 200] /\
    gas_rate g = [Fin 100; Fin 100; Fin 100] /\
    gas_volume g <> Fin <$> np_diff_prepend0 (gas_cum g) /\
    gas_rate g <>
      zip_with np_div (np_diff_prepend0 (gas_cum g)) (c_delta_time (frame f)).
Proof.
  eexists _, _. split; [apply forecast_glr|]. simpl.
  split; [reflexivity|]. simpl. split; [reflexivity|].
  split; [repeat f_equal; lra|].
  split; [reflexivity|]. split; [reflexivity|].
  split; [reflexivity|]. split; [reflexivity|].
  split.
  - intros [= H _]. lra.
  - rewrite !np_div_finite by lra. intros [= H _]. lra.
Qed.

(** * The theorems at concrete inputs *)

Lemma schedule_time_sorted (i : nat) :
  (i + 1 < length [0; 1; 2; 3])%nat ->
  [0; 1; 2; 3] !!! i <= [0; 1; 2; 3] !!! (i + 1)%nat.
Proof.
  simpl. intros Hi. do 3 (destruct i as [|i]; [simpl; lra|]). lia.
Qed.

Lemma schedule_wor_below (bound : R) : 1 <= bound -> wor_below bound schedule_run.
Proof.
  intros Hb i Hi. unfold nrows, schedule_run in *. simpl in *.
  do 3 (destruct i as [|i]; [simpl; lra|]). lia.
Qed.

Lemma one_le_pow10 (n : nat) : 1 <= 10 ^ n.
Proof. apply pow_R1_Rle. lra. Qed.

Lemma finite_small (x : R) (n : nat) :
  (3 <= n)%nat -> 0 <= x <= 1000 -> Rabs x <= 10 ^ n.
Proof.
  intros Hn Hx. rewrite Rabs_pos_eq by lra.
  apply Rle_trans with (10 ^ 3); [lra | apply Rle_pow; [lra | lia]].
Qed.

Lemma schedule_finite : finite_table schedule_run.
Proof.
  unfold finite_table, columns, schedule_run.
  cbv beta iota delta [c_oil_rate c_water_rate c_oil_cum c_water_cum c_bsw
                       c_wor c_wor_1 c_delta_time c_fluid_rate c_fluid_cum].
  repeat first [apply Forall_nil_2 | apply Forall_cons_2];
    (apply finite_small; [lia | lra]).
Qed.

Lemma schedule_fluid_nonneg (i : nat) :
  (i < length [100; 200; 300; 100])%nat -> 0 <= [100; 200; 300; 100] !!! i.
Proof.
  simpl. intros Hi. do 4 (destruct i as [|i]; [simpl; lra|]). lia.
Qed.

(** The schedule with a rate limit of [200] and a cumulative limit of [120]:
    both are met on row 1, the run is cut to two rows, and the [break] taken
    is the one of the rate limit, which is tried first. *)
Lemma wor_forecast_stopping_witness :
  exists (n : nat) (delta_time : list R) (a a' : arrays) (tag : option stop)
         (df : DataFrame),
    wor_forecast [0; 1; 2; 3] [100; 200; 300; 100] 0 1 (Some 200) (Some 120) None
      = Ok df /\
    body delta_time [100; 200; 300; 100] 0 1 (Some 200) (Some 120) None n a
      = Ok (a', tag) /\
    df = head (n + 1) (table [0; 1; 2; 3] delta_time [100; 200; 300; 100] a') /\
    n = 1%nat /\
    df = limited_run /\
    columns_length 2 df /\
    tag = Some RateLimit /\
    rate_hit (Some 200) df 1 /\ cum_hit (Some 120) df 1 /\
    c_oil_cum df !!! 1%nat
    = c_oil_cum df !!! 0%nat + c_oil_rate df !!! 1%nat * c_delta_time df !!! 1%nat.
Proof.
  destruct (wor_forecast_stopping [0; 1; 2; 3] [100; 200; 300; 100] 0 1
              (Some 200) (Some 120) None)
    as (n & dt & a & a' & tag & df & Hg & Hrun & Hn & Hbody & HlenT & Hdf & Hlen
        & Hrows & Hidx & Hdt & Hfr & H0 & HS & Hpass & Hno & Hlast & Hr
        & Hrest);
    [simpl; lia | reflexivity | lra |].
  assert (Heq : df = limited_run).
  { rewrite wor_forecast_limited in Hrun. by injection Hrun. }
  assert (Hn1 : n = 1%nat).
  { rewrite Heq in Hrows. unfold nrows, limited_run in Hrows. simpl in Hrows. lia. }
  assert (Hrate : rate_hit (Some 200) df 1).
  { rewrite Heq. exists 200. split; [split; [reflexivity | lra]|].
    unfold limited_run. simpl. lra. }
  exists n, dt, a, a', tag, df.
  split; [exact Hrun|]. split; [exact Hbody|]. split; [exact Hdf|].
  split; [exact Hn1|]. split; [exact Heq|].
  split; [by rewrite Hn1 in Hlen|].
  split; [apply Hr; by rewrite Hn1|].
  split; [exact Hrate|].
  split.
  { rewrite Heq. exists 120. split; [split; [reflexivity | lra]|].
    unfold limited_run. simpl. lra. }
  destruct (HS 1%nat ltac:(lia)) as (_&_&_&_&_&Hoc&_). exact Hoc.
Defined.

Lemma wor_forecast_recurrence_witness :
  exists (delta_time : list R) (df : DataFrame),
    np_gradient [0; 1; 2; 3] = Ok delta_time /\
    wor_forecast [0; 1; 2; 3] [100; 200; 300; 100] 0 1 None None None = Ok df /\
    c_wor df !!! 0%nat = 1 /\
    c_oil_cum df !!! 0%nat = c_oil_rate df !!! 0%nat * delta_time !!! 0%nat.
Proof.
  destruct (wor_forecast_recurrence [0; 1; 2; 3] [100; 200; 300; 100] 0 1
              None None None)
    as (dt & df & Hg & Hrun & _ & (Hw & _ & _ & _ & Hoc & _) & _);
    [simpl; lia | reflexivity | lra |].
  exists dt, df. split; [exact Hg|]. split; [exact Hrun|].
  split; [exact Hw | exact Hoc].
Defined.

(** The schedule, between rows 0 and 1 and between rows 1 and 2. *)
Lemma wor_forecast_monotone_witness :
  (c_oil_cum schedule_run !!! 0%nat <= c_oil_cum schedule_run !!! (0 + 1)%nat /\
   c_water_cum schedule_run !!! 0%nat
   <= c_water_cum schedule_run !!! (0 + 1)%nat /\
   ((1 <= 0)%nat ->
    c_fluid_cum schedule_run !!! 0%nat
    <= c_fluid_cum schedule_run !!! (0 + 1)%nat) /\
   (0%nat = 0%nat ->
    c_oil_cum schedule_run !!! 0%nat + c_water_cum schedule_run !!! 0%nat
    <= c_fluid_cum schedule_run !!! 1%nat) /\
   (0 <= 0 ->
    c_wor schedule_run !!! 0%nat <= c_wor schedule_run !!! (0 + 1)%nat)) /\
  (c_oil_cum schedule_run !!! 1%nat <= c_oil_cum schedule_run !!! (1 + 1)%nat /\
   c_water_cum schedule_run !!! 1%nat
   <= c_water_cum schedule_run !!! (1 + 1)%nat /\
   ((1 <= 1)%nat ->
    c_fluid_cum schedule_run !!! 1%nat
    <= c_fluid_cum schedule_run !!! (1 + 1)%nat) /\
   (1%nat = 0%nat ->
    c_oil_cum schedule_run !!! 0%nat + c_water_cum schedule_run !!! 0%nat
    <= c_fluid_cum schedule_run !!! 1%nat) /\
   (0 <= 0 ->
    c_wor schedule_run !!! 1%nat <= c_wor schedule_run !!! (1 + 1)%nat)).
Proof.
  split;
    apply (wor_forecast_monotone [0; 1; 2; 3] [100; 200; 300; 100] 0 1
             None None None schedule_run schedule_time_sorted
             schedule_fluid_nonneg ltac:(lra) wor_forecast_schedule
             schedule_finite);
    unfold nrows, schedule_run; simpl; lia.
Defined.


Lemma transform_domain_witness :
  bsw_to_wor [1 / 2; 3 / 2] = Raise AssertionError /\
  (exists ws, bsw_to_wor [1 / 2; 1] = Ok ws /\ ws !! 1%nat = Some PInf) /\
  wor_to_bsw [1; 3] = Ok [1 / (1 + 1); 3 / (3 + 1)] /\
  wor_to_bsw [1; -1] = Raise AssertionError.
Proof.
  split; [|split; [|split]].
  - apply (proj1 (transform_domain [1 / 2; 3 / 2] [])).
    apply Exists_cons_tl, Exists_cons_hd. lra.
  - destruct (proj1 (proj2 (transform_domain [1 / 2; 1] [])))
      as (ws & Hws & _ & Hel & _); [repeat constructor; lra|].
    exists ws. split; [exact Hws|].
    by apply (proj2 (Hel 1%nat 1 eq_refl)).
  - apply (proj1 (proj2 (proj2 (transform_domain [] [1; 3])))).
    repeat constructor; lra.
  - apply (proj2 (proj2 (proj2 (transform_domain [] [1; -1])))).
    apply Exists_cons_tl, Exists_cons_hd. lra.
Defined.

Lemma wor_forecast_needs_three_steps_witness :
  (exists e, wor_forecast [0; 1] [100; 100] 0 1 None None None = Raise e) /\
  wor_forecast [0] [100] 0 1 None None None = Raise ValueError /\
  wor_forecast [0; 1] [100; 100] 0 1 None None None = Raise UnboundLocalError /\
  wor_forecast [0; 1] [100] 0 1 None None None = Raise UnboundLocalError /\
  (exists df,
     wor_forecast [0; 1; 2; 3] [100; 200; 300; 100] 0 1 None None None = Ok df /\
     (nrows df < 4)%nat).
Proof.
  split; [|split; [|split; [|split]]].
  - apply (proj1 (wor_forecast_needs_three_steps [0; 1] [100; 100] 0 1
                    None None None)).
    simpl. lia.
  - apply (proj1 (proj2 (wor_forecast_needs_three_steps [0] [100] 0 1
                           None None None))).
    simpl. lia.
  - apply (proj1 (proj2 (proj2 (wor_forecast_needs_three_steps [0; 1]
                                  [100; 100] 0 1 None None None))));
      [reflexivity | simpl; lia | lra].
  - apply (proj1 (proj2 (proj2 (wor_forecast_needs_three_steps [0; 1]
                                  [100] 0 1 None None None))));
      [reflexivity | simpl; lia | lra].
  - destruct (proj2 (proj2 (proj2 (wor_forecast_needs_three_steps [0; 1; 2; 3]
                                     [100; 200; 300; 100] 0 1 None None None))))
      as (df & Hrun & Hrows & _); [simpl; lia | reflexivity | lra |].
    exists df. split; [exact Hrun | exact Hrows].
Defined.

(** The oil rate is zero from row 1 on, and [rate_limit = 0] cuts nothing. *)
Lemma wor_forecast_zero_limit_witness :
  exists df,
    wor_forecast [0; 1; 2; 3] [100; 0; 0; 100] 0 1 (Some 0) None None = Ok df /\
    nrows df = 3%nat /\
    c_oil_rate df !!! 1%nat = 0.
Proof.
  destruct (proj2 (proj2 (proj2 (wor_forecast_zero_limit [0; 1; 2; 3]
                                   [100; 0; 0; 100] 0 1 None None None))))
    as (df & Hrun & Hrows); [simpl; lia | reflexivity | lra |].
  exists df. split; [exact Hrun|]. split; [exact Hrows|].
  rewrite wor_forecast_shut_in in Hrun. injection Hrun as <-. reflexivity.
Defined.

(** * The program on binary64, run

    Runs of the module [F64] on small inputs.  On the schedule, whose values
    are exact in binary, the doubles and the reals give the same table; the
    other runs show what the hypotheses on finite entries, on the argument of
    [exp] and on integer times keep out. *)

(** The schedule under its limits: the table [limited_run]. *)
Lemma wor_forecast_limited_in_doubles :
  F64.wor_forecast [0; 1; 2; 3]%float [100; 200; 300; 100]%float 0%float 1%float
    (Some 200%float) (Some 120%float) None
  = Ok {| F64.index := [0; 1]%float;
          F64.c_oil_rate := [50; 100]%float;
          F64.c_water_rate := [50; 100]%float;
          F64.c_oil_cum := [50; 150]%float;
          F64.c_water_cum := [50; 150]%float;
          F64.c_bsw := [0.5; 0.5]%float; F64.c_wor := [1; 1]%float;
          F64.c_wor_1 := [2; 2]%float;
          F64.c_delta_time := [1; 1]%float;
          F64.c_fluid_rate := [100; 200]%float;
          F64.c_fluid_cum := [100; 300]%float |}.
Proof. vm_compute. reflexivity. Qed.

(** Two time steps and one fluid rate: pandas repeats the rate, and the call
    fails on the loop index. *)
Lemma wor_forecast_two_steps_in_doubles :
  F64.wor_forecast [0; 1]%float [100]%float 0%float 1%float None None None
  = Raise UnboundLocalError.
Proof. vm_compute. reflexivity. Qed.

(** When [exp] overflows on a row that is not the last, the next pass
    computes [exp(nan)] and fails the assertion of [wor_to_bsw]: with a slope
    of [2] and a fluid rate of [1000] the call raises, with one fluid rate
    per time step and with one more. *)
Lemma wor_forecast_overflow_in_doubles :
  F64.wor_forecast [0; 1; 2; 3]%float [1000; 1000; 1000; 1000]%float 2%float
    1%float None None None = Raise AssertionError /\
  F64.wor_forecast [0; 1; 2; 3]%float [1000; 1000; 1000; 1000; 1000]%float
    2%float 1%float None None None = Raise AssertionError.
Proof. split; vm_compute; reflexivity. Qed.

(** A dry well ([wor_i = 0]) whose [exp] overflows: the WOR of row 1 is
    [inf * 0], a [nan], and the call fails the assertion before it reads
    [fluid_rate[1]]. *)
Lemma wor_forecast_dry_well_in_doubles :
  F64.wor_forecast [0; 1; 2]%float [1000]%float 1%float 0%float None None None
  = Raise AssertionError.
Proof. vm_compute. reflexivity. Qed.

(** The integers [2^53, 2^53 + 1, 2^53 + 2, 2^53 + 3] as float64 are
    [2^53, 2^53, 2^53 + 2, 2^53 + 4]: their time steps are not [1]. *)
Lemma np_gradient_large_times_in_doubles :
  F64.np_gradient [9007199254740992; 9007199254740992; 9007199254740994;
                   9007199254740996]%float
  = Ok [0; 1; 2; 2]%float.
Proof. vm_compute. reflexivity. Qed.

(** From [2^53] on [wor + 1] is [wor] and the water cut is exactly [1]; the
    round trip of a WOR of [10^6] is off by [5e-11] of it. *)
Lemma wor_to_bsw_large_in_doubles :
  F64.wor_to_bsw [9007199254740992; 1e300]%float = Ok [1; 1]%float /\
  (w ← F64.wor_to_bsw [1000000]%float; F64.bsw_to_wor w)
  = Ok [999999.99995012255]%float.
Proof. split; vm_compute; reflexivity. Qed.

(** * Further properties of [wor_forecast] *)

(** What [wor_forecast] has computed when it returns. *)
Lemma wor_forecast_rows (time_array fluid_rate : list R) (slope wor_i : R)
    (rate_limit cum_limit wor_limit : option R) (df : DataFrame) :
  wor_forecast time_array fluid_rate slope wor_i rate_limit cum_limit wor_limit
    = Ok df ->
  exists (n : nat) (delta_time : list R),
    np_gradient time_array = Ok delta_time /\
    (3 <= length time_array)%nat /\
    length fluid_rate = length time_array /\
    length delta_time = length time_array /\
    0 <= wor_i /\
    (1 <= n <= length time_array - 2)%nat /\
    columns_length (n + 1) df /\
    index df = take (n + 1) time_array /\
    c_delta_time df = take (n + 1) delta_time /\
    c_fluid_rate df = take (n + 1) fluid_rate /\
    initial_row wor_i df /\
    (forall j, (1 <= j <= n)%nat -> recurrence_row slope wor_i df j).
Proof.
  intros Hrun.
  destruct (wor_forecast_Ok_inv _ _ _ _ _ _ _ _ Hrun) as (HT & Hfr & Hw).
  destruct (wor_forecast_run time_array fluid_rate slope wor_i rate_limit
              cum_limit wor_limit HT Hfr Hw)
    as (n & dt & df' & Hg & Hrun' & Hn & Hlen & Hidx & Hdt & Hfl & H0 & HS & _).
  rewrite Hrun in Hrun'. injection Hrun' as <-.
  destruct (np_gradient_Ok time_array ltac:(lia)) as (dt' & Hg' & Hl & _).
  rewrite Hg in Hg'. injection Hg' as <-.
  exists n, dt. auto 15.
Qed.

(** X1.  [wor_forecast] returns a table only when the time axis has at least
    three steps, there is one fluid rate per time step, and the initial WOR
    is not negative.  The table then has at least two rows and at most one
    row less than the time axis, and its index is the start of the time
    axis. *)
Theorem wor_forecast_returns_only (time_array fluid_rate : list R)
    (slope wor_i : R) (rate_limit cum_limit wor_limit : option R)
    (df : DataFrame) :
  wor_forecast time_array fluid_rate slope wor_i rate_limit cum_limit wor_limit
    = Ok df ->
  (3 <= length time_array)%nat /\
  length fluid_rate = length time_array /\
  0 <= wor_i /\
  (2 <= nrows df <= length time_array - 1)%nat /\
  index df = take (nrows df) time_array.
Proof.
  intros Hrun.
  destruct (wor_forecast_rows _ _ _ _ _ _ _ _ Hrun)
    as (n & dt & _ & HT & Hfr & _ & Hw & Hn & Hlen & Hidx & _).
  assert (Hrows : nrows df = (n + 1)%nat) by apply Hlen.
  rewrite Hrows. repeat split; try assumption; lia.
Qed.

(** X2.  A negative initial WOR fails the assertion of [wor_to_bsw], whatever
    the fluid rates and limits, as soon as the time axis has two steps. *)
Theorem wor_forecast_negative_wor (time_array fluid_rate : list R)
    (slope wor_i : R) (rate_limit cum_limit wor_limit : option R) :
  (2 <= length time_array)%nat -> wor_i < 0 ->
  wor_forecast time_array fluid_rate slope wor_i rate_limit cum_limit wor_limit
    = Raise AssertionError.
Proof.
  intros HT Hw.
  destruct (np_gradient_Ok time_array HT) as (dt & Hg & _).
  unfold wor_forecast. rewrite Hg, bind_Ok. cbv beta zeta.
  rewrite (getitem_Ok (<[0%nat:=wor_i]> (np_zeros (length time_array))))
    by (rewrite length_insert, length_np_zeros; lia).
  rewrite list_lookup_total_insert_eq by (rewrite length_np_zeros; lia).
  rewrite bind_Ok, (wor_to_bsw_one_neg _ Hw). reflexivity.
Qed.

(** The loop reads [fluid_rate[1]]. *)
Lemma wor_forecast_fluid_rate_index (time_array fluid_rate : list R)
    (slope wor_i : R) (rate_limit cum_limit wor_limit : option R) :
  (3 <= length time_array)%nat -> (length fluid_rate <= 1)%nat -> 0 <= wor_i ->
  wor_forecast time_array fluid_rate slope wor_i rate_limit cum_limit wor_limit
    = Raise IndexError.
Proof.
  intros HT Hfr Hw.
  destruct (np_gradient_Ok time_array ltac:(lia)) as (dt & Hg & Hdt & _).
  unfold wor_forecast. rewrite Hg, bind_Ok. cbv beta zeta.
  rewrite (getitem_Ok (<[0%nat:=wor_i]> (np_zeros (length time_array))))
    by (rewrite length_insert, length_np_zeros; lia).
  rewrite list_lookup_total_insert_eq by (rewrite length_np_zeros; lia).
  rewrite bind_Ok, (wor_to_bsw_one _ Hw), !bind_Ok. simpl item.
  rewrite bind_Ok.
  destruct fluid_rate as [|f0 [|f1 rest]]; [reflexivity | | simpl in Hfr; lia].
  rewrite (getitem_Ok [f0]) by (simpl; lia). rewrite bind_Ok.
  rewrite getitem_Ok by lia. rewrite bind_Ok.
  destruct (length dt - 1 - 1)%nat as [|m] eqn:Hm; [lia|].
  simpl seq. simpl for_loop. unfold body. simpl oil_cum.
  rewrite (getitem_Ok (<[0%nat:=_]> _))
    by (rewrite length_insert, length_np_zeros; lia).
  rewrite bind_Ok.
  rewrite wor_to_bsw_one
    by (apply Rmult_le_pos; [left; apply exp_pos | assumption]).
  rewrite !bind_Ok. simpl item. rewrite bind_Ok.
  rewrite (getitem_Raise [f0]) by (simpl; lia). reflexivity.
Qed.

(** X3.  On a time axis of three steps or more an empty fluid rate raises
    [IndexError] at [fluid_rate[0]], and a fluid rate given as one number (an
    array of one element, as [np.atleast_1d] makes it) raises [IndexError]
    when the loop reads [fluid_rate[1]].  The second holds when the first
    pass gets that far: the volume of row 0 is a finite double (at most
    [10^300]), and the initial WOR is positive or the argument of [exp],
    which is [slope * oil_cum[0]], is at most [700], so that the WOR of row 1
    is not the [nan] that [inf * 0] is in doubles. *)
Theorem wor_forecast_scalar_fluid_rate (time_array : list R)
    (slope wor_i : R) (rate_limit cum_limit wor_limit : option R) :
  (3 <= length time_array)%nat -> 0 <= wor_i ->
  wor_forecast time_array [] slope wor_i rate_limit cum_limit wor_limit
    = Raise IndexError /\
  (forall f0 : R,
     Rabs (f0 * (time_array !!! 1%nat - time_array !!! 0%nat)) <= 10 ^ 300 ->
     0 < wor_i \/
     slope * (f0 * (1 - wor_i / (wor_i + 1))
              * (time_array !!! 1%nat - time_array !!! 0%nat)) <= 700 ->
     wor_forecast time_array [f0] slope wor_i rate_limit cum_limit wor_limit
       = Raise IndexError).
Proof.
  intros HT Hw. split.
  - apply wor_forecast_fluid_rate_index; [assumption | simpl; lia | assumption].
  - intros f0 _ _.
    apply wor_forecast_fluid_rate_index; [assumption | simpl; lia | assumption].
Qed.

(** X4.  Every row of a returned run whose WOR stays below [10^15] is
    consistent: [wor >= 0], [wor_1 = wor + 1], [bsw = wor / (wor + 1)] lies
    in [[0, 1)], and the fluid rate is the one given for the row. *)
Theorem wor_forecast_row_invariants (time_array fluid_rate : list R)
    (slope wor_i : R) (rate_limit cum_limit wor_limit : option R)
    (df : DataFrame) :
  wor_forecast time_array fluid_rate slope wor_i rate_limit cum_limit wor_limit
    = Ok df ->
  wor_below (10 ^ 15) df ->
  forall i, (i < nrows df)%nat ->
    0 <= c_wor df !!! i /\
    c_wor_1 df !!! i = c_wor df !!! i + 1 /\
    c_bsw df !!! i = c_wor df !!! i / (c_wor df !!! i + 1) /\
    0 <= c_bsw df !!! i < 1 /\
    c_fluid_rate df !!! i = fluid_rate !!! i.
Proof.
  intros Hrun _ i Hi.
  destruct (wor_forecast_rows _ _ _ _ _ _ _ _ Hrun)
    as (n & dt & _ & _ & _ & _ & Hw & _ & Hlen & _ & _ & Hfl & H0 & HS).
  assert (Hrows : nrows df = (n + 1)%nat) by apply Hlen.
  assert (Hin : (i <= n)%nat) by lia.
  pose proof (row_wor_nonneg slope wor_i df n H0 HS Hw i Hin) as Hwor.
  pose proof (row_bsw_range slope wor_i df n H0 HS Hw i Hin) as Hb.
  destruct (row_rates slope wor_i df n H0 HS i Hin) as (Eb & Eo & Ewa).
  split; [exact Hwor|]. split.
  { destruct i as [|i].
    - destruct H0 as (-> & -> & _). reflexivity.
    - destruct (HS (S i) ltac:(lia)) as (_ & -> & _). reflexivity. }
  split; [exact Eb|]. split; [exact Hb|].
  rewrite Hfl; apply lookup_total_take_lt; lia.
Qed.

(** With non-negative fluid rates on a non-decreasing time axis, no rate and
    no cumulative volume of a returned run is negative. *)
Lemma wor_forecast_rows_nonneg (time_array fluid_rate : list R)
    (slope wor_i : R) (rate_limit cum_limit wor_limit : option R)
    (df : DataFrame) :
  (forall i, (i + 1 < length time_array)%nat ->
     time_array !!! i <= time_array !!! (i + 1)%nat) ->
  (forall i, (i < length fluid_rate)%nat -> 0 <= fluid_rate !!! i) ->
  wor_forecast time_array fluid_rate slope wor_i rate_limit cum_limit wor_limit
    = Ok df ->
  forall i, (i < nrows df)%nat ->
    0 <= c_oil_rate df !!! i /\ 0 <= c_water_rate df !!! i /\
    0 <= c_delta_time df !!! i /\
    0 <= c_oil_cum df !!! i /\ 0 <= c_water_cum df !!! i /\
    0 <= c_fluid_cum df !!! i.
Proof.
  intros Hsorted Hfluid Hrun.
  destruct (wor_forecast_rows _ _ _ _ _ _ _ _ Hrun)
    as (n & dt & Hg & HT & Hfr & _ & Hw & Hn & Hlen & _ & Hdt & Hfl & H0 & HS).
  assert (Hrows : nrows df = (n + 1)%nat) by apply Hlen.
  assert (Hf : forall j, (j <= n)%nat -> 0 <= c_fluid_rate df !!! j).
  { intros j Hj. rewrite Hfl, lookup_total_take_lt by lia. apply Hfluid. lia. }
  assert (Hd : forall j, (j <= n)%nat -> 0 <= c_delta_time df !!! j).
  { intros j Hj. rewrite Hdt, lookup_total_take_lt by lia.
    apply (np_gradient_nonneg time_array dt Hsorted Hg). lia. }
  assert (Hrates : forall j, (j <= n)%nat ->
            0 <= c_oil_rate df !!! j /\ 0 <= c_water_rate df !!! j).
  { intros j Hj.
    destruct (row_rates slope wor_i df n H0 HS j Hj) as (_ & -> & ->).
    pose proof (row_bsw_range slope wor_i df n H0 HS Hw j Hj).
    pose proof (Hf j Hj). split; apply Rmult_le_pos; lra. }
  assert (Hcum : forall j, (j <= n)%nat ->
            0 <= c_oil_cum df !!! j /\ 0 <= c_water_cum df !!! j).
  { induction j as [|j IH]; intros Hj.
    - destruct H0 as (_ & _ & _ & _ & _ & -> & -> & _).
      destruct (Hrates 0%nat Hj). pose proof (Hd 0%nat Hj).
      split; by apply Rmult_le_pos.
    - destruct (IH ltac:(lia)) as (IHo & IHw).
      destruct (row_cum_step slope wor_i df n HS j ltac:(lia)) as (_ & Eo & Ewa).
      replace (j + 1)%nat with (S j) in Eo, Ewa by lia. rewrite Eo, Ewa.
      destruct (Hrates (S j) Hj). pose proof (Hd (S j) Hj).
      split; apply Rplus_le_le_0_compat; try assumption; by apply Rmult_le_pos. }
  intros i Hi. assert (Hin : (i <= n)%nat) by lia.
  destruct (Hrates i Hin), (Hcum i Hin).
  rewrite (row_fluid_cum_sum slope wor_i df n H0 HS i Hin).
  repeat split; try assumption; [by apply Hd | lra].
Qed.

(** X5.  With non-negative fluid rates on a non-decreasing time axis, no rate
    and no cumulative volume of a returned run is negative, as long as the
    entries of the run are all finite. *)
Theorem wor_forecast_nonnegative (time_array fluid_rate : list R)
    (slope wor_i : R) (rate_limit cum_limit wor_limit : option R)
    (df : DataFrame) :
  (forall i, (i + 1 < length time_array)%nat ->
     time_array !!! i <= time_array !!! (i + 1)%nat) ->
  (forall i, (i < length fluid_rate)%nat -> 0 <= fluid_rate !!! i) ->
  wor_forecast time_array fluid_rate slope wor_i rate_limit cum_limit wor_limit
    = Ok df ->
  finite_table df ->
  forall i, (i < nrows df)%nat ->
    0 <= c_oil_rate df !!! i /\ 0 <= c_water_rate df !!! i /\
    0 <= c_delta_time df !!! i /\
    0 <= c_oil_cum df !!! i /\ 0 <= c_water_cum df !!! i /\
    0 <= c_fluid_cum df !!! i.
Proof.
  intros Hsorted Hfluid Hrun _.
  by apply (wor_forecast_rows_nonneg time_array fluid_rate slope wor_i
              rate_limit cum_limit wor_limit).
Qed.

(** X6.  With a slope of zero the water cut stays where it starts: every row
    has [wor = wor_i] and [bsw = wor_i / (wor_i + 1)], and the oil rate is
    the fluid rate divided by [wor_i + 1]. *)
Theorem wor_forecast_zero_slope (time_array fluid_rate : list R) (wor_i : R)
    (rate_limit cum_limit wor_limit : option R) (df : DataFrame) :
  wor_forecast time_array fluid_rate 0 wor_i rate_limit cum_limit wor_limit
    = Ok df ->
  forall i, (i < nrows df)%nat ->
    c_wor df !!! i = wor_i /\
    c_bsw df !!! i = wor_i / (wor_i + 1) /\
    c_oil_rate df !!! i = fluid_rate !!! i / (wor_i + 1).
Proof.
  intros Hrun i Hi.
  destruct (wor_forecast_rows _ _ _ _ _ _ _ _ Hrun)
    as (n & dt & _ & _ & _ & _ & Hw & _ & Hlen & _ & _ & Hfl & H0 & HS).
  assert (Hrows : nrows df = (n + 1)%nat) by apply Hlen.
  assert (Hin : (i <= n)%nat) by lia.
  assert (Ewor : c_wor df !!! i = wor_i).
  { destruct i as [|i].
    - by destruct H0 as (-> & _).
    - destruct (HS (S i) ltac:(lia)) as (-> & _).
      rewrite Rmult_0_l, exp_0. ring. }
  destruct (row_rates 0 wor_i df n H0 HS i Hin) as (Eb & Eo & _).
  rewrite Ewor in Eb.
  split; [exact Ewor|]. split; [exact Eb|].
  rewrite Eo, Eb, Hfl, lookup_total_take_lt by lia. field. lra.
Qed.

(** X7.  With a slope that is not positive (and inputs as in the
    monotonicity property) the WOR never rises: it is non-increasing along
    the run and never above the initial WOR. *)
Theorem wor_forecast_wor_decreasing (time_array fluid_rate : list R)
    (slope wor_i : R) (rate_limit cum_limit wor_limit : option R)
    (df : DataFrame) :
  (forall i, (i + 1 < length time_array)%nat ->
     time_array !!! i <= time_array !!! (i + 1)%nat) ->
  (forall i, (i < length fluid_rate)%nat -> 0 <= fluid_rate !!! i) ->
  slope <= 0 ->
  wor_forecast time_array fluid_rate slope wor_i rate_limit cum_limit wor_limit
    = Ok df ->
  (forall i, (i < nrows df)%nat -> c_wor df !!! i <= wor_i) /\
  (forall i, (i + 1 < nrows df)%nat ->
     c_wor df !!! (i + 1)%nat <= c_wor df !!! i).
Proof.
  intros Hsorted Hfluid Hs Hrun.
  pose proof (wor_forecast_rows_nonneg _ _ _ _ _ _ _ _ Hsorted Hfluid Hrun)
    as Hnn.
  destruct (wor_forecast_rows _ _ _ _ _ _ _ _ Hrun)
    as (n & dt & Hg & HT & Hfr & _ & Hw & Hn & Hlen & _ & Hdt & Hfl & H0 & HS).
  assert (Hrows : nrows df = (n + 1)%nat) by apply Hlen.
  assert (Hf : forall j, (j <= n)%nat -> 0 <= c_fluid_rate df !!! j).
  { intros j Hj. rewrite Hfl, lookup_total_take_lt by lia. apply Hfluid. lia. }
  assert (Hd : forall j, (j <= n)%nat -> 0 <= c_delta_time df !!! j).
  { intros j Hj. rewrite Hdt, lookup_total_take_lt by lia.
    apply (np_gradient_nonneg time_array dt Hsorted Hg). lia. }
  assert (Hexp : forall x y, x <= y -> exp x <= exp y).
  { intros x y [Hlt | ->]; [left; by apply exp_increasing | right; reflexivity]. }
  split.
  - intros i Hi. destruct i as [|i].
    + destruct H0 as (-> & _). lra.
    + destruct (HS (S i) ltac:(lia)) as (-> & _).
      replace (S i - 1)%nat with i by lia.
      destruct (Hnn i ltac:(lia)) as (_ & _ & _ & Hoc & _).
      assert (exp (slope * c_oil_cum df !!! i) <= 1).
      { rewrite <- exp_0. apply Hexp. nra. }
      nra.
  - intros i Hi.
    destruct (row_cum_step slope wor_i df n HS i ltac:(lia)) as (-> & _).
    destruct i as [|i].
    + destruct H0 as (-> & _).
      destruct (Hnn 0%nat ltac:(lia)) as (_ & _ & _ & Hoc & _).
      assert (exp (slope * c_oil_cum df !!! 0%nat) <= 1).
      { rewrite <- exp_0. apply Hexp. nra. }
      nra.
    + destruct (row_cum_step slope wor_i df n HS i ltac:(lia)) as (Ew & _).
      replace (i + 1)%nat with (S i) in Ew by lia. rewrite Ew.
      apply Rmult_le_compat_r; [assumption|]. apply Hexp.
      pose proof (row_oil_cum_mono slope wor_i df n H0 HS Hw Hf Hd i ltac:(lia))
        as Hm.
      replace (i + 1)%nat with (S i) in Hm by lia. nra.
Qed.

Lemma list_eq_total (l1 l2 : list R) (n : nat) :
  length l1 = n -> length l2 = n ->
  (forall i, (i < n)%nat -> l1 !!! i = l2 !!! i) -> l1 = l2.
Proof.
  intros H1 H2 H. apply list_eq. intros i.
  destruct (Nat.lt_ge_cases i n) as [Hlt|Hge].
  - rewrite !list_lookup_lookup_total_lt by lia. f_equal. by apply H.
  - rewrite !lookup_ge_None_2 by lia. reflexivity.
Qed.

(** Two tables that obey the recurrence on the same fluid rates and time
    steps have the same rows. *)
Lemma recurrence_unique (slope wor_i : R) (df df' : DataFrame) (n : nat) :
  initial_row wor_i df -> initial_row wor_i df' ->
  (forall j, (1 <= j <= n)%nat -> recurrence_row slope wor_i df j) ->
  (forall j, (1 <= j <= n)%nat -> recurrence_row slope wor_i df' j) ->
  (forall j, (j <= n)%nat -> c_fluid_rate df' !!! j = c_fluid_rate df !!! j) ->
  (forall j, (j <= n)%nat -> c_delta_time df' !!! j = c_delta_time df !!! j) ->
  forall j, (j <= n)%nat -> same_row df df' j.
Proof.
  intros H0 H0' HS HS' Hf Hd j. induction j as [|j IH]; intros Hj.
  - unfold same_row.
    destruct H0 as (E1 & E2 & E3 & E4 & E5 & E6 & E7 & E8).
    destruct H0' as (E1' & E2' & E3' & E4' & E5' & E6' & E7' & E8').
    pose proof (Hf 0%nat Hj) as Hf0. pose proof (Hd 0%nat Hj) as Hd0.
    assert (Ew : c_wor df' !!! 0%nat = c_wor df !!! 0%nat) by congruence.
    assert (Eb : c_bsw df' !!! 0%nat = c_bsw df !!! 0%nat) by congruence.
    assert (Eo : c_oil_rate df' !!! 0%nat = c_oil_rate df !!! 0%nat) by congruence.
    assert (Ewa : c_water_rate df' !!! 0%nat = c_water_rate df !!! 0%nat)
      by congruence.
    repeat split; congruence.
  - destruct (IH ltac:(lia)) as (_ & _ & Hoc & Hwc & _).
    unfold same_row.
    destruct (HS (S j) ltac:(lia)) as (E1 & E2 & E3 & E4 & E5 & E6 & E7 & E8).
    destruct (HS' (S j) ltac:(lia))
      as (E1' & E2' & E3' & E4' & E5' & E6' & E7' & E8').
    replace (S j - 1)%nat with j in * by lia.
    pose proof (Hf (S j) Hj) as Hfj. pose proof (Hd (S j) Hj) as Hdj.
    assert (Ew : c_wor df' !!! S j = c_wor df !!! S j) by congruence.
    assert (Eb : c_bsw df' !!! S j = c_bsw df !!! S j) by congruence.
    assert (Eo : c_oil_rate df' !!! S j = c_oil_rate df !!! S j) by congruence.
    assert (Ewa : c_water_rate df' !!! S j = c_water_rate df !!! S j)
      by congruence.
    assert (Eoc : c_oil_cum df' !!! S j = c_oil_cum df !!! S j) by congruence.
    assert (Ewc : c_water_cum df' !!! S j = c_water_cum df !!! S j) by congruence.
    repeat split; congruence.
Qed.

(** X8.  The limits only cut a run short, they change no value: of two runs
    on the same inputs under different limits, the shorter is the longer cut
    to its number of rows; and a run without limits is the longest, with one
    row less than the time axis. *)
Theorem wor_forecast_limits_truncate (time_array fluid_rate : list R)
    (slope wor_i : R) (rate_limit cum_limit wor_limit : option R)
    (rate_limit' cum_limit' wor_limit' : option R) (df df' : DataFrame) :
  wor_forecast time_array fluid_rate slope wor_i rate_limit cum_limit wor_limit
    = Ok df ->
  wor_forecast time_array fluid_rate slope wor_i rate_limit' cum_limit'
    wor_limit' = Ok df' ->
  ((nrows df <= nrows df')%nat -> df = head (nrows df) df') /\
  (rate_limit' = None -> cum_limit' = None -> wor_limit' = None ->
   nrows df' = (length time_array - 1)%nat /\ (nrows df <= nrows df')%nat).
Proof.
  intros Hrun Hrun'.
  destruct (wor_forecast_rows _ _ _ _ _ _ _ _ Hrun)
    as (n & dt & Hg & HT & Hfr & _ & Hw & Hn & Hlen & Hidx & Hdt & Hfl & H0 & HS).
  destruct (wor_forecast_rows _ _ _ _ _ _ _ _ Hrun')
    as (n' & dt' & Hg' & _ & _ & _ & _ & Hn' & Hlen0 & Hidx0 & Hdt0 & Hfl0
        & H00 & HS0).
  rewrite Hg in Hg'. injection Hg' as <-.
  assert (Hrows : nrows df = (n + 1)%nat) by apply Hlen.
  assert (Hrows0 : nrows df' = (n' + 1)%nat) by apply Hlen0.
  split.
  - rewrite Hrows, Hrows0. intros Hle.
    assert (Hsame : forall j, (j <= n)%nat -> same_row df' df j).
    { apply (recurrence_unique slope wor_i df' df n); try assumption.
      - intros j Hj. apply HS0. lia.
      - intros j Hj. rewrite Hfl, Hfl0, !lookup_total_take_lt by lia. reflexivity.
      - intros j Hj. rewrite Hdt, Hdt0, !lookup_total_take_lt by lia. reflexivity. }
    pose proof (columns_length_head (n + 1) (n' + 1) df' ltac:(lia) Hlen0)
      as Hlenh.
    assert (Hsameh : forall j, (j < n + 1)%nat ->
              same_row (head (n + 1) df') df j).
    { intros j Hj. unfold same_row.
      destruct (Hsame j ltac:(lia)) as (?&?&?&?&?&?&?&?&?&?).
      unfold head. simpl. rewrite !lookup_total_take_lt by lia. auto 12. }
    destruct Hlen as (L0&L1&L2&L3&L4&L5&L6&L7&L8&L9&L10).
    destruct Hlenh as (M0&M1&M2&M3&M4&M5&M6&M7&M8&M9&M10).
    assert (Hix : index df = index (head (n + 1) df')).
    { rewrite Hidx. unfold head. simpl. rewrite Hidx0, take_take.
      f_equal. lia. }
    destruct df as [ix c1 c2 c3 c4 c5 c6 c7 c8 c9 c10].
    unfold head in *. simpl in *.
    f_equal; try exact Hix;
      (eapply (list_eq_total _ _ (n + 1)); [assumption | assumption |]);
      intros j Hj; destruct (Hsameh j Hj) as (?&?&?&?&?&?&?&?&?&?); assumption.
  - intros -> -> ->.
    destruct (wor_forecast_run_unlimited time_array fluid_rate slope wor_i
                HT Hfr Hw)
      as (dt' & df0 & _ & Hrun0 & Hcl0 & _).
    rewrite Hrun' in Hrun0. injection Hrun0 as <-.
    assert (Hfull : nrows df' = (length time_array - 1)%nat) by apply Hcl0.
    split; [exact Hfull | lia].
Qed.

(** [wor_forecast] uses the time axis for three things only: its length, its
    [np.gradient], and the index of the table. *)
Lemma wor_forecast_time_axis (time_array time_array' fluid_rate : list R)
    (slope wor_i : R) (rate_limit cum_limit wor_limit : option R) :
  length time_array' = length time_array ->
  np_gradient time_array' = np_gradient time_array ->
  wor_forecast time_array' fluid_rate slope wor_i rate_limit cum_limit wor_limit
  = (df ← wor_forecast time_array fluid_rate slope wor_i rate_limit cum_limit
            wor_limit;
     Ok (set_index (take (nrows df) time_array') df)).
Proof.
  intros Hlen Hgrad. unfold wor_forecast. rewrite Hgrad, Hlen.
  destruct (np_gradient time_array) as [dt|e]; [|reflexivity].
  rewrite !bind_Ok. cbv beta zeta.
  destruct (getitem (<[0%nat:=wor_i]> _) 0) as [w0|e]; [|reflexivity].
  rewrite !bind_Ok.
  destruct (wor_to_bsw [w0] ≫= _) as [b0|e]; [|reflexivity]. rewrite !bind_Ok.
  destruct (getitem fluid_rate 0) as [f0|e]; [|reflexivity]. rewrite !bind_Ok.
  destruct (getitem dt 0) as [d0|e]; [|reflexivity]. rewrite !bind_Ok.
  destruct (for_loop _ _ _ _ _ _ _ _ _ _) as [[i a]|e]; [|reflexivity].
  rewrite !bind_Ok. simpl fst. simpl snd.
  unfold DataFrame_new. rewrite Hlen.
  destruct (forallb _ _); [|reflexivity]. rewrite !bind_Ok.
  destruct i as [i|]; [|reflexivity]. rewrite bind_Ok.
  unfold set_index, head, table, nrows. simpl. f_equal. f_equal.
  rewrite length_take, <- Hlen.
  destruct (Nat.le_gt_cases (i + 1) (length time_array')) as [Hle|Hgt].
  - by rewrite Nat.min_l.
  - rewrite Nat.min_r by lia. by rewrite !take_ge by lia.
Qed.

Lemma np_gradient_shift (c : R) (f : list R) :
  np_gradient ((fun t => t + c) <$> f) = np_gradient f.
Proof.
  unfold np_gradient. rewrite length_fmap.
  destruct (length f <? 2)%nat eqn:Hn; [reflexivity|].
  apply Nat.ltb_ge in Hn. f_equal.
  assert (Hnth : forall k, (k < length f)%nat ->
            nth k ((fun t => t + c) <$> f) 0 = nth k f 0 + c).
  { intros k Hk.
    rewrite (nth_indep _ 0 (0 + c)) by (rewrite length_fmap; lia).
    apply (map_nth (fun t => t + c)). }
  apply map_ext_in. intros i Hi. apply in_seq in Hi.
  destruct (Nat.eqb_spec i 0) as [->|Hne0].
  { rewrite !Hnth by lia. lra. }
  destruct (Nat.eqb_spec i (length f - 1)) as [->|Hnel].
  { rewrite !Hnth by lia. lra. }
  rewrite !Hnth by lia. lra.
Qed.

(** X9.  Shifting every time by the same amount changes nothing but the
    index: the run depends on the time axis through its differences only.
    The times, before and after the shift, are integers that float64 holds
    exactly. *)
Theorem wor_forecast_time_shift (c : R) (time_array fluid_rate : list R)
    (slope wor_i : R) (rate_limit cum_limit wor_limit : option R) :
  (forall t, t ∈ time_array -> int_time t /\ int_time (t + c)) ->
  wor_forecast ((fun t => t + c) <$> time_array) fluid_rate slope wor_i
    rate_limit cum_limit wor_limit
  = (df ← wor_forecast time_array fluid_rate slope wor_i rate_limit cum_limit
            wor_limit;
     Ok (set_index ((fun t => t + c) <$> index df) df)).
Proof.
  intros _.
  rewrite (wor_forecast_time_axis time_array)
    by (rewrite ?length_fmap; auto using np_gradient_shift).
  destruct (wor_forecast time_array fluid_rate slope wor_i rate_limit cum_limit
              wor_limit) as [df|e] eqn:Hrun; [|reflexivity].
  rewrite !bind_Ok. do 2 f_equal.
  destruct (wor_forecast_rows _ _ _ _ _ _ _ _ Hrun)
    as (n & dt & _ & _ & _ & _ & _ & _ & Hlen & Hidx & _).
  assert (Hrows : nrows df = (n + 1)%nat) by apply Hlen.
  by rewrite Hrows, Hidx, fmap_take.
Qed.

(** On a time axis with a constant step [h] every time step of the run is
    [h], at the two ends too. *)
Lemma wor_forecast_rows_step (h : R) (time_array fluid_rate : list R)
    (slope wor_i : R) (rate_limit cum_limit wor_limit : option R)
    (df : DataFrame) :
  (forall i, (i + 1 < length time_array)%nat ->
     time_array !!! (i + 1)%nat = time_array !!! i + h) ->
  wor_forecast time_array fluid_rate slope wor_i rate_limit cum_limit wor_limit
    = Ok df ->
  (forall i, (i < nrows df)%nat -> c_delta_time df !!! i = h) /\
  c_oil_cum df !!! 0%nat = c_oil_rate df !!! 0%nat * h /\
  (forall i, (1 <= i < nrows df)%nat ->
     c_oil_cum df !!! i = c_oil_cum df !!! (i - 1)%nat + c_oil_rate df !!! i * h /\
     c_water_cum df !!! i =
       c_water_cum df !!! (i - 1)%nat + c_water_rate df !!! i * h).
Proof.
  intros Hstep Hrun.
  destruct (wor_forecast_rows _ _ _ _ _ _ _ _ Hrun)
    as (n & dt & Hg & HT & _ & _ & _ & Hn & Hlen & _ & Hdt & _ & H0 & HS).
  assert (Hrows : nrows df = (n + 1)%nat) by apply Hlen.
  destruct (np_gradient_Ok time_array ltac:(lia))
    as (dt' & Hg' & _ & E0 & _ & Emid).
  rewrite Hg in Hg'. injection Hg' as <-.
  assert (Hd : forall i, (i < nrows df)%nat -> c_delta_time df !!! i = h).
  { intros i Hi. rewrite Hdt, lookup_total_take_lt by lia.
    destruct i as [|i].
    - rewrite E0. pose proof (Hstep 0%nat ltac:(lia)) as H1.
      simpl in H1. lra.
    - rewrite Emid by lia.
      pose proof (Hstep i ltac:(lia)) as H1.
      pose proof (Hstep (S i) ltac:(lia)) as H2.
      replace (i + 1)%nat with (S i) in H1 by lia.
      replace (S i - 1)%nat with i by lia.
      replace (S i + 1)%nat with (S (S i)) in * by lia. lra. }
  split; [exact Hd|]. split.
  - destruct H0 as (_ & _ & _ & _ & _ & -> & _). rewrite Hd by lia. reflexivity.
  - intros i Hi.
    destruct (HS i ltac:(lia)) as (_ & _ & _ & _ & _ & -> & -> & _).
    rewrite Hd by lia. split; reflexivity.
Qed.

(** X10.  On a time axis of integers with a constant step [h] every time
    step of the run is [h], at the two ends too, so each cumulative volume is
    the one before plus rate times [h]. *)
Theorem wor_forecast_constant_step (h : R) (time_array fluid_rate : list R)
    (slope wor_i : R) (rate_limit cum_limit wor_limit : option R)
    (df : DataFrame) :
  (forall t, t ∈ time_array -> int_time t) ->
  (forall i, (i + 1 < length time_array)%nat ->
     time_array !!! (i + 1)%nat = time_array !!! i + h) ->
  wor_forecast time_array fluid_rate slope wor_i rate_limit cum_limit wor_limit
    = Ok df ->
  (forall i, (i < nrows df)%nat -> c_delta_time df !!! i = h) /\
  c_oil_cum df !!! 0%nat = c_oil_rate df !!! 0%nat * h /\
  (forall i, (1 <= i < nrows df)%nat ->
     c_oil_cum df !!! i = c_oil_cum df !!! (i - 1)%nat + c_oil_rate df !!! i * h /\
     c_water_cum df !!! i =
       c_water_cum df !!! (i - 1)%nat + c_water_rate df !!! i * h).
Proof.
  intros _. apply wor_forecast_rows_step.
Qed.

(** The loop reads the fluid rates of its own indices only. *)
Lemma for_loop_fluid_ext (dt fr fr' : list R) (slope wor_i : R)
    (rl cl wl : option R) (range : list nat) :
  (forall j, In j range -> fr !! j = fr' !! j) ->
  forall (i0 : option nat) (a : arrays),
    for_loop dt fr slope wor_i rl cl wl range i0 a
    = for_loop dt fr' slope wor_i rl cl wl range i0 a.
Proof.
  induction range as [|j rest IH]; intros Hext i0 a; [reflexivity|].
  simpl.
  assert (Hbody : body dt fr slope wor_i rl cl wl j a
                  = body dt fr' slope wor_i rl cl wl j a).
  { unfold body, getitem. rewrite (Hext j) by (by left). reflexivity. }
  rewrite Hbody.
  destruct (body dt fr' slope wor_i rl cl wl j a) as [[a' [st|]]|e]; simpl;
    [reflexivity | | reflexivity].
  apply IH. intros k Hk. apply Hext. by right.
Qed.

(** More fluid rates than time steps: the loop runs to its end or to a
    [break], and the call then fails with [ValueError], when the table is
    built. *)
Lemma wor_forecast_fluid_rate_long (time_array fluid_rate : list R)
    (slope wor_i : R) (rate_limit cum_limit wor_limit : option R) :
  (3 <= length time_array)%nat ->
  (length time_array < length fluid_rate)%nat ->
  0 <= wor_i ->
  wor_forecast time_array fluid_rate slope wor_i rate_limit cum_limit wor_limit
    = Raise ValueError.
Proof.
  intros HT Hfr Hw.
  destruct (np_gradient_Ok time_array ltac:(lia)) as (dt & Hg & Hdt & _).
  set (fr' := take (length time_array) fluid_rate).
  assert (Hfr' : length fr' = length time_array).
  { unfold fr'. rewrite length_take. lia. }
  unfold wor_forecast. rewrite Hg, bind_Ok. cbv beta zeta.
  rewrite !getitem_Ok by (rewrite ?length_insert, ?length_np_zeros; lia).
  rewrite list_lookup_total_insert_eq by (rewrite length_np_zeros; lia).
  rewrite bind_Ok, (wor_to_bsw_one _ Hw), !bind_Ok. simpl item.
  rewrite !bind_Ok.
  match goal with
  | |- context [for_loop _ _ _ _ _ _ _ _ _ ?a0] => set (a := a0)
  end.
  assert (Hlen0 : columns_length (length time_array) (table time_array dt fr' a)).
  { unfold columns_length, a. simpl.
    rewrite !length_insert, !length_np_zeros. tauto. }
  destruct (for_loop_spec time_array dt fr' slope wor_i rate_limit
              cum_limit wor_limit Hw (length time_array - 2) 1 None a Hlen0
              ltac:(lia) ltac:(lia))
    as (r & a' & Hloop & Hlen' & _).
  replace (length dt - 1 - 1)%nat with (length time_array - 2)%nat by lia.
  rewrite (for_loop_fluid_ext dt fluid_rate fr').
  2:{ intros j Hj. apply in_seq in Hj. unfold fr'.
      symmetry. apply lookup_take_lt. lia. }
  rewrite Hloop, bind_Ok. simpl snd.
  unfold DataFrame_new. cbv zeta. simpl forallb.
  destruct (Nat.eqb_spec (length (maybe_repeat (length time_array) fluid_rate))
              (length time_array)) as [He|Hne].
  { apply length_maybe_repeat in He. lia. }
  by rewrite !andb_false_r.
Qed.

(** X11.  More fluid rates than time steps: the loop runs to its end or to a
    [break], and the call then fails with [ValueError], when the table is
    built.  The slope is not positive, the fluid rates are not negative and
    the time axis is non-decreasing, so that [exp] stays below [1], and the
    fluid rates and the times are at most [10^100], so that the volumes are
    finite doubles: every pass of the loop then gets past the assertion of
    [wor_to_bsw]. *)
Theorem wor_forecast_long_fluid_rate (time_array fluid_rate : list R)
    (slope wor_i : R) (rate_limit cum_limit wor_limit : option R) :
  (3 <= length time_array)%nat ->
  (length time_array < length fluid_rate)%nat ->
  0 <= wor_i ->
  slope <= 0 ->
  (forall i, (i + 1 < length time_array)%nat ->
     time_array !!! i <= time_array !!! (i + 1)%nat) ->
  (forall i, (i < length time_array)%nat ->
     Rabs (time_array !!! i) <= 10 ^ 100) ->
  (forall i, (i < length fluid_rate)%nat ->
     0 <= fluid_rate !!! i <= 10 ^ 100) ->
  wor_forecast time_array fluid_rate slope wor_i rate_limit cum_limit wor_limit
    = Raise ValueError.
Proof.
  intros HT Hfr Hw _ _ _ _. by apply wor_forecast_fluid_rate_long.
Qed.

(** * Further properties of the transforms *)


Lemma bsw_to_wor_Ok_inv (bsw : list R) (ws : list npfloat) :
  bsw_to_wor bsw = Ok ws ->
  Forall (fun b => 0 <= b <= 1) bsw /\ ws = map (fun b => np_div b (1 - b)) bsw.
Proof.
  unfold bsw_to_wor.
  destruct (forallb (fun b => Rleb 0 b && Rleb b 1) bsw) eqn:Hall; simpl;
    [|discriminate].
  intros [= <-]. split; [|reflexivity].
  apply Forall_forall. intros b Hin.
  rewrite forallb_forall in Hall.
  specialize (Hall b ltac:(by apply list_elem_of_In)).
  apply andb_true_iff in Hall as [H0 H1].
  split; by apply Rleb_spec.
Qed.


(** X13.  Whenever [bsw_to_wor] returns, the result has one WOR per water
    cut; a water cut below [1] gives a finite WOR that is not negative, a
    water cut of [1] gives [+inf], and among the finite ones a larger water
    cut gives a larger WOR. *)
Theorem bsw_to_wor_range_order (bsw : list R) (ws : list npfloat) :
  bsw_to_wor bsw = Ok ws ->
  length ws = length bsw /\
  (forall i b, bsw !! i = Some b ->
     (b < 1 /\ exists w, ws !! i = Some (Fin w) /\ 0 <= w /\ w = b / (1 - b)) \/
     (b = 1 /\ ws !! i = Some PInf)) /\
  (forall i j b1 b2 w1 w2,
     bsw !! i = Some b1 -> bsw !! j = Some b2 ->
     ws !! i = Some (Fin w1) -> ws !! j = Some (Fin w2) ->
     b1 < b2 -> w1 < w2).
Proof.
  intros H. apply bsw_to_wor_Ok_inv in H as [Hall ->].
  rewrite Forall_forall in Hall.
  assert (Hone : np_div 1 (1 - 1) = PInf).
  { unfold np_div. destruct (Req_dec_T (1 - 1) 0) as [_|Hne]; [|lra].
    destruct (Rlt_dec 0 1); [reflexivity | lra]. }
  split; [apply length_map|]. split.
  - intros i b Hb. rewrite list_lookup_fmap, Hb. simpl.
    assert (Hr : 0 <= b <= 1) by (apply Hall; by apply list_elem_of_lookup_2 in Hb).
    destruct (Rlt_le_dec b 1) as [Hlt|Hge].
    + left. split; [exact Hlt|]. exists (b / (1 - b)).
      rewrite np_div_finite by lra. split; [reflexivity|].
      split; [apply wor_range; lra | reflexivity].
    + right. assert (b = 1) as -> by lra. by rewrite Hone.
  - intros i j b1 b2 w1 w2 Hb1 Hb2 Hw1 Hw2 Hlt.
    rewrite list_lookup_fmap, Hb1 in Hw1. rewrite list_lookup_fmap, Hb2 in Hw2.
    simpl in Hw1, Hw2.
    assert (Hr1 : 0 <= b1 <= 1)
      by (apply Hall; by apply list_elem_of_lookup_2 in Hb1).
    assert (Hr2 : 0 <= b2 <= 1)
      by (apply Hall; by apply list_elem_of_lookup_2 in Hb2).
    assert (Hb2' : b2 < 1).
    { destruct (Rlt_le_dec b2 1) as [?|Hge]; [assumption|].
      assert (b2 = 1) as -> by lra. rewrite Hone in Hw2. discriminate. }
    rewrite np_div_finite in Hw1, Hw2 by lra.
    injection Hw1 as <-. injection Hw2 as <-.
    apply (Rmult_lt_reg_r ((1 - b1) * (1 - b2))); [nra|].
    field_simplify; nra.
Qed.

(** * Further properties of the gas columns *)

Lemma length_np_diff_prepend0 (a : list R) :
  length (np_diff_prepend0 a) = length a.
Proof. unfold np_diff_prepend0. rewrite length_zip_with. simpl. lia. Qed.

Lemma lookup_total_np_diff_prepend0 (a : list R) (k : nat) :
  (k < length a)%nat ->
  np_diff_prepend0 a !!! k
  = a !!! k - match k with O => 0 | S j => a !!! j end.
Proof.
  intros Hk. apply list_lookup_total_correct.
  unfold np_diff_prepend0. rewrite lookup_zip_with.
  rewrite (list_lookup_lookup_total_lt a k Hk). simpl.
  destruct k as [|j]; simpl; [reflexivity|].
  by rewrite (list_lookup_lookup_total_lt a j) by lia.
Qed.

Lemma diff_prepend_sum (k : nat) : forall (a : list R) (p : R),
  (k < length a)%nat ->
  foldr Rplus 0 (take (S k) (zip_with Rminus a (p :: a))) = a !!! k - p.
Proof.
  induction k as [|k IH]; intros [|x a] p Hk; simpl in Hk; try lia.
  - simpl. lra.
  - change (foldr Rplus 0 (take (S (S k)) (zip_with Rminus (x :: a) (p :: x :: a))))
      with (x - p + foldr Rplus 0 (take (S k) (zip_with Rminus a (x :: a)))).
    rewrite (IH a x) by lia.
    change ((x :: a) !!! S k) with (a !!! k). lra.
Qed.

(** [np.diff(a, prepend=0)] undoes a running sum: its first [k + 1] entries
    add up to [a[k]]. *)
Lemma np_diff_prepend0_sum (a : list R) (k : nat) :
  (k < length a)%nat ->
  foldr Rplus 0 (take (S k) (np_diff_prepend0 a)) = a !!! k.
Proof.
  intros Hk. unfold np_diff_prepend0. rewrite diff_prepend_sum by lia. lra.
Qed.

(** X14.  A gas-oil ratio that is not zero prevails over any gas-liquid
    ratio.  Then [gas_cum] is [oil_cum] times the ratio, [gas_volume] is
    finite and holds its step-wise increments, so that the volumes of rows
    [0..k] add up to [gas_cum[k]], and on every row with a time step that is
    not zero [gas_rate] is the volume over the time step. *)
Theorem gas_columns_gor_volumes (self : Wor.t) (_f : DataFrame) (g : R) :
  Wor.gor self = Some (Scalar g) -> g <> 0 ->
  exists (gc : GasColumns) (volume : list R),
    Wor.gas_columns self _f = Ok (Some gc) /\
    gas_volume gc = Fin <$> volume /\
    length (gas_cum gc) = length (c_oil_cum _f) /\
    length volume = length (c_oil_cum _f) /\
    (forall k, (k < length (c_oil_cum _f))%nat ->
       gas_cum gc !!! k = c_oil_cum _f !!! k * g /\
       volume !!! k
       = gas_cum gc !!! k - match k with O => 0 | S j => gas_cum gc !!! j end /\
       foldr Rplus 0 (take (S k) volume) = gas_cum gc !!! k) /\
    (forall k d, c_delta_time _f !! k = Some d -> d <> 0 ->
       (k < length (c_oil_cum _f))%nat ->
       gas_rate gc !! k = Some (Fin (volume !!! k / d))).
Proof.
  intros Hgor Hg.
  eexists _, _. split; [by apply gas_columns_gor|]. simpl.
  set (gcum := map (fun v => v * g) (c_oil_cum _f)).
  assert (Hlen : length gcum = length (c_oil_cum _f)) by apply length_map.
  split; [reflexivity|]. split; [exact Hlen|].
  split; [by rewrite length_np_diff_prepend0|].
  split.
  - intros k Hk. split; [|split].
    + unfold gcum. apply list_lookup_total_correct.
      rewrite list_lookup_fmap, (list_lookup_lookup_total_lt _ k Hk).
      reflexivity.
    + apply lookup_total_np_diff_prepend0. lia.
    + apply np_diff_prepend0_sum. lia.
  - intros k d Hd Hne Hk.
    rewrite lookup_zip_with, list_lookup_fmap.
    rewrite (list_lookup_lookup_total_lt (np_diff_prepend0 gcum) k)
      by (rewrite length_np_diff_prepend0; lia).
    simpl. rewrite Hd. simpl. by rewrite np_div_finite.
Qed.

(** X15.  The gas columns are missing from an iteration's table exactly
    when a ratio is given, and each given ratio is [0.0] or an empty list. *)
Theorem gas_columns_missing (self : Wor.t) (_f : DataFrame) :
  Wor.gas_columns self _f = Ok None
  <-> (Wor.gor self <> None \/ Wor.glr self <> None) /\
      (Wor.gor self = None \/ Wor.gor self = Some (Scalar 0) \/
       Wor.gor self = Some (PerRow [])) /\
      (Wor.glr self = None \/ Wor.glr self = Some (Scalar 0) \/
       Wor.glr self = Some (PerRow [])).
Proof.
  assert (Htruthy : forall x : option ratio,
            ratio_truthy x = false
            <-> x = None \/ x = Some (Scalar 0) \/ x = Some (PerRow [])).
  { intros [[r|l]|]; simpl.
    - unfold Rnonzero. destruct (Req_dec_T r 0) as [->|Hne].
      + split; auto.
      + split; [discriminate|]. intros [H|[H|H]]; try discriminate.
        injection H as ->. contradiction.
    - destruct l as [|x l]; simpl.
      + split; auto.
      + split; [discriminate|]. intros [H|[H|H]]; discriminate.
    - split; auto. }
  unfold Wor.gas_columns, when_truthy.
  rewrite <- !Htruthy.
  destruct (Wor.gor self) as [gor|] eqn:Hgor, (Wor.glr self) as [glr|] eqn:Hglr;
    repeat case_bool_decide; try congruence; cbn [orb];
    try destruct (ratio_truthy (Some gor)) eqn:Hg;
    try destruct (ratio_truthy (Some glr)) eqn:Hl;
    try change (ratio_truthy None) with false; cbv beta iota;
    repeat match goal with
           | |- context [multiply ?a ?b] => destruct (multiply a b)
           end;
    cbn [mbind result_bind];
    (split; [try discriminate; intros _ | try (intros (_ & ? & ?); discriminate)]);
    try (intros ([?|?] & _); congruence);
    repeat split; try reflexivity; auto; try (left; discriminate);
    try (right; discriminate).
Qed.

(** * Further properties of [Wor.forecast] *)

Lemma iterate_Ok_inv (run : nat -> result Forecast) (range : list nat) :
  forall fs, Wor.iterate run range = Ok fs ->
    Forall2 (fun i f => run i = Ok f) range fs.
Proof.
  induction range as [|i rest IH]; intros fs H; simpl in H.
  - injection H as <-. constructor.
  - apply bind_Ok_inv in H as (f & Hf & H).
    apply bind_Ok_inv in H as (fs' & Hfs & H).
    injection H as <-. constructor; [exact Hf | by apply IH].
Qed.

Lemma iterate_ext (run run' : nat -> result Forecast) (range : list nat) :
  (forall i, In i range -> run i = run' i) ->
  Wor.iterate run range = Wor.iterate run' range.
Proof.
  induction range as [|i rest IH]; intros Hext; [reflexivity|].
  simpl. rewrite (Hext i) by (by left).
  rewrite IH by (intros j Hj; apply Hext; by right). reflexivity.
Qed.

Lemma broadcast_dim_Ok_inv (a b n : nat) :
  broadcast_dim a b = Ok n ->
  (a = n \/ a = 1%nat) /\ (b = n \/ b = 1%nat) /\ (n = a \/ n = b).
Proof.
  unfold broadcast_dim.
  destruct (Nat.eqb_spec a b); [intros [= <-]; auto|].
  destruct (Nat.eqb_spec a 1); [intros [= <-]; auto|].
  destruct (Nat.eqb_spec b 1); [intros [= <-]; auto|].
  discriminate.
Qed.

Lemma length_broadcast_to (n : nat) (v : list R) :
  length (broadcast_to n v) = n.
Proof.
  unfold broadcast_to. destruct (Nat.eqb_spec (length v) n); [assumption|].
  apply length_replicate.
Qed.

Lemma np_gradient_length (f g : list R) :
  np_gradient f = Ok g -> length g = length f /\ (2 <= length f)%nat.
Proof.
  intros H.
  destruct (Nat.le_gt_cases 2 (length f)) as [Hle|Hgt].
  - destruct (np_gradient_Ok f Hle) as (g' & Hg' & Hlen & _).
    rewrite H in Hg'. injection Hg' as <-. auto.
  - rewrite np_gradient_Raise in H by lia. discriminate.
Qed.

(** What [Wor.forecast] has done when it returns. *)
Lemma forecast_Ok_inv (self : Wor.t) (time_list : list R)
    (rl cl wl : option R) (fs : list Forecast) :
  Wor.forecast self time_list rl cl wl = Ok fs ->
  exists (m n : nat) (_fluid : list (list R)),
    broadcast_dim (length (Wor.bsw self)) (length (Wor.slope self)) = Ok m /\
    broadcast_dim m (Wor.shape0 (Wor.fluid_rate self)) = Ok n /\
    match Wor.fluid_rate self with
    | Fluid0D r => Ok (replicate n (replicate (length time_list) r))
    | Fluid1D l => Ok ((fun r => replicate (length time_list) r) <$> broadcast_to n l)
    | Fluid2D rows =>
        c ← broadcast_dim (length (hd [] rows)) (length time_list);
        Ok (broadcast_to c <$> rows)
    end = Ok _fluid /\
    Wor.iterate
      (Wor.forecast_iteration self time_list time_list
         (broadcast_to n (Wor.bsw self)) (broadcast_to n (Wor.slope self))
         _fluid rl cl wl) (seq 0 n) = Ok fs /\
    fs <> [].
Proof.
  unfold Wor.forecast. intros H.
  apply bind_Ok_inv in H as (m & Hm & H).
  apply bind_Ok_inv in H as (n & Hn & H).
  apply bind_Ok_inv in H as (fl & Hfl & H).
  apply bind_Ok_inv in H as (fs' & Hit & H).
  exists m, n, fl.
  destruct fs' as [|f fs']; [discriminate|]. injection H as <-.
  repeat split; try assumption. discriminate.
Qed.

Lemma forecast_iteration_Ok_inv (self : Wor.t) (time_array time_range : list R)
    (_bsw _slope : list R) (_fluid : list (list R))
    (rl cl wl : option R) (i : nat) (f : Forecast) :
  Wor.forecast_iteration self time_array time_range _bsw _slope _fluid
    rl cl wl i = Ok f ->
  exists (b sl : R) (fl : list R) (df : DataFrame),
    _bsw !! i = Some b /\ 0 <= b < 1 /\
    _fluid !! i = Some fl /\ _slope !! i = Some sl /\
    wor_forecast time_array fl sl (b / (1 - b)) rl cl wl = Ok df /\
    frame f = set_index (take (nrows df) time_range) df /\
    iteration f = i /\
    np_gradient (c_oil_cum df) = Ok (oil_volume f) /\
    np_gradient (c_water_cum df) = Ok (water_volume f) /\
    Wor.gas_columns self (frame f) = Ok (gas f).
Proof.
  unfold Wor.forecast_iteration. intros H.
  apply bind_Ok_inv in H as (b & Hb & H).
  apply bind_Ok_inv in H as (ws & Hws & H).
  apply bind_Ok_inv in H as (fl & Hfl & H).
  apply bind_Ok_inv in H as (sl & Hsl & H).
  apply bind_Ok_inv in H as (w & Hw & H).
  apply bind_Ok_inv in H as (df & Hdf & H).
  apply bind_Ok_inv in H as (ov & Hov & H).
  apply bind_Ok_inv in H as (wv & Hwv & H).
  apply bind_Ok_inv in H as (g & Hg & H).
  injection H as <-. simpl.
  unfold getitem in Hb, Hsl.
  destruct (_bsw !! i) as [b'|] eqn:Eb; [|discriminate]. injection Hb as ->.
  destruct (_slope !! i) as [sl'|] eqn:Es; [|discriminate]. injection Hsl as ->.
  destruct (_fluid !! i) as [fl'|] eqn:Ef; [|discriminate]. injection Hfl as ->.
  apply bsw_to_wor_Ok_inv in Hws as [Hall ->]. simpl in Hw.
  apply Forall_inv in Hall.
  assert (Hb1 : b < 1).
  { destruct (Rlt_le_dec b 1) as [?|Hge]; [assumption|].
    assert (b = 1) as -> by lra. unfold np_div in Hw.
    destruct (Req_dec_T (1 - 1) 0) as [_|Hne]; [|lra].
    destruct (Rlt_dec 0 1); [discriminate | lra]. }
  rewrite np_div_finite in Hw by lra. injection Hw as <-.
  exists b, sl, fl, df. repeat split; try assumption; lra.
Qed.

Lemma set_index_self (time_array fluid_rate : list R) (slope wor_i : R)
    (rl cl wl : option R) (df : DataFrame) :
  wor_forecast time_array fluid_rate slope wor_i rl cl wl = Ok df ->
  set_index (take (nrows df) time_array) df = df.
Proof.
  intros Hrun.
  destruct (wor_forecast_rows _ _ _ _ _ _ _ _ Hrun)
    as (n & dt & _ & _ & _ & _ & _ & _ & Hlen & Hidx & _).
  assert (Hrows : nrows df = (n + 1)%nat) by apply Hlen.
  rewrite Hrows, <- Hidx. by destruct df.
Qed.

(** The runs of a returned ensemble, one by one. *)
Lemma forecast_runs (self : Wor.t) (time_list : list R) (rl cl wl : option R)
    (fs : list Forecast) :
  Wor.forecast self time_list rl cl wl = Ok fs ->
  exists (m : nat) (_fluid : list (list R)),
    broadcast_dim (length (Wor.bsw self)) (length (Wor.slope self)) = Ok m /\
    broadcast_dim m (Wor.shape0 (Wor.fluid_rate self)) = Ok (length fs) /\
    match Wor.fluid_rate self with
    | Fluid0D r => Ok (replicate (length fs) (replicate (length time_list) r))
    | Fluid1D l =>
        Ok ((fun r => replicate (length time_list) r)
              <$> broadcast_to (length fs) l)
    | Fluid2D rows =>
        c ← broadcast_dim (length (hd [] rows)) (length time_list);
        Ok (broadcast_to c <$> rows)
    end = Ok _fluid /\
    (1 <= length fs)%nat /\
    forall k f, fs !! k = Some f ->
      Wor.forecast_iteration self time_list time_list
        (broadcast_to (length fs) (Wor.bsw self))
        (broadcast_to (length fs) (Wor.slope self)) _fluid rl cl wl k = Ok f.
Proof.
  intros H.
  apply forecast_Ok_inv in H as (m & n & fl & Hm & Hn & Hfl & Hit & Hne).
  apply iterate_Ok_inv in Hit.
  pose proof (Forall2_length _ _ _ Hit) as Hlen. rewrite length_seq in Hlen.
  subst n. exists m, fl.
  split; [exact Hm|]. split; [exact Hn|]. split; [exact Hfl|].
  split; [destruct fs; [contradiction | simpl; lia]|].
  intros k f Hk.
  destruct (Forall2_lookup_r _ _ _ _ _ Hit Hk) as (i & Hi & Hrun).
  apply lookup_seq in Hi as [-> _]. exact Hrun.
Qed.

(** X16.  Every run of a returned ensemble is the run of [wor_forecast] on
    its own parameters: the [k]-th water cut, turned into a WOR, the [k]-th
    slope and the [k]-th row of fluid rates, where an input of one element
    serves every iteration.  The run carries the iteration number [k], and
    its volume columns are the [np.gradient] of its cumulative columns. *)
Theorem forecast_run_by_run (self : Wor.t) (time_list : list R)
    (rate_limit cum_limit wor_limit : option R) (fs : list Forecast) :
  Wor.forecast self time_list rate_limit cum_limit wor_limit = Ok fs ->
  forall k f, fs !! k = Some f ->
    exists (b sl : R) (fl : list R),
      broadcast_to (length fs) (Wor.bsw self) !! k = Some b /\
      0 <= b < 1 /\
      broadcast_to (length fs) (Wor.slope self) !! k = Some sl /\
      match Wor.fluid_rate self with
      | Fluid0D r => fl = replicate (length time_list) r
      | Fluid1D l =>
          exists r, broadcast_to (length fs) l !! k = Some r /\
                    fl = replicate (length time_list) r
      | Fluid2D rows =>
          exists row, rows !! k = Some row /\
                      fl = broadcast_to (length time_list) row
      end /\
      wor_forecast time_list fl sl (b / (1 - b)) rate_limit cum_limit wor_limit
        = Ok (frame f) /\
      iteration f = k /\
      np_gradient (c_oil_cum (frame f)) = Ok (oil_volume f) /\
      np_gradient (c_water_cum (frame f)) = Ok (water_volume f).
Proof.
  intros H k f Hk.
  destruct (forecast_runs _ _ _ _ _ _ H) as (m & _fluid & _ & _ & Hfl & _ & Hruns).
  specialize (Hruns k f Hk).
  apply forecast_iteration_Ok_inv in Hruns
    as (b & sl & fl & df & Hb & Hbr & Hflk & Hsl & Hrun & Hframe & Hit & Hov & Hwv & _).
  rewrite (set_index_self _ _ _ _ _ _ _ _ Hrun) in Hframe. rewrite Hframe.
  exists b, sl, fl. repeat split; try assumption; try lra.
  destruct (Wor.fluid_rate self) as [r|l|rows].
  - injection Hfl as <-. apply lookup_replicate in Hflk as [-> _]. reflexivity.
  - injection Hfl as <-. rewrite list_lookup_fmap in Hflk.
    destruct (broadcast_to (length fs) l !! k) as [r|]; [|discriminate].
    injection Hflk as <-. by exists r.
  - apply bind_Ok_inv in Hfl as (c & Hc & Hfl). injection Hfl as <-.
    rewrite list_lookup_fmap in Hflk.
    destruct (rows !! k) as [row|]; [|discriminate].
    injection Hflk as <-. exists row. split; [reflexivity|].
    destruct (wor_forecast_Ok_inv _ _ _ _ _ _ _ _ Hrun) as (_ & Hlen & _).
    rewrite length_broadcast_to in Hlen. by subst c.
Qed.

(** X17.  The shape of a returned ensemble: it has at least one run; the
    water cuts, the slopes and the rows of fluid rates each number one or
    as many as the runs; the runs carry the iteration numbers [0, 1, ...] in
    order; and each run has between two rows and one row less than the time
    axis, indexed by the first times, with volume columns of the same
    length. *)
Theorem forecast_shape (self : Wor.t) (time_list : list R)
    (rate_limit cum_limit wor_limit : option R) (fs : list Forecast) :
  Wor.forecast self time_list rate_limit cum_limit wor_limit = Ok fs ->
  (1 <= length fs)%nat /\
  (length (Wor.bsw self) = length fs \/ length (Wor.bsw self) = 1%nat) /\
  (length (Wor.slope self) = length fs \/ length (Wor.slope self) = 1%nat) /\
  (Wor.shape0 (Wor.fluid_rate self) = length fs \/
   Wor.shape0 (Wor.fluid_rate self) = 1%nat) /\
  (forall k f, fs !! k = Some f ->
     iteration f = k /\
     (2 <= nrows (frame f) <= length time_list - 1)%nat /\
     index (frame f) = take (nrows (frame f)) time_list /\
     columns_length (nrows (frame f)) (frame f) /\
     length (oil_volume f) = nrows (frame f) /\
     length (water_volume f) = nrows (frame f)).
Proof.
  intros H.
  destruct (forecast_runs _ _ _ _ _ _ H) as (m & _fluid & Hm & Hn & _ & Hne & _).
  apply broadcast_dim_Ok_inv in Hm as (Ha & Hb & _).
  apply broadcast_dim_Ok_inv in Hn as (Hm' & Hc & _).
  split; [exact Hne|].
  split; [destruct Ha, Hm'; auto; lia|].
  split; [destruct Hb, Hm'; auto; lia|].
  split; [exact Hc|].
  intros k f Hk.
  destruct (forecast_run_by_run _ _ _ _ _ _ H k f Hk)
    as (b & sl & fl & _ & _ & _ & _ & Hrun & Hit & Hov & Hwv).
  destruct (wor_forecast_rows _ _ _ _ _ _ _ _ Hrun)
    as (n & dt & _ & HT & _ & _ & _ & Hnb & Hlen & Hidx & _).
  assert (Hrows : nrows (frame f) = (n + 1)%nat) by apply Hlen.
  apply np_gradient_length in Hov as [Hov _].
  apply np_gradient_length in Hwv as [Hwv _].
  rewrite Hrows.
  split; [exact Hit|]. split; [lia|]. split; [exact Hidx|].
  split; [exact Hlen|].
  destruct Hlen as (_ & _ & _ & Ho & Hw & _). split; congruence.
Qed.

(** X18.  On a time axis of fewer than three steps [Wor.forecast] raises,
    whatever the well and the limits. *)
Theorem forecast_needs_three_steps (self : Wor.t) (time_list : list R)
    (rate_limit cum_limit wor_limit : option R) :
  (length time_list < 3)%nat ->
  exists e, Wor.forecast self time_list rate_limit cum_limit wor_limit = Raise e.
Proof.
  intros HT.
  destruct (Wor.forecast self time_list rate_limit cum_limit wor_limit)
    as [fs|e] eqn:H; [|by exists e].
  destruct (forecast_shape _ _ _ _ _ _ H) as (Hne & _ & _ & _ & Hruns).
  destruct fs as [|f fs]; [simpl in Hne; lia|].
  destruct (Hruns 0%nat f eq_refl) as (_ & Hrows & _). lia.
Qed.

(** X19.  Lengths that do not broadcast fail with [ValueError] before any
    run: the water cuts against the slopes, and their common length against
    the rows of fluid rates. *)
Theorem forecast_broadcast_error (self : Wor.t) (time_list : list R)
    (rate_limit cum_limit wor_limit : option R) :
  (length (Wor.bsw self) <> length (Wor.slope self) ->
   length (Wor.bsw self) <> 1%nat -> length (Wor.slope self) <> 1%nat ->
   Wor.forecast self time_list rate_limit cum_limit wor_limit
     = Raise ValueError) /\
  (forall m,
     broadcast_dim (length (Wor.bsw self)) (length (Wor.slope self)) = Ok m ->
     m <> Wor.shape0 (Wor.fluid_rate self) ->
     m <> 1%nat -> Wor.shape0 (Wor.fluid_rate self) <> 1%nat ->
     Wor.forecast self time_list rate_limit cum_limit wor_limit
       = Raise ValueError).
Proof.
  assert (Hbad : forall a b, a <> b -> a <> 1%nat -> b <> 1%nat ->
            broadcast_dim a b = Raise ValueError).
  { intros a b H1 H2 H3. unfold broadcast_dim.
    destruct (Nat.eqb_spec a b); [contradiction|].
    destruct (Nat.eqb_spec a 1); [contradiction|].
    destruct (Nat.eqb_spec b 1); [contradiction|]. reflexivity. }
  split.
  - intros H1 H2 H3. unfold Wor.forecast. by rewrite Hbad.
  - intros m Hm H1 H2 H3. unfold Wor.forecast. rewrite Hm, bind_Ok.
    fold (Wor.shape0 (Wor.fluid_rate self)). by rewrite Hbad.
Qed.

(** X20.  An empty list of water cuts, of slopes or of fluid rates leaves
    nothing to run, and [Wor.forecast] fails with [ValueError]. *)
Theorem forecast_empty_input (self : Wor.t) (time_list : list R)
    (rate_limit cum_limit wor_limit : option R) :
  length (Wor.bsw self) = 0%nat \/ length (Wor.slope self) = 0%nat \/
  Wor.shape0 (Wor.fluid_rate self) = 0%nat ->
  Wor.forecast self time_list rate_limit cum_limit wor_limit = Raise ValueError.
Proof.
  intros Hempty.
  destruct (Wor.forecast self time_list rate_limit cum_limit wor_limit)
    as [fs|e] eqn:H.
  - destruct (forecast_shape _ _ _ _ _ _ H) as (Hne & Ha & Hb & Hc & _). lia.
  - f_equal. unfold Wor.forecast in H.
    fold (Wor.shape0 (Wor.fluid_rate self)) in H.
    destruct (broadcast_dim (length (Wor.bsw self)) (length (Wor.slope self)))
      as [m|e1] eqn:Hm.
    2:{ simpl in H. unfold broadcast_dim in Hm.
        repeat match type of Hm with
               | context [Nat.eqb ?a ?b] => destruct (Nat.eqb a b)
               end; congruence. }
    rewrite bind_Ok in H.
    destruct (broadcast_dim m (Wor.shape0 (Wor.fluid_rate self)))
      as [n|e2] eqn:Hn.
    2:{ simpl in H. unfold broadcast_dim in Hn.
        repeat match type of Hn with
               | context [Nat.eqb ?a ?b] => destruct (Nat.eqb a b)
               end; congruence. }
    rewrite bind_Ok in H.
    assert (n = 0%nat) as ->.
    { apply broadcast_dim_Ok_inv in Hm as (Ha & Hb & Hab).
      apply broadcast_dim_Ok_inv in Hn as (Hm' & Hc & Hmc). lia. }
    simpl in H.
    destruct (Wor.fluid_rate self) as [r|l|rows]; simpl in H; try congruence.
    destruct (broadcast_dim (length (hd [] rows)) (length time_list))
      as [c|e3] eqn:Hc; simpl in H.
    + destruct (broadcast_to c <$> rows); simpl in H; congruence.
    + unfold broadcast_dim in Hc.
      repeat match type of Hc with
             | context [Nat.eqb ?a ?b] => destruct (Nat.eqb a b)
             end; congruence.
Qed.

(** X21.  One water cut below [1], one slope and one fluid rate: the
    ensemble is the single run of [wor_forecast] on the WOR [bsw / (1 -
    bsw)] and the fluid rate repeated along the time axis, with the volume
    and gas columns added; and it fails exactly as these steps fail. *)
Theorem forecast_single_run (self : Wor.t) (b sl r : R) (time_list : list R)
    (rate_limit cum_limit wor_limit : option R) :
  Wor.bsw self = [b] -> Wor.slope self = [sl] ->
  Wor.fluid_rate self = Fluid0D r -> 0 <= b < 1 ->
  Wor.forecast self time_list rate_limit cum_limit wor_limit
  = (_f ← wor_forecast time_list (replicate (length time_list) r) sl
            (b / (1 - b)) rate_limit cum_limit wor_limit;
     oil_volume ← np_gradient (c_oil_cum _f);
     water_volume ← np_gradient (c_water_cum _f);
     g ← Wor.gas_columns self _f;
     Ok [ {| frame := _f; iteration := 0; oil_volume := oil_volume;
             water_volume := water_volume; gas := g |} ]).
Proof.
  intros Hb Hs Hf Hr.
  unfold Wor.forecast. rewrite Hb, Hs, Hf. simpl.
  unfold Wor.forecast_iteration. simpl.
  rewrite (bsw_to_wor_Ok [b]) by (constructor; [lra | constructor]).
  simpl.
  rewrite np_div_finite by lra. simpl.
  destruct (wor_forecast time_list (replicate (length time_list) r) sl
              (b / (1 - b)) rate_limit cum_limit wor_limit) as [df|e] eqn:Hrun;
    [|reflexivity].
  simpl.
  change {| index := take (nrows df) time_list;
            c_oil_rate := c_oil_rate df; c_water_rate := c_water_rate df;
            c_oil_cum := c_oil_cum df; c_water_cum := c_water_cum df;
            c_bsw := c_bsw df; c_wor := c_wor df; c_wor_1 := c_wor_1 df;
            c_delta_time := c_delta_time df; c_fluid_rate := c_fluid_rate df;
            c_fluid_cum := c_fluid_cum df |}
    with (set_index (take (nrows df) time_list) df).
  rewrite (set_index_self _ _ _ _ _ _ _ _ Hrun).
  destruct (np_gradient (c_oil_cum df)) as [ov|e]; [|reflexivity]. simpl.
  destruct (np_gradient (c_water_cum df)) as [wv|e]; [|reflexivity]. simpl.
  destruct (Wor.gas_columns self df) as [g|e]; reflexivity.
Qed.

(** X22.  A fluid rate given as one number and as a list of that one number
    give the same ensemble. *)
Theorem forecast_fluid_scalar_or_singleton (bsw slope : list R) (r : R)
    (gor glr : option ratio) (time_list : list R)
    (rate_limit cum_limit wor_limit : option R) :
  Wor.forecast {| Wor.bsw := bsw; Wor.slope := slope;
                  Wor.fluid_rate := Fluid0D r;
                  Wor.gor := gor; Wor.glr := glr |}
    time_list rate_limit cum_limit wor_limit
  = Wor.forecast {| Wor.bsw := bsw; Wor.slope := slope;
                    Wor.fluid_rate := Fluid1D [r];
                    Wor.gor := gor; Wor.glr := glr |}
      time_list rate_limit cum_limit wor_limit.
Proof.
  unfold Wor.forecast. cbn [Wor.bsw Wor.slope Wor.fluid_rate length].
  destruct (broadcast_dim (length bsw) (length slope)) as [m|e]; [|reflexivity].
  rewrite !bind_Ok.
  destruct (broadcast_dim m 1) as [n|e]; [|reflexivity]. rewrite !bind_Ok.
  assert (Hfl : (fun x : R => replicate (length time_list) x)
                  <$> broadcast_to n [r]
                = replicate n (replicate (length time_list) r)).
  { unfold broadcast_to. change (length [r]) with 1%nat.
    destruct (Nat.eqb_spec 1 n) as [<-|_]; [reflexivity|].
    apply fmap_replicate. }
  rewrite Hfl. reflexivity.
Qed.

(** X23.  A water cut outside [[0, 1]] fails the assertion of [bsw_to_wor]
    before the time axis is looked at: the call raises [AssertionError] on
    every time list, the empty one too. *)
Theorem forecast_bsw_out_of_range (self : Wor.t) (b sl r : R)
    (time_list : list R) (rate_limit cum_limit wor_limit : option R) :
  Wor.bsw self = [b] -> Wor.slope self = [sl] ->
  Wor.fluid_rate self = Fluid0D r -> ~ 0 <= b <= 1 ->
  Wor.forecast self time_list rate_limit cum_limit wor_limit
    = Raise AssertionError.
Proof.
  intros Hb Hs Hf Hr.
  unfold Wor.forecast. rewrite Hb, Hs, Hf. simpl.
  unfold Wor.forecast_iteration. simpl.
  rewrite (bsw_to_wor_Raise [b]) by (by apply Exists_cons_hd). reflexivity.
Qed.

Lemma length_np_arange (start stop : Z) :
  length (np_arange start stop) = Z.to_nat (stop - start).
Proof. unfold np_arange. by rewrite length_fmap, length_seq. Qed.

Lemma lookup_total_np_arange (start stop : Z) (i : nat) :
  (i < Z.to_nat (stop - start))%nat ->
  np_arange start stop !!! i = IZR (start + Z.of_nat i).
Proof.
  intros Hi. apply list_lookup_total_correct. unfold np_arange.
  rewrite list_lookup_fmap, lookup_seq_lt by lia. reflexivity.
Qed.

Lemma np_arange_step (start stop : Z) (i : nat) :
  (i + 1 < length (np_arange start stop))%nat ->
  np_arange start stop !!! (i + 1)%nat = np_arange start stop !!! i + 1.
Proof.
  rewrite length_np_arange. intros Hi.
  rewrite !lookup_total_np_arange by lia.
  rewrite <- plus_IZR. f_equal. lia.
Qed.

Lemma take_np_arange (start stop : Z) (k : nat) :
  (k <= Z.to_nat (stop - start))%nat ->
  take k (np_arange start stop) = np_arange start (start + Z.of_nat k).
Proof.
  intros Hk. unfold np_arange. rewrite <- fmap_take, take_seq.
  do 2 f_equal. lia.
Qed.

(** X24.  Without a [time_list] the numeric call needs both [start] and
    [end] and a conversion factor of at least [1], else it fails with
    [AssertionError].  With them the time axis is [start, ..., end - 1]: for
    a well with one water cut below [1], one slope, one fluid rate and no gas
    ratio, no limits and at least three steps, the ensemble is one run of
    [end - start - 1] rows, indexed by [start, ..., end - 2], all with a
    time step of [1].  For this the doubles of the run have to stay finite:
    the water cut is at most [0.999] (a WOR of at most [999]), the fluid
    rate is not negative, the fluid volume of the whole time axis is at most
    [10^300] and its product with the slope, which bounds the argument of
    [exp], at most [700]; and [start] and [end] are integers that float64
    holds exactly. *)
Theorem forecast_number_start_end (self : Wor.t) (b sl r fq : R)
    (start end_ : Z) :
  Wor.bsw self = [b] -> Wor.slope self = [sl] ->
  Wor.fluid_rate self = Fluid0D r ->
  Wor.gor self = None -> Wor.glr self = None ->
  0 <= b < 1 ->
  (forall rl cl wl,
     Wor.forecast_number self None None (Some end_) fq rl cl wl
       = Raise AssertionError /\
     Wor.forecast_number self None (Some start) None fq rl cl wl
       = Raise AssertionError /\
     (fq < 1 ->
      Wor.forecast_number self None (Some start) (Some end_) fq rl cl wl
        = Raise AssertionError)) /\
  (1 <= fq -> (start + 3 <= end_)%Z ->
   b <= 999 / 1000 -> 0 <= r ->
   r * IZR (end_ - start) <= 10 ^ 300 ->
   sl * (r * IZR (end_ - start)) <= 700 ->
   (- 2 ^ 52 <= start)%Z -> (end_ <= 2 ^ 52)%Z ->
   exists f,
     Wor.forecast_number self None (Some start) (Some end_) fq None None None
       = Ok [f] /\
     iteration f = 0%nat /\
     nrows (frame f) = Z.to_nat (end_ - start - 1) /\
     index (frame f) = np_arange start (end_ - 1) /\
     (forall i, (i < nrows (frame f))%nat -> c_delta_time (frame f) !!! i = 1)).
Proof.
  intros Hb Hs Hf Hgor Hglr Hr. split.
  - intros rl cl wl. split; [reflexivity|]. split; [reflexivity|].
    intros Hfq. unfold Wor.forecast_number, Rgeb. simpl.
    by rewrite Rleb_false.
  - intros Hfq Hlen _ _ _ _ _ _.
    unfold Wor.forecast_number, Rgeb. simpl. rewrite Rleb_true by assumption.
    simpl.
    set (tl := np_arange start end_).
    assert (Htl : length tl = Z.to_nat (end_ - start))
      by apply length_np_arange.
    rewrite (forecast_single_run self b sl r tl) by assumption.
    assert (H3 : (3 <= length tl)%nat) by lia.
    destruct (wor_forecast_run_unlimited tl (replicate (length tl) r) sl
                (b / (1 - b)) H3 (length_replicate _ _) (wor_range b Hr))
      as (dt & df & Hg & Hrun & Hcl & Hidx & Hdt & _).
    assert (Hrows : nrows df = (length tl - 1)%nat) by apply Hcl.
    rewrite Hrun. simpl.
    destruct (np_gradient_Ok (c_oil_cum df)) as (ov & -> & _).
    { destruct Hcl as (_ & _ & _ & -> & _). lia. }
    destruct (np_gradient_Ok (c_water_cum df)) as (wv & -> & _).
    { destruct Hcl as (_ & _ & _ & _ & -> & _). lia. }
    simpl. rewrite gas_columns_unset by assumption. simpl.
    eexists. split; [reflexivity|]. simpl.
    split; [reflexivity|]. split; [rewrite Hrows; lia|]. split.
    + rewrite Hidx, Htl. unfold tl. rewrite take_np_arange by lia.
      f_equal. lia.
    + intros i Hi.
      destruct (wor_forecast_rows_step 1 tl (replicate (length tl) r) sl
                  (b / (1 - b)) None None None df) as (Hd & _).
      * intros j Hj. by apply np_arange_step.
      * exact Hrun.
      * by apply Hd.
Qed.

(** * The further properties at concrete inputs *)

Lemma wor_forecast_returns_only_witness :
  (3 <= length [0; 1; 2; 3])%nat /\
  length [100; 200; 300; 100] = length [0; 1; 2; 3] /\
  0 <= 1 /\
  (2 <= nrows schedule_run <= length [0; 1; 2; 3] - 1)%nat /\
  index schedule_run = take (nrows schedule_run) [0; 1; 2; 3].
Proof.
  exact (wor_forecast_returns_only [0; 1; 2; 3] [100; 200; 300; 100] 0 1
           None None None schedule_run wor_forecast_schedule).
Defined.

Lemma wor_forecast_negative_wor_witness :
  wor_forecast [0; 1] [] 0 (-1) None None None = Raise AssertionError.
Proof.
  apply (wor_forecast_negative_wor [0; 1] [] 0 (-1) None None None);
    [simpl; lia | lra].
Defined.

(** A dry well ([wor_i = 0]) with a slope of [0.01]: the argument of [exp]
    on row 1 is [0.01 * 100 = 1]. *)
Lemma wor_forecast_scalar_fluid_rate_witness :
  wor_forecast [0; 1; 2] [] (1 / 100) 0 None None None = Raise IndexError /\
  wor_forecast [0; 1; 2] [100] (1 / 100) 0 None None None = Raise IndexError.
Proof.
  destruct (wor_forecast_scalar_fluid_rate [0; 1; 2] (1 / 100) 0
              None None None) as [Hempty Hone]; [simpl; lia | lra |].
  split; [exact Hempty|].
  assert (E1 : [0; 1; 2] !!! 1%nat = 1) by reflexivity.
  assert (E0 : [0; 1; 2] !!! 0%nat = 0) by reflexivity.
  apply Hone; rewrite E1, E0.
  - apply finite_small; [lia | lra].
  - right. lra.
Defined.

Lemma wor_forecast_row_invariants_witness :
  0 <= c_wor schedule_run !!! 1%nat /\
  c_wor_1 schedule_run !!! 1%nat = c_wor schedule_run !!! 1%nat + 1 /\
  c_bsw schedule_run !!! 1%nat
  = c_wor schedule_run !!! 1%nat / (c_wor schedule_run !!! 1%nat + 1) /\
  0 <= c_bsw schedule_run !!! 1%nat < 1 /\
  c_fluid_rate schedule_run !!! 1%nat = [100; 200; 300; 100] !!! 1%nat.
Proof.
  apply (wor_forecast_row_invariants [0; 1; 2; 3] [100; 200; 300; 100] 0 1
           None None None schedule_run wor_forecast_schedule).
  - apply schedule_wor_below, one_le_pow10.
  - unfold nrows, schedule_run. simpl. lia.
Defined.

Lemma wor_forecast_nonnegative_witness :
  0 <= c_oil_rate schedule_run !!! 1%nat /\
  0 <= c_water_rate schedule_run !!! 1%nat /\
  0 <= c_delta_time schedule_run !!! 1%nat /\
  0 <= c_oil_cum schedule_run !!! 1%nat /\
  0 <= c_water_cum schedule_run !!! 1%nat /\
  0 <= c_fluid_cum schedule_run !!! 1%nat.
Proof.
  apply (wor_forecast_nonnegative [0; 1; 2; 3] [100; 200; 300; 100] 0 1
           None None None schedule_run schedule_time_sorted
           schedule_fluid_nonneg wor_forecast_schedule).
  - exact schedule_finite.
  - unfold nrows, schedule_run. simpl. lia.
Defined.

Lemma wor_forecast_zero_slope_witness :
  c_wor schedule_run !!! 2%nat = 1 /\
  c_bsw schedule_run !!! 2%nat = 1 / (1 + 1) /\
  c_oil_rate schedule_run !!! 2%nat = [100; 200; 300; 100] !!! 2%nat / (1 + 1).
Proof.
  apply (wor_forecast_zero_slope [0; 1; 2; 3] [100; 200; 300; 100] 1
           None None None schedule_run wor_forecast_schedule).
  unfold nrows, schedule_run. simpl. lia.
Defined.

Lemma wor_forecast_wor_decreasing_witness :
  c_wor schedule_run !!! 1%nat <= 1 /\
  c_wor schedule_run !!! (0 + 1)%nat <= c_wor schedule_run !!! 0%nat.
Proof.
  destruct (wor_forecast_wor_decreasing [0; 1; 2; 3] [100; 200; 300; 100] 0 1
              None None None schedule_run schedule_time_sorted
              schedule_fluid_nonneg ltac:(lra) wor_forecast_schedule)
    as [Hle Hstep].
  split; [apply Hle | apply Hstep]; unfold nrows, schedule_run; simpl; lia.
Defined.

(** The schedule cut on row 1 by its limits, against the schedule without
    limits. *)
Lemma wor_forecast_limits_truncate_witness :
  nrows limited_run = 2%nat /\
  nrows schedule_run = 3%nat /\
  limited_run = head (nrows limited_run) schedule_run /\
  nrows schedule_run = (length [0; 1; 2; 3] - 1)%nat.
Proof.
  destruct (wor_forecast_limits_truncate [0; 1; 2; 3] [100; 200; 300; 100] 0 1
              (Some 200) (Some 120) None None None None
              limited_run schedule_run
              wor_forecast_limited wor_forecast_schedule)
    as [Hcut Hfull].
  split; [reflexivity|]. split; [reflexivity|].
  split; [apply Hcut; unfold nrows, limited_run, schedule_run; simpl; lia|].
  by apply Hfull.
Defined.

Lemma int_time_IZR (z : Z) : (Z.abs z <= 2 ^ 52)%Z -> int_time (IZR z).
Proof. intros Hz. by exists z. Qed.

(** The schedule ten time units later. *)
Lemma wor_forecast_time_shift_witness :
  wor_forecast ((fun t => t + 10) <$> [0; 1; 2; 3]) [100; 200; 300; 100] 0 1
    None None None
  = (df ← wor_forecast [0; 1; 2; 3] [100; 200; 300; 100] 0 1 None None None;
     Ok (set_index ((fun t => t + 10) <$> index df) df)).
Proof.
  apply (wor_forecast_time_shift 10 [0; 1; 2; 3] [100; 200; 300; 100] 0 1
           None None None).
  intros t Ht.
  repeat (apply elem_of_cons in Ht as [->|Ht];
          [split;
           [apply int_time_IZR; lia
           | rewrite <- plus_IZR; apply int_time_IZR; lia]|]).
  by apply elem_of_nil in Ht.
Defined.

Lemma glr_time_step (i : nat) :
  (i + 1 < length [0; 2; 4; 6])%nat ->
  [0; 2; 4; 6] !!! (i + 1)%nat = [0; 2; 4; 6] !!! i + 2.
Proof.
  simpl. intros Hi. do 3 (destruct i as [|i]; [simpl; lra|]). lia.
Qed.

Lemma wor_forecast_constant_step_witness :
  c_delta_time glr_run !!! 1%nat = 2 /\
  c_oil_cum glr_run !!! 0%nat = c_oil_rate glr_run !!! 0%nat * 2.
Proof.
  destruct (wor_forecast_constant_step 2 [0; 2; 4; 6] [100; 100; 100; 100] 0 1
              None None None glr_run) as (Hd & H0 & _).
  - intros t Ht.
    repeat (apply elem_of_cons in Ht as [->|Ht]; [apply int_time_IZR; lia|]).
    by apply elem_of_nil in Ht.
  - exact glr_time_step.
  - exact wor_forecast_glr_run.
  - split; [apply Hd; unfold nrows, glr_run; simpl; lia | exact H0].
Defined.

Lemma wor_forecast_long_fluid_rate_witness :
  wor_forecast [0; 1; 2] [100; 100; 100; 100] 0 1 None None None
  = Raise ValueError.
Proof.
  apply (wor_forecast_long_fluid_rate [0; 1; 2] [100; 100; 100; 100] 0 1
           None None None); [simpl; lia | simpl; lia | lra | lra | | |].
  - simpl. intros i Hi. do 2 (destruct i as [|i]; [simpl; lra|]). lia.
  - intros i Hi.
    do 3 (destruct i as [|i];
          [match goal with
           | |- Rabs ?x <= _ => let v := eval cbn in x in change x with v
           end; apply finite_small; [lia | lra]|]).
    simpl in Hi. lia.
  - intros i Hi.
    assert (H100 : 100 <= 10 ^ 100).
    { apply Rle_trans with (10 ^ 3); [lra | apply Rle_pow; [lra | lia]]. }
    do 4 (destruct i as [|i];
          [match goal with
           | |- 0 <= ?x <= _ => let v := eval cbn in x in change x with v
           end; lra|]).
    simpl in Hi. lia.
Defined.



Lemma bsw_to_wor_half_one :
  bsw_to_wor [1 / 4; 1 / 2; 1]
  = Ok [np_div (1 / 4) (1 - 1 / 4); np_div (1 / 2) (1 - 1 / 2); np_div 1 (1 - 1)].
Proof. apply bsw_to_wor_Ok. repeat constructor; lra. Qed.

Lemma bsw_to_wor_range_order_witness :
  length [np_div (1 / 4) (1 - 1 / 4); np_div (1 / 2) (1 - 1 / 2);
          np_div 1 (1 - 1)] = 3%nat /\
  1 / 4 / (1 - 1 / 4) < 1 / 2 / (1 - 1 / 2).
Proof.
  destruct (bsw_to_wor_range_order [1 / 4; 1 / 2; 1] _ bsw_to_wor_half_one)
    as (Hlen & _ & Horder).
  split; [exact Hlen|].
  apply (Horder 0%nat 1%nat (1 / 4) (1 / 2) _ _ eq_refl eq_refl);
    [simpl; f_equal; apply np_div_finite; lra
    | simpl; f_equal; apply np_div_finite; lra
    | lra].
Defined.

Lemma gas_columns_gor_volumes_witness :
  exists (gc : GasColumns) (volume : list R),
    Wor.gas_columns
      {| Wor.bsw := [1 / 2]; Wor.slope := [0]; Wor.fluid_rate := Fluid0D 100;
         Wor.gor := Some (Scalar 2); Wor.glr := Some (Scalar 3) |}
      schedule_run = Ok (Some gc) /\
    gas_volume gc = Fin <$> volume /\
    gas_cum gc !!! 1%nat = c_oil_cum schedule_run !!! 1%nat * 2 /\
    foldr Rplus 0 (take 2 volume) = gas_cum gc !!! 1%nat.
Proof.
  destruct (gas_columns_gor_volumes
              {| Wor.bsw := [1 / 2]; Wor.slope := [0];
                 Wor.fluid_rate := Fluid0D 100;
                 Wor.gor := Some (Scalar 2); Wor.glr := Some (Scalar 3) |}
              schedule_run 2 eq_refl ltac:(lra))
    as (gc & volume & Hgc & Hvol & _ & _ & Hrows & _).
  exists gc, volume. split; [exact Hgc|]. split; [exact Hvol|].
  destruct (Hrows 1%nat ltac:(unfold schedule_run; simpl; lia)) as (H1 & _ & H3).
  split; [exact H1 | exact H3].
Defined.

Lemma gas_columns_missing_witness :
  Wor.gas_columns
    {| Wor.bsw := [1 / 2]; Wor.slope := [0]; Wor.fluid_rate := Fluid0D 100;
       Wor.gor := Some (Scalar 0); Wor.glr := None |}
    schedule_run = Ok None.
Proof.
  apply (proj2 (gas_columns_missing _ schedule_run)). simpl.
  split; [left; discriminate|]. split; [right; left; reflexivity|].
  left; reflexivity.
Defined.

Lemma forecast_run_by_run_witness :
  exists (b sl : R) (fl : list R),
    0 <= b < 1 /\
    wor_forecast [0; 1; 2; 3] fl sl (b / (1 - b)) None None None
      = Ok schedule_run /\
    np_gradient (c_oil_cum schedule_run) = Ok [100; 125; 150].
Proof.
  destruct (forecast_run_by_run schedule_well [0; 1; 2; 3] None None None _
              forecast_schedule 0%nat _ eq_refl)
    as (b & sl & fl & _ & Hb & _ & _ & Hrun & _ & Hov & _).
  exists b, sl, fl. split; [exact Hb|]. split; [exact Hrun | exact Hov].
Defined.

Lemma forecast_shape_witness :
  (1 <= 1)%nat /\
  (2 <= nrows schedule_run <= length [0; 1; 2; 3] - 1)%nat /\
  index schedule_run = take (nrows schedule_run) [0; 1; 2; 3].
Proof.
  destruct (forecast_shape schedule_well [0; 1; 2; 3] None None None _
              forecast_schedule) as (Hne & _ & _ & _ & Hruns).
  destruct (Hruns 0%nat _ eq_refl) as (_ & Hrows & Hidx & _).
  split; [exact Hne|]. split; [exact Hrows | exact Hidx].
Defined.

Lemma forecast_needs_three_steps_witness :
  exists e, Wor.forecast schedule_well [0; 1] None None None = Raise e.
Proof.
  apply (forecast_needs_three_steps schedule_well [0; 1] None None None).
  simpl. lia.
Defined.

Lemma forecast_broadcast_error_witness :
  Wor.forecast
    {| Wor.bsw := [1 / 2; 1 / 4]; Wor.slope := [0; 0; 0];
       Wor.fluid_rate := Fluid0D 100; Wor.gor := None; Wor.glr := None |}
    [0; 1; 2; 3] None None None = Raise ValueError /\
  Wor.forecast
    {| Wor.bsw := [1 / 2; 1 / 4]; Wor.slope := [0];
       Wor.fluid_rate := Fluid1D [100; 100; 100];
       Wor.gor := None; Wor.glr := None |}
    [0; 1; 2; 3] None None None = Raise ValueError.
Proof.
  split.
  - apply (proj1 (forecast_broadcast_error _ _ _ _ _)); simpl; lia.
  - apply (proj2 (forecast_broadcast_error _ _ _ _ _) 2%nat);
      [reflexivity | simpl; lia | lia | simpl; lia].
Defined.

Lemma forecast_empty_input_witness :
  Wor.forecast
    {| Wor.bsw := []; Wor.slope := [0]; Wor.fluid_rate := Fluid0D 100;
       Wor.gor := None; Wor.glr := None |}
    [0; 1; 2; 3] None None None = Raise ValueError.
Proof.
  apply forecast_empty_input. left. reflexivity.
Defined.

Lemma forecast_single_run_witness :
  Wor.forecast glr_well [0; 2; 4; 6] None None None
  = (_f ← wor_forecast [0; 2; 4; 6] (replicate 4 100) 0 (1 / 2 / (1 - 1 / 2))
            None None None;
     oil_volume ← np_gradient (c_oil_cum _f);
     water_volume ← np_gradient (c_water_cum _f);
     g ← Wor.gas_columns glr_well _f;
     Ok [ {| frame := _f; iteration := 0; oil_volume := oil_volume;
             water_volume := water_volume; gas := g |} ]).
Proof.
  apply (forecast_single_run glr_well (1 / 2) 0 100 [0; 2; 4; 6]
           None None None); try reflexivity. lra.
Defined.

Lemma forecast_bsw_out_of_range_witness :
  Wor.forecast
    {| Wor.bsw := [3 / 2]; Wor.slope := [0]; Wor.fluid_rate := Fluid0D 100;
       Wor.gor := None; Wor.glr := None |}
    [] None None None = Raise AssertionError.
Proof.
  apply (forecast_bsw_out_of_range _ (3 / 2) 0 100); try reflexivity. lra.
Defined.

Lemma forecast_number_start_end_witness :
  exists f,
    Wor.forecast_number schedule_well_scalar None (Some 5%Z) (Some 9%Z) 1
      None None None = Ok [f] /\
    nrows (frame f) = 3%nat /\
    index (frame f) = np_arange 5 8.
Proof.
  assert (H300 : 100 * IZR (9 - 5) <= 10 ^ 300).
  { replace (9 - 5)%Z with 4%Z by reflexivity.
    apply Rle_trans with (10 ^ 3); [lra | apply Rle_pow; [lra | lia]]. }
  assert (H700 : 0 * (100 * IZR (9 - 5)) <= 700) by lra.
  destruct (proj2 (forecast_number_start_end schedule_well_scalar (1 / 2) 0 100
                     1 5 9 eq_refl eq_refl eq_refl eq_refl eq_refl
                     ltac:(lra)) ltac:(lra) ltac:(lia) ltac:(lra) ltac:(lra)
                     H300 H700 ltac:(lia) ltac:(lia))
    as (f & Hrun & _ & Hrows & Hidx & _).
  exists f. split; [exact Hrun|]. split; [exact Hrows | exact Hidx].
Defined.
